(** * autoenergy: the decision controller, the update tick and the
      history endpoints

    A shallow embedding of the Go packages [pkg/types], [pkg/controller]
    and [pkg/server] of autoenergy.

    - [float64] is Rocq's primitive binary64 [float]; every comparison and
      arithmetic operation below is the IEEE 754 one Go performs.
    - [time.Time] is the instant it denotes, an integer count of
      nanoseconds since Go's zero time; [time.Duration] is a count of
      nanoseconds as well.  The times a handler uses as map keys all come
      from the storage, in one location, so that two keys are equal when
      their instants are.
    - A Go [error] is the text its [Error()] method returns. *)

From Stdlib Require Import ZArith List String Ascii Bool Floats Lia.
From stdpp Require Import gmap.
Import ListNotations.

#[local] Set Warnings "-inexact-float".
#[local] Open Scope Z_scope.

(** ** Go's [time] package, as far as the handlers use it *)

Module time.

Definition Time : Set := Z.
Definition Duration : Set := Z.

Definition Nanosecond : Duration := 1.
Definition Second : Duration := 1000000000.
Definition Minute : Duration := 60 * Second.
Definition Hour : Duration := 60 * Minute.

(** [math.MinInt64] and [math.MaxInt64], the range of a [Duration]. *)
Definition minDuration : Duration := - 2 ^ 63.
Definition maxDuration : Duration := 2 ^ 63 - 1.

(** [t.Add(d)]. *)
Definition Add (t : Time) (d : Duration) : Time := t + d.

(** [t.Sub(u)]: the difference, saturated to the range of a [Duration]. *)
Definition Sub (t u : Time) : Duration :=
  let d := t - u in
  if d <? minDuration then minDuration
  else if maxDuration <? d then maxDuration
  else d.

Definition Before (t u : Time) : bool := t <? u.
Definition After (t u : Time) : bool := u <? t.

(** [t.Truncate(d)]: [t] rounded down to a multiple of [d] since the
    zero time; [t] itself when [d <= 0]. *)
Definition Truncate (t : Time) (d : Duration) : Time :=
  if d <=? 0 then t else t - t mod d.

(** The zero value [time.Time{}] and [t.IsZero()]. *)
Definition zero : Time := 0.
Definition IsZero (t : Time) : bool := t =? 0.

End time.

(** ** [pkg/types]

    Of this package the sources hold [settings.go].  The other types are
    declared with the fields the handlers and the tests use, which are
    the fields section 3 of the specification lists. *)

(** Modelled from the spec: the enum [types.BatteryMode] of section 3,
    whose declaration is missing. *)
Inductive BatteryMode : Set :=
| BatteryModeNoChange
| BatteryModeStandby
| BatteryModeChargeAny
| BatteryModeChargeSolar
| BatteryModeLoad.

(** Modelled from the spec: the enum [types.SolarMode] of section 3,
    whose declaration is missing. *)
Inductive SolarMode : Set :=
| SolarModeNoChange
| SolarModeNoExport
| SolarModeAny.

(** The comparison [a == b] of two battery modes. *)
Definition BatteryMode_eqb (a b : BatteryMode) : bool :=
  match a, b with
  | BatteryModeNoChange, BatteryModeNoChange
  | BatteryModeStandby, BatteryModeStandby
  | BatteryModeChargeAny, BatteryModeChargeAny
  | BatteryModeChargeSolar, BatteryModeChargeSolar
  | BatteryModeLoad, BatteryModeLoad => true
  | _, _ => false
  end.

Module Price.
(** Modelled from the spec: the struct [types.Price] of section 3, whose
    declaration is missing. *)
Record t : Set := mk {
  DollarsPerKWH : float;
  TSStart : time.Time;
  TSEnd : time.Time
}.
End Price.

Module EnergyStats.
(** Modelled from the spec: the struct [types.EnergyStats] of section 3,
    whose declaration is missing. *)
Record t : Set := mk {
  TSHourStart : time.Time;
  HomeKWH : float;
  SolarKWH : float;
  GridImportKWH : float;
  GridExportKWH : float;
  BatteryUsedKWH : float;
  BatteryChargedKWH : float;
  SolarToHomeKWH : float;
  BatteryToHomeKWH : float;
  SolarToBatteryKWH : float
}.
End EnergyStats.

Module SystemStatus.
(** Modelled from the spec: the struct [types.SystemStatus] of section
    3, whose declaration is missing. *)
Record t : Set := mk {
  BatterySOC : float;
  BatteryCapacityKWH : float;
  MaxBatteryChargeKW : float;
  BatteryKW : float;
  SolarKW : float;
  HomeKW : float;
  GridKW : float;
  EmergencyMode : bool;
  CanImportBattery : bool;
  CanExportBattery : bool;
  CanExportSolar : bool
}.
End SystemStatus.

Module Settings.
(** [types.Settings], field for field as in [pkg/types/settings.go]. *)
Record t : Set := mk {
  DryRun : bool;
  Pause : bool;
  AlwaysChargeUnderDollarsPerKWH : float;
  AdditionalFeesDollarsPerKWH : float;
  MinArbitrageDifferenceDollarsPerKWH : float;
  MinBatterySOC : float;
  GridChargeBatteries : bool;
  GridExportSolar : bool
}.

(** [settings] with its field [DryRun] set to [b]. *)
Definition setDryRun (b : bool) (s : t) : t :=
  mk b (Pause s) (AlwaysChargeUnderDollarsPerKWH s)
     (AdditionalFeesDollarsPerKWH s)
     (MinArbitrageDifferenceDollarsPerKWH s) (MinBatterySOC s)
     (GridChargeBatteries s) (GridExportSolar s).
End Settings.

Module Action.
(** Modelled from the spec: the struct [types.Action] of section 3,
    whose declaration is missing, and the assignments to its fields. *)
Record t : Set := mk {
  Timestamp : time.Time;
  BatteryMode : BatteryMode;
  SolarMode : SolarMode;
  Description : string;
  CurrentPrice : Price.t;
  DryRun : bool
}.

(** [action.Timestamp = ts]. *)
Definition setTimestamp (ts : time.Time) (a : t) : t :=
  mk ts (BatteryMode a) (SolarMode a) (Description a) (CurrentPrice a)
     (DryRun a).
(** [action.Description = d]. *)
Definition setDescription (d : string) (a : t) : t :=
  mk (Timestamp a) (BatteryMode a) (SolarMode a) d (CurrentPrice a)
     (DryRun a).
(** [action.DryRun = b]. *)
Definition setDryRun (b : bool) (a : t) : t :=
  mk (Timestamp a) (BatteryMode a) (SolarMode a) (Description a)
     (CurrentPrice a) b.
End Action.

Module Decision.
(** Modelled from the spec: the result of [Decide], of which
    [handleUpdate] reads [Action] and [Explanation]. *)
Record t : Set := mk {
  Action : Action.t;
  Explanation : string
}.
End Decision.

(** ** [float64] helpers *)

Module float64.
#[local] Open Scope float_scope.

(** [math.Max], case for case as Go's library defines it. *)
Definition Max (x y : float) : float :=
  if (is_infinity x && negb (get_sign x)) || (is_infinity y && negb (get_sign y))
  then infinity
  else if is_nan x || is_nan y then nan
  else if (x =? 0) && (x =? y) then (if get_sign x then y else x)
  else if y <? x then x else y.

(** [math.Min]. *)
Definition Min (x y : float) : float :=
  if (is_infinity x && get_sign x) || (is_infinity y && get_sign y)
  then neg_infinity
  else if is_nan x || is_nan y then nan
  else if (x =? 0) && (x =? y) then (if get_sign x then x else y)
  else if x <? y then x else y.

(** The conversion [float64(n)] of a non-negative [int]. *)
Definition ofZ (n : Z) : float := of_uint63 (Uint63.of_Z n).

End float64.

(** [strings.Contains(s, substr)], which [assert.Contains] applies to a
    description. *)
Fixpoint stringsContains (s substr : string) : bool :=
  String.prefix substr s
  || match s with
     | EmptyString => false
     | String _ rest => stringsContains rest substr
     end.

(** ** [pkg/controller]: the decision controller

    The Go source of [Decide] is not part of the sources at hand; only its
    test, [TestDecide], and its caller, [handleUpdate], are.  The
    definitions of this module follow sections 4.1.1 to 4.1.4 of the
    specification sentence by sentence.  Where the specification leaves a
    choice open, the choice made is the one [TestDecide] confirms, and it
    is named in the comment of the definition. *)

Module controller.
#[local] Open Scope float_scope.

(** Modelled from the spec: the constants of [pkg/controller] that
    sections 4.1.1 and 9 name without giving them a value: the cap on an
    hour's usage as a multiple of the median
    ([IgnoreHourUsageOverMultiple], which [types.Settings] of
    [settings.go] does not carry), the epsilon under the solar trend
    ratio, the sentinel for an unknown number of hours, and the offset of
    local time. *)
Record Policy : Set := mkPolicy {
  IgnoreHourUsageOverMultiple : float;
  SolarEpsilon : float;
  UnknownHours : Z;
  LocalOffset : time.Duration
}.

(** Modelled from the spec: 4.1.1 item 1, the effective current price. *)
Definition effectiveCurrentPrice (currentPrice : Price.t) (settings : Settings.t) : float :=
  Price.DollarsPerKWH currentPrice + Settings.AdditionalFeesDollarsPerKWH settings.

(** Modelled from the spec: the future prices within the next 24 hours
    (4.1.1 items 2 and 3): those that start after [now] and no later than
    24 hours from [now]. *)
Definition futureWindow (now : time.Time) (futurePrices : list Price.t) : list Price.t :=
  List.filter
    (fun p => (now <? Price.TSStart p)%Z
              && (Price.TSStart p <=? time.Add now (24 * time.Hour)%Z)%Z)
    futurePrices.

(** Modelled from the spec: 4.1.1 item 2; the first of the cheapest
    prices of the window, if there is one. *)
Definition cheapestFuture (window : list Price.t) : option Price.t :=
  List.fold_left
    (fun best p =>
       match best with
       | None => Some p
       | Some b => if Price.DollarsPerKWH p <? Price.DollarsPerKWH b then Some p else best
       end)
    window None.

(** Modelled from the spec: 4.1.1 item 3; the first of the most
    expensive prices of the window. *)
Definition mostExpensiveFuture (window : list Price.t) : option Price.t :=
  List.fold_left
    (fun best p =>
       match best with
       | None => Some p
       | Some b => if Price.DollarsPerKWH b <? Price.DollarsPerKWH p then Some p else best
       end)
    window None.

(** Modelled from the spec: the price of an optional future hour, with
    the value 4.1.1 gives when there is none. *)
Definition priceOr (none : float) (p : option Price.t) : float :=
  match p with
  | Some q => Price.DollarsPerKWH q
  | None => none
  end.

(** Modelled from the spec: the hours of [history] that start in
    [now - from, now - upto), for the windows of 4.1.1 items 4 and 5. *)
Definition hoursBetween (now : time.Time) (from upto : time.Duration)
  (history : list EnergyStats.t) : list EnergyStats.t :=
  List.filter
    (fun e => (time.Add now (- from) <=? EnergyStats.TSHourStart e)%Z
              && (EnergyStats.TSHourStart e <? time.Add now (- upto))%Z)
    history.

(** Modelled from the spec: the sum of a list of readings, added in
    order from 0. *)
Definition sumKWH (xs : list float) : float := List.fold_left add xs 0.

(** Modelled from the spec: the mean of 4.1.1 items 4 and 5, 0 when
    there is no data. *)
Definition meanKWH (xs : list float) : float :=
  match xs with
  | [] => 0
  | _ => sumKWH xs / float64.ofZ (Z.of_nat (List.length xs))
  end.

(** Modelled from the spec: insertion into a sorted list, for the median
    of 4.1.1 item 4. *)
Fixpoint insertSorted (x : float) (xs : list float) : list float :=
  match xs with
  | [] => [x]
  | y :: ys => if x <=? y then x :: xs else y :: insertSorted x ys
  end.

(** Modelled from the spec: the readings in ascending order, for the
    median. *)
Definition sortKWH (xs : list float) : list float :=
  List.fold_right insertSorted [] xs.

(** Modelled from the spec: the median of 4.1.1 item 4; the mean of the
    two middle readings when their number is even. *)
Definition medianKWH (xs : list float) : float :=
  let s := sortKWH xs in
  let n := List.length s in
  if Nat.even n
  then (List.nth (n / 2 - 1)%nat s 0 + List.nth (n / 2)%nat s 0) / 2
  else List.nth (n / 2)%nat s 0.

(** Modelled from the spec: 4.1.1 item 4, the projected hourly load. *)
Definition avgLoadKWH (pol : Policy) (now : time.Time) (history : list EnergyStats.t) : float :=
  let loads :=
    List.filter (fun x => negb (x =? 0))
      (List.map EnergyStats.HomeKWH (hoursBetween now (72 * time.Hour)%Z 0%Z history)) in
  let cap := medianKWH loads * IgnoreHourUsageOverMultiple pol in
  meanKWH (List.map (fun x => if cap <? x then cap else x) loads).

(** Modelled from the spec: 4.1.1 item 5, the hourly solar of the hours
    24 to 48 ago. *)
Definition avgSolarYesterday (now : time.Time) (history : list EnergyStats.t) : float :=
  meanKWH (List.map EnergyStats.SolarKWH
             (hoursBetween now (48 * time.Hour)%Z (24 * time.Hour)%Z history)).

(** Modelled from the spec: 4.1.1 item 5, the hourly solar of the last
    24 hours. *)
Definition avgSolarToday (now : time.Time) (history : list EnergyStats.t) : float :=
  meanKWH (List.map EnergyStats.SolarKWH (hoursBetween now (24 * time.Hour)%Z 0%Z history)).

(** Modelled from the spec: 4.1.1 item 5, the solar trend ratio,
    clipped to [0.25, 4.0]. *)
Definition solarTrendRatio (pol : Policy) (now : time.Time) (history : list EnergyStats.t) : float :=
  let ratio :=
    avgSolarToday now history
    / float64.Max (avgSolarYesterday now history) (SolarEpsilon pol) in
  float64.Min (float64.Max ratio 0.25) 4.0.

(** Modelled from the spec: 4.1.1 item 6, the usable battery energy. *)
Definition usableEnergyKWH (status : SystemStatus.t) (settings : Settings.t) : float :=
  float64.Max 0
    ((SystemStatus.BatterySOC status - Settings.MinBatterySOC settings) / 100
     * SystemStatus.BatteryCapacityKWH status).

(** Modelled from the spec: 4.1.1 item 7, the whole hours from [now] to
    the start of the cheapest future price. *)
Definition hoursUntilCheapest (pol : Policy) (now : time.Time) (window : list Price.t) : Z :=
  match cheapestFuture window with
  | Some p => Z.quot (time.Sub (Price.TSStart p) now) time.Hour
  | None => UnknownHours pol
  end.

(** Modelled from the spec: the daylight hours of 4.1.1 item 8, 06:00 to
    19:00 local time. *)
Definition isDaylight (pol : Policy) (t : time.Time) : bool :=
  let h := (((t + LocalOffset pol) / time.Hour) mod 24)%Z in
  (6 <=? h)%Z && (h <? 19)%Z.

(** Modelled from the spec: 4.1.1 item 8, what the battery has to
    supply in each of the next [N] hours, [N] being the hours until the
    cheapest future price, 12 at most. *)
Definition hourlyNeeds (pol : Policy) (now : time.Time) (window : list Price.t)
  (history : list EnergyStats.t) : list float :=
  let n := Z.to_nat (Z.min (hoursUntilCheapest pol now window) 12%Z) in
  let expectedSolar := avgSolarYesterday now history * solarTrendRatio pol now history in
  List.map
    (fun i =>
       let solar :=
         if isDaylight pol (time.Add now (Z.of_nat i * time.Hour)%Z) then expectedSolar else 0 in
       float64.Max 0 (avgLoadKWH pol now history - solar))
    (List.seq 0%nat n).

(** Modelled from the spec: 4.1.1 item 8, whether the usable energy
    falls below 0 at some step. *)
Fixpoint runsOut (needs : list float) (energy : float) : bool :=
  match needs with
  | [] => false
  | need :: rest =>
      let left := energy - need in
      if left <? 0 then true else runsOut rest left
  end.

(** Modelled from the spec: the condition of rule 3 that the expensive
    hour comes before the next hour cheaper than the current one. *)
Definition spikeBeforeCheaper (effective : float) (window : list Price.t) : bool :=
  match mostExpensiveFuture window with
  | None => false
  | Some spike =>
      match List.find (fun p => Price.DollarsPerKWH p <? effective) window with
      | None => true
      | Some cheaper => (Price.TSStart spike <? Price.TSStart cheaper)%Z
      end
  end.

(** Modelled from the spec: the decision rules of 4.1.2, evaluated in
    order, the first match deciding; the result is the desired battery
    mode, before the finalization of 4.1.4, and the description of the
    rule that matched.  In rule 2 the conjunction binds tighter than the
    disjunction, so a price of 0 or less charges whatever
    [GridChargeBatteries] says: [TestDecide] expects that of its case
    "Already Charging", whose settings leave grid charging off. *)
Definition decideRules (pol : Policy) (now : time.Time) (status : SystemStatus.t)
  (currentPrice : Price.t) (futurePrices : list Price.t)
  (history : list EnergyStats.t) (settings : Settings.t) : BatteryMode * string :=
  let price := Price.DollarsPerKWH currentPrice in
  let capacity := SystemStatus.BatteryCapacityKWH status in
  let gridCharge := Settings.GridChargeBatteries settings in
  let effective := effectiveCurrentPrice currentPrice settings in
  let window := futureWindow now futurePrices in
  let cheapest := priceOr infinity (cheapestFuture window) in
  let expensive := priceOr neg_infinity (mostExpensiveFuture window) in
  let usable := usableEnergyKWH status settings in
  let needs := hourlyNeeds pol now window history in
  let deficit := runsOut needs usable in
  if capacity =? 0 then
    (BatteryModeStandby, "Capacity 0"%string)
  else if (price <=? 0)
          || ((effective <? Settings.AlwaysChargeUnderDollarsPerKWH settings) && gridCharge) then
    (BatteryModeChargeAny,
     if price <=? 0 then "Negative Price"%string else "Always Charge Price"%string)
  else if gridCharge
          && (Settings.MinArbitrageDifferenceDollarsPerKWH settings <=? expensive - effective)
          && spikeBeforeCheaper effective window
          && (usable <? capacity * (1 - Settings.MinBatterySOC settings / 100)) then
    (BatteryModeChargeAny, "Arbitrage: charge now for spike"%string)
  else if deficit && (effective <=? cheapest) then
    (if gridCharge then BatteryModeChargeAny else BatteryModeStandby,
     "Projected Deficit"%string)
  else if deficit && (expensive <=? effective) then
    (BatteryModeLoad, "Deficit predicted but Current Price is Peak"%string)
  else if deficit && (cheapest <? effective) then
    (BatteryModeStandby, "Deficit predicted; waiting for cheaper hour"%string)
  else if sumKWH needs <=? usable then
    (BatteryModeLoad, "Sufficient Battery"%string)
  else
    (BatteryModeStandby, "Default"%string).

(** Modelled from the spec: 4.1.3, the selection of the solar mode. *)
Definition selectSolarMode (status : SystemStatus.t) (currentPrice : Price.t)
  (settings : Settings.t) : SolarMode :=
  if (Price.DollarsPerKWH currentPrice <=? 0)
     || negb (Settings.GridExportSolar settings)
     || negb (SystemStatus.CanExportSolar status)
  then SolarModeNoExport
  else SolarModeAny.

(** Modelled from the spec: the last sentence of 4.1.3.  The controller
    "may" emit [NoChange] when the selected mode is what the device
    already does.  It does so for [Any] on a device that can export
    ([TestDecide], "Solar Mode Match"), and it does not for [NoExport],
    which section 8 requires to be emitted. *)
Definition finalizeSolarMode (status : SystemStatus.t) (selected : SolarMode) : SolarMode :=
  match selected with
  | SolarModeAny =>
      if SystemStatus.CanExportSolar status then SolarModeNoChange else SolarModeAny
  | _ => selected
  end.

(** Modelled from the spec: 4.1.4, the anti-thrash finalization of the
    battery mode, its six cases in the order the spec lists them.  A
    negative [BatteryKW] is the rate of charge; the first case needs no
    more than [BatteryKW < 0], as section 8 states it. *)
Definition finalizeAction (status : SystemStatus.t) (desired : BatteryMode) : BatteryMode :=
  let batteryKW := SystemStatus.BatteryKW status in
  let solarSurplus :=
    float64.Max 0 (SystemStatus.SolarKW status - SystemStatus.HomeKW status) in
  let chargingKW := - batteryKW in
  let wants := BatteryMode_eqb desired in
  if (batteryKW <? 0) && wants BatteryModeChargeAny then BatteryModeNoChange
  else if (0 <? batteryKW) && wants BatteryModeLoad then BatteryModeNoChange
  else if (0 <? batteryKW) && wants BatteryModeStandby then BatteryModeNoChange
  else if (solarSurplus <? chargingKW) && (0 <? SystemStatus.GridKW status)
          && (wants BatteryModeLoad || wants BatteryModeStandby) then BatteryModeLoad
  else if (batteryKW <? 0) && (chargingKW <=? solarSurplus) && wants BatteryModeLoad
  then BatteryModeLoad
  else desired.

(** Modelled from the spec: the battery mode [Decide] wants before the
    finalization, "the raw decision" of section 8. *)
Definition desiredBatteryMode (pol : Policy) (now : time.Time) (status : SystemStatus.t)
  (currentPrice : Price.t) (futurePrices : list Price.t)
  (history : list EnergyStats.t) (settings : Settings.t) : BatteryMode :=
  fst (decideRules pol now status currentPrice futurePrices history settings).

(** Modelled from the spec: [Decide] of the missing
    [pkg/controller/controller.go], the entry of 4.1.  [now] is the clock
    reading the derived quantities are relative to.  The zero capacity
    guard returns at once, without the finalization: section 8 and
    [TestDecide] ("Zero Capacity") want [Standby] from a battery that
    discharges.  The error result of the Go function is always nil in the
    specification and is left out. *)
Definition Decide (pol : Policy) (now : time.Time) (status : SystemStatus.t)
  (currentPrice : Price.t) (futurePrices : list Price.t)
  (history : list EnergyStats.t) (settings : Settings.t) : Decision.t :=
  let (desired, description) :=
    decideRules pol now status currentPrice futurePrices history settings in
  let solar := finalizeSolarMode status (selectSolarMode status currentPrice settings) in
  let battery :=
    if SystemStatus.BatteryCapacityKWH status =? 0 then desired
    else finalizeAction status desired in
  Decision.mk (Action.mk now battery solar description currentPrice false) "".

End controller.

(** ** The fixtures of [TestDecide]

    [baseSettings], [baseStatus] and the histories of
    [controller_test.go], at a fixed clock reading, with future prices
    built as the test builds them. *)

Module TestDecide.
#[local] Open Scope float_scope.

(** The clock reading of the test, on the hour. *)
Definition now : time.Time := (1000000 * time.Hour)%Z.

(** Values for the constants the specification leaves open: a cap of 3
    times the median, an epsilon of 0.01 kWh, 24 hours when no future
    price is known, local time at offset 0. *)
Definition policy : controller.Policy := controller.mkPolicy 3 0.01 24%Z 0%Z.

Definition baseSettings : Settings.t :=
  {| Settings.DryRun := false;
     Settings.Pause := false;
     Settings.AlwaysChargeUnderDollarsPerKWH := 0.05;
     Settings.AdditionalFeesDollarsPerKWH := 0.02;
     Settings.MinArbitrageDifferenceDollarsPerKWH := 0.01;
     Settings.MinBatterySOC := 20;
     Settings.GridChargeBatteries := true;
     Settings.GridExportSolar := true |}.

Definition baseStatus : SystemStatus.t :=
  {| SystemStatus.BatterySOC := 50;
     SystemStatus.BatteryCapacityKWH := 10;
     SystemStatus.MaxBatteryChargeKW := 5;
     SystemStatus.BatteryKW := 0;
     SystemStatus.SolarKW := 0;
     SystemStatus.HomeKW := 1;
     SystemStatus.GridKW := 0;
     SystemStatus.EmergencyMode := false;
     SystemStatus.CanImportBattery := true;
     SystemStatus.CanExportBattery := true;
     SystemStatus.CanExportSolar := true |}.

Definition withBatteryKW (kw : float) (st : SystemStatus.t) : SystemStatus.t :=
  SystemStatus.mk (SystemStatus.BatterySOC st) (SystemStatus.BatteryCapacityKWH st)
    (SystemStatus.MaxBatteryChargeKW st) kw (SystemStatus.SolarKW st)
    (SystemStatus.HomeKW st) (SystemStatus.GridKW st) (SystemStatus.EmergencyMode st)
    (SystemStatus.CanImportBattery st) (SystemStatus.CanExportBattery st)
    (SystemStatus.CanExportSolar st).

Definition withCapacity (kwh : float) (st : SystemStatus.t) : SystemStatus.t :=
  SystemStatus.mk (SystemStatus.BatterySOC st) kwh
    (SystemStatus.MaxBatteryChargeKW st) (SystemStatus.BatteryKW st)
    (SystemStatus.SolarKW st) (SystemStatus.HomeKW st) (SystemStatus.GridKW st)
    (SystemStatus.EmergencyMode st) (SystemStatus.CanImportBattery st)
    (SystemStatus.CanExportBattery st) (SystemStatus.CanExportSolar st).

Definition withGridCharge (b : bool) (s : Settings.t) : Settings.t :=
  Settings.mk (Settings.DryRun s) (Settings.Pause s)
    (Settings.AlwaysChargeUnderDollarsPerKWH s) (Settings.AdditionalFeesDollarsPerKWH s)
    (Settings.MinArbitrageDifferenceDollarsPerKWH s) (Settings.MinBatterySOC s)
    b (Settings.GridExportSolar s).

Definition withGridExportSolar (b : bool) (s : Settings.t) : Settings.t :=
  Settings.mk (Settings.DryRun s) (Settings.Pause s)
    (Settings.AlwaysChargeUnderDollarsPerKWH s) (Settings.AdditionalFeesDollarsPerKWH s)
    (Settings.MinArbitrageDifferenceDollarsPerKWH s) (Settings.MinBatterySOC s)
    (Settings.GridChargeBatteries s) b.

(** The price of the hour that starts at [now]. *)
Definition priceNow (dollars : float) : Price.t :=
  Price.mk dollars now (time.Add now time.Hour).

(** A future price [i] hours from [now]. *)
Definition priceIn (i : nat) (dollars : float) : Price.t :=
  Price.mk dollars (time.Add now (Z.of_nat i * time.Hour)%Z)
    (time.Add now (Z.of_nat (S i) * time.Hour)%Z).

(** 48 hours of history from 24 hours ago, each with [home] kWh of load
    imported from the grid. *)
Definition historyOf (home : float) : list EnergyStats.t :=
  List.map
    (fun i =>
       {| EnergyStats.TSHourStart := time.Add now ((Z.of_nat i - 24) * time.Hour)%Z;
          EnergyStats.HomeKWH := home;
          EnergyStats.SolarKWH := 0;
          EnergyStats.GridImportKWH := home;
          EnergyStats.GridExportKWH := 0;
          EnergyStats.BatteryUsedKWH := 0;
          EnergyStats.BatteryChargedKWH := 0;
          EnergyStats.SolarToHomeKWH := 0;
          EnergyStats.BatteryToHomeKWH := 0;
          EnergyStats.SolarToBatteryKWH := 0 |})
    (List.seq 0%nat 48%nat).

Definition history : list EnergyStats.t := historyOf 1.
Definition noLoadHistory : list EnergyStats.t := historyOf 0.

End TestDecide.

(** ** [pkg/server]: the HTTP handlers *)

Module server.

(** A Go [error] value that is not nil. *)
Definition error : Set := string.

(** *** Requests and responses *)

(** What the handlers read of an [*http.Request]: the e-mail the
    authentication middleware stored in the context (none when the value
    is absent or not a string), the [Authorization] header (empty when
    absent) and the query parameters in the order of the URL. *)
Record Request : Set := mkRequest {
  ctxEmail : option string;
  Authorization : string;
  Query : list (string * string)
}.

(** [r.URL.Query().Get(key)]: the first value of [key], or the empty
    string. *)
Fixpoint queryGet (query : list (string * string)) (key : string) : string :=
  match query with
  | [] => ""
  | (k, v) :: rest => if String.eqb k key then v else queryGet rest key
  end.

(** [SavingsStats] of [savings.go]. *)
Record SavingsStats : Set := mkSavingsStats {
  Timestamp : time.Time;
  Cost : float;
  Credit : float;
  BatterySavings : float;
  SolarSavings : float;
  AvoidedCost : float;
  ChargingCost : float;
  SolarGenerated : float;
  GridImported : float;
  GridExported : float;
  HomeUsed : float;
  BatteryUsed : float
}.

(** The body a handler writes: the text of [http.Error], or the value it
    hands to the JSON encoder, whose writing is taken to succeed.
    [StatusJSON] is the [map[string]interface{}] of [handleUpdate], with
    its key ["status"] and, when present, its keys ["action"] and
    ["price"]. *)
Inductive Body : Set :=
| Text (msg : string)
| StatusJSON (status : string) (action : option Action.t) (price : option Price.t)
| SavingsJSON (totals : SavingsStats).

(** The status code, the headers the handler sets itself with
    [w.Header().Set], and the body. *)
Record Response : Set := mkResponse {
  StatusCode : Z;
  Header : list (string * string);
  ResponseBody : Body
}.

Definition StatusOK : Z := 200.
Definition StatusBadRequest : Z := 400.
Definition StatusUnauthorized : Z := 401.
Definition StatusForbidden : Z := 403.
Definition StatusInternalServerError : Z := 500.

(** [http.Error(w, msg, code)]. *)
Definition httpError (msg : string) (code : Z) : Response :=
  mkResponse code [] (Text msg).

(** *** Calls to the collaborators

    Every call a handler makes to the storage, the ESS, the price
    provider, the controller or the token validator is recorded with its
    arguments and with what it returned: a value and an error, as in Go. *)

Inductive Event : Set :=
| EvTokenValidator (idToken audience : string) (email : option string) (err : option error)
| EvGetSettings (settings : Settings.t) (err : option error)
| EvApplySettings (settings : Settings.t) (err : option error)
| EvLastConfirmedPrice (price : Price.t) (err : option error)
| EvUpsertPrice (price : Price.t) (err : option error)
| EvGetLatestEnergyHistoryTime (t : time.Time) (err : option error)
| EvESSGetEnergyHistory (start stop : time.Time) (stats : list EnergyStats.t) (err : option error)
| EvUpsertEnergyHistory (stats : EnergyStats.t) (err : option error)
| EvGetStatus (status : SystemStatus.t) (err : option error)
| EvGetCurrentPrice (price : Price.t) (err : option error)
| EvGetFuturePrices (prices : list Price.t) (err : option error)
| EvGetEnergyHistory (start stop : time.Time) (stats : list EnergyStats.t) (err : option error)
| EvGetPriceHistory (start stop : time.Time) (prices : list Price.t) (err : option error)
| EvDecide (status : SystemStatus.t) (currentPrice : Price.t) (futurePrices : list Price.t)
    (history : list EnergyStats.t) (settings : Settings.t)
    (decision : Decision.t) (err : option error)
| EvSetModes (bat : BatteryMode) (sol : SolarMode) (err : option error)
| EvInsertAction (action : Action.t) (err : option error).

(** What a trace holds of one kind of call; [flat_map] collects it over
    the whole trace, in order. *)

(** The [SetModes] commands, with the error each returned. *)
Definition setModesOf (e : Event) : list (BatteryMode * SolarMode * option error) :=
  match e with
  | EvSetModes bat sol err => [(bat, sol, err)]
  | _ => []
  end.

(** The calls of [GetStatus]. *)
Definition getStatusOf (e : Event) : list (SystemStatus.t * option error) :=
  match e with
  | EvGetStatus status err => [(status, err)]
  | _ => []
  end.

(** The settings handed to [ApplySettings], with the error returned. *)
Definition appliedOf (e : Event) : list (Settings.t * option error) :=
  match e with
  | EvApplySettings settings err => [(settings, err)]
  | _ => []
  end.

(** The results of [Decide]. *)
Definition decidedOf (e : Event) : list (Decision.t * option error) :=
  match e with
  | EvDecide _ _ _ _ _ decision err => [(decision, err)]
  | _ => []
  end.

(** The actions handed to [InsertAction]. *)
Definition insertedOf (e : Event) : list Action.t :=
  match e with
  | EvInsertAction action _ => [action]
  | _ => []
  end.

(** The calls of [LastConfirmedPrice]. *)
Definition lastConfirmedOf (e : Event) : list (Price.t * option error) :=
  match e with
  | EvLastConfirmedPrice price err => [(price, err)]
  | _ => []
  end.

(** The windows asked of the ESS's [GetEnergyHistory]. *)
Definition essHistoryOf (e : Event) : list (time.Time * time.Time) :=
  match e with
  | EvESSGetEnergyHistory start stop _ _ => [(start, stop)]
  | _ => []
  end.

(** The calls made before the pause gate, settings apart: the token
    validation and the two syncs. *)
Definition isPreamble (e : Event) : bool :=
  match e with
  | EvTokenValidator _ _ _ _
  | EvLastConfirmedPrice _ _
  | EvUpsertPrice _ _
  | EvGetLatestEnergyHistoryTime _ _
  | EvESSGetEnergyHistory _ _ _ _
  | EvUpsertEnergyHistory _ _ => true
  | _ => false
  end.

Definition Preamble (trace : list Event) : Prop :=
  Forall (fun e => isPreamble e = true) trace.

Section Handlers.

(** The state of everything outside the handler: the ESS, the storage,
    the price feed, the clock. *)
Variable W : Type.

(** A handler step: from the state of the world to a result, the new
    state and the calls made. *)
Definition M (A : Type) : Type := W -> A * W * list Event.

#[local] Instance M_ret : MRet M := fun A (a : A) w => (a, w, []).

#[local] Instance M_bind : MBind M :=
  fun A B (k : A -> M B) (m : M A) w =>
    let '(a, w1, t1) := m w in
    let '(b, w2, t2) := k a w1 in
    (b, w2, t1 ++ t2).

(** A method of a collaborator: given the state of the world, its Go
    results and the new state. *)
Definition Method (A : Type) : Type := W -> A * W.

(** Calling a method records the event [ev] builds from its result. *)
Definition call {A : Type} (m : Method A) (ev : A -> Event) : M A :=
  fun w => let '(a, w1) := m w in (a, w1, [ev a]).

(** [time.Now()], which is not recorded. *)
Definition clock (now : Method time.Time) : M time.Time :=
  fun w => let '(t, w1) := now w in (t, w1, []).

(** [for _, x := range xs { body }]. *)
Fixpoint forEach {A : Type} (xs : list A) (body : A -> M unit) : M unit :=
  match xs with
  | [] => mret tt
  | x :: rest => body x ;; forEach rest body
  end.

(** The interfaces of [pkg/utility], [pkg/ess], [pkg/storage] and
    [pkg/controller], with the methods the handlers call. *)
Record UtilityProvider : Type := mkUtilityProvider {
  GetCurrentPrice : Method (Price.t * option error);
  LastConfirmedPrice : Method (Price.t * option error);
  GetFuturePrices : Method (list Price.t * option error)
}.

Record System : Type := mkSystem {
  GetStatus : Method (SystemStatus.t * option error);
  ESSGetEnergyHistory : time.Time -> time.Time -> Method (list EnergyStats.t * option error);
  ApplySettings : Settings.t -> Method (option error);
  SetModes : BatteryMode -> SolarMode -> Method (option error)
}.

Record Storage : Type := mkStorage {
  GetSettings : Method (Settings.t * option error);
  UpsertPrice : Price.t -> Method (option error);
  UpsertEnergyHistory : EnergyStats.t -> Method (option error);
  InsertAction : Action.t -> Method (option error);
  GetPriceHistory : time.Time -> time.Time -> Method (list Price.t * option error);
  GetEnergyHistory : time.Time -> time.Time -> Method (list EnergyStats.t * option error);
  GetLatestEnergyHistoryTime : Method (time.Time * option error)
}.

Record Controller : Type := mkController {
  Decide :
    SystemStatus.t -> Price.t -> list Price.t -> list EnergyStats.t -> Settings.t ->
    Method (Decision.t * option error)
}.

(** [Server].  [tokenValidator] returns the ["email"] claim of the
    payload, none when the claim is not a string. *)
Record Server : Type := mkServer {
  utilityProvider : UtilityProvider;
  essSystem : System;
  storage : Storage;
  controller : Controller;
  tokenValidator : string -> string -> Method (option string * option error);
  updateSpecificAudience : string;
  updateSpecificEmail : string;
  adminEmails : list string;
  bypassAuth : bool
}.

(** The same server over a storage whose settings come back with
    [DryRun] set to [b]: the tick that differs in that flag alone. *)
Definition withDryRun (b : bool) (s : Server) : Server :=
  {| utilityProvider := utilityProvider s;
     essSystem := essSystem s;
     storage :=
       {| GetSettings :=
            fun w =>
              let '(settings, err, w1) := GetSettings (storage s) w in
              (Settings.setDryRun b settings, err, w1);
          UpsertPrice := UpsertPrice (storage s);
          UpsertEnergyHistory := UpsertEnergyHistory (storage s);
          InsertAction := InsertAction (storage s);
          GetPriceHistory := GetPriceHistory (storage s);
          GetEnergyHistory := GetEnergyHistory (storage s);
          GetLatestEnergyHistoryTime := GetLatestEnergyHistoryTime (storage s) |};
     controller := controller s;
     tokenValidator := tokenValidator s;
     updateSpecificAudience := updateSpecificAudience s;
     updateSpecificEmail := updateSpecificEmail s;
     adminEmails := adminEmails s;
     bypassAuth := bypassAuth s |}.

(** [time.Now] and [time.Parse(time.RFC3339, _)] of Go's library. *)
Variable timeNow : Method time.Time.
Variable parseRFC3339 : string -> time.Time * option error.

(** [strings.Split(s, " ")] for a separator of one byte. *)
Fixpoint stringsSplit (sep : Ascii.ascii) (s : string) : list string :=
  match s with
  | EmptyString => [EmptyString]
  | String c rest =>
      if Ascii.eqb c sep then EmptyString :: stringsSplit sep rest
      else match stringsSplit sep rest with
           | [] => [String c EmptyString]
           | part :: parts => String c part :: parts
           end
  end.

(** [strings.ToLower] on the ASCII letters.  The handler compares the
    result with "bearer" only, and no other letter has one of b, e, a, r
    as its lower case. *)
Definition lowerByte (c : Ascii.ascii) : Ascii.ascii :=
  let n := Ascii.nat_of_ascii c in
  if (65 <=? n)%nat && (n <=? 90)%nat then Ascii.ascii_of_nat (n + 32) else c.

(** [strings.ToLower(s)], byte by byte. *)
Fixpoint stringsToLower (s : string) : string :=
  match s with
  | EmptyString => EmptyString
  | String c rest => String (lowerByte c) (stringsToLower rest)
  end.

(** The allow-list check [handleUpdate] makes on both of its
    authentication paths (lines 21-31 and 67-77 of the handler). *)
Definition emailAllowed (s : Server) (email : string) : bool :=
  if negb (String.eqb (updateSpecificEmail s) "") && String.eqb email (updateSpecificEmail s)
  then true
  else List.existsb (String.eqb email) (adminEmails s).

(** The authentication of [handleUpdate] (lines 17-88): the response
    that ends the request when it is refused, none when the tick may
    run. *)
Definition authorizeUpdate (s : Server) (r : Request) : M (option Response) :=
  let cookieEmail := match ctxEmail r with Some email => email | None => EmptyString end in
  if negb (String.eqb cookieEmail "") then
    if emailAllowed s cookieEmail then mret None
    else mret (Some (httpError "unauthorized email" StatusForbidden))
  else if negb (String.eqb (updateSpecificAudience s) "")
          && (negb (String.eqb (updateSpecificEmail s) "")
              || (0 <? List.length (adminEmails s))%nat) then
    let authHeader := Authorization r in
    if String.eqb authHeader "" then
      mret (Some (httpError "missing authorization header" StatusUnauthorized))
    else
      match stringsSplit " "%char authHeader with
      | [scheme; token] =>
          if String.eqb (stringsToLower scheme) "bearer" then
            '(email, err) ← call (tokenValidator s token (updateSpecificAudience s))
                              (fun '(email, err) =>
                                 EvTokenValidator token (updateSpecificAudience s) email err);
            match err with
            | Some _ => mret (Some (httpError "invalid id token" StatusUnauthorized))
            | None =>
                match email with
                | None => mret (Some (httpError "invalid token claims" StatusForbidden))
                | Some email =>
                    if emailAllowed s email then mret None
                    else mret (Some (httpError "unauthorized email" StatusForbidden))
                end
            end
          else mret (Some (httpError "invalid authorization header" StatusUnauthorized))
      | _ => mret (Some (httpError "invalid authorization header" StatusUnauthorized))
      end
  else if negb (bypassAuth s) then
    mret (Some (httpError "missing authentication" StatusUnauthorized))
  else mret None.

(** Step 2 of [handleUpdate], the block of lines 108-117: sync the last
    confirmed price.  A failure of either call is logged and the tick
    goes on. *)
Definition syncLastConfirmedPrice (s : Server) : M unit :=
  '(lastPrice, err) ← call (LastConfirmedPrice (utilityProvider s))
                        (fun '(price, err) => EvLastConfirmedPrice price err);
  match err with
  | Some _ => mret tt
  | None =>
      call (UpsertPrice (storage s) lastPrice) (EvUpsertPrice lastPrice) ;; mret tt
  end.

(** The body of the loop of lines 143-147: one upsert, its failure
    logged and no more. *)
Definition upsertEnergyHistory (s : Server) (h : EnergyStats.t) : M unit :=
  call (UpsertEnergyHistory (storage s) h) (EvUpsertEnergyHistory h) ;; mret tt.

(** Step 3 of [handleUpdate], the block of lines 122-149: sync the energy
    history since the last stored hour, at most 72 hours back. *)
Definition syncEnergyHistory (s : Server) : M unit :=
  '(lastHistoryTime, _) ← call (GetLatestEnergyHistoryTime (storage s))
                            (fun '(t, err) => EvGetLatestEnergyHistoryTime t err);
  now ← clock timeNow;
  let syncStart := time.Add now (- 72 * time.Hour) in
  let syncStart :=
    if negb (time.IsZero lastHistoryTime) && time.After lastHistoryTime syncStart
    then time.Truncate lastHistoryTime time.Hour
    else syncStart in
  stop ← clock timeNow;
  '(newHistory, err) ← call (ESSGetEnergyHistory (essSystem s) syncStart stop)
                         (fun '(stats, err) => EvESSGetEnergyHistory syncStart stop stats err);
  match err with
  | Some _ => mret tt
  | None => forEach newHistory (upsertEnergyHistory s)
  end.

(** Step 6 of [handleUpdate], the [switch] of lines 238-246: the command
    sent to the ESS for the decided battery mode, and its error. *)
Definition executeAction (s : Server) (action : Action.t) : M (option error) :=
  match Action.BatteryMode action with
  | BatteryModeChargeAny =>
      call (SetModes (essSystem s) BatteryModeChargeAny SolarModeAny)
        (EvSetModes BatteryModeChargeAny SolarModeAny)
  | BatteryModeLoad =>
      call (SetModes (essSystem s) BatteryModeLoad SolarModeAny)
        (EvSetModes BatteryModeLoad SolarModeAny)
  | BatteryModeStandby =>
      call (SetModes (essSystem s) BatteryModeStandby SolarModeAny)
        (EvSetModes BatteryModeStandby SolarModeAny)
  | _ => mret None
  end.

(** [fmt.Sprintf(" (FAILED: %v)", err)]. *)
Definition failedSuffix (err : error) : string :=
  String.append " (FAILED: " (String.append err ")").

(** [handleUpdate] of [pkg/server], one tick.  Log lines are left out. *)
Definition handleUpdate (s : Server) (r : Request) : M Response :=
  refused ← authorizeUpdate s r;
  match refused with
  | Some response => mret response
  | None =>
  (* 1. Get Settings *)
  '(settings, err) ← call (GetSettings (storage s))
                       (fun '(settings, err) => EvGetSettings settings err);
  match err with
  | Some _ => mret (httpError "failed to get settings" StatusInternalServerError)
  | None =>
  (* and apply those settings to the ESS *)
  err ← call (ApplySettings (essSystem s) settings) (EvApplySettings settings);
  match err with
  | Some _ => mret (httpError "failed to apply settings" StatusInternalServerError)
  | None =>
  (* 2. Sync the last confirmed price *)
  syncLastConfirmedPrice s ;;
  (* 3. Sync energy history *)
  syncEnergyHistory s ;;
  if Settings.Pause settings then
    mret (mkResponse StatusOK [] (StatusJSON "paused" None None))
  else
  (* 4. Fetch current ESS status *)
  '(status, err) ← call (GetStatus (essSystem s))
                     (fun '(status, err) => EvGetStatus status err);
  match err with
  | Some _ => mret (httpError "failed to get ess status" StatusInternalServerError)
  | None =>
  if SystemStatus.EmergencyMode status then
    mret (mkResponse StatusOK [] (StatusJSON "emergency mode" None None))
  else
  (* 5. Get Current Price for controller *)
  '(currentPrice, err) ← call (GetCurrentPrice (utilityProvider s))
                           (fun '(price, err) => EvGetCurrentPrice price err);
  match err with
  | Some _ => mret (httpError "failed to get price" StatusInternalServerError)
  | None =>
  (* 5. Get Future Prices for controller *)
  '(futurePrices, _) ← call (GetFuturePrices (utilityProvider s))
                         (fun '(prices, err) => EvGetFuturePrices prices err);
  (* 6. Get History for Controller (Last 72 hours from Storage) *)
  now ← clock timeNow;
  let historyStart := time.Add now (- 72 * time.Hour) in
  historyEnd ← clock timeNow;
  '(energyHistory, _) ← call (GetEnergyHistory (storage s) historyStart historyEnd)
                          (fun '(stats, err) =>
                             EvGetEnergyHistory historyStart historyEnd stats err);
  (* 6. Decide Action *)
  '(decision, err) ← call (Decide (controller s) status currentPrice futurePrices
                             energyHistory settings)
                       (fun '(decision, err) =>
                          EvDecide status currentPrice futurePrices energyHistory settings
                            decision err);
  match err with
  | Some _ => mret (httpError "controller error" StatusInternalServerError)
  | None =>
  let action := Decision.Action decision in
  action ← (if time.IsZero (Action.Timestamp action)
            then now ← clock timeNow; mret (Action.setTimestamp now action)
            else mret action);
  (* 6. Execute Action *)
  err ← executeAction s action;
  let action :=
    match err with
    | Some e => Action.setDescription
                  (String.append (Action.Description action) (failedSuffix e)) action
    | None => action
    end in
  let action := if Settings.DryRun settings then Action.setDryRun true action else action in
  (* 7. Log Action *)
  call (InsertAction (storage s) action) (EvInsertAction action) ;;
  mret (mkResponse StatusOK [] (StatusJSON "success" (Some action) (Some currentPrice)))
  end end end end end
  end.

(** [parseTimeRange] of [history.go]. *)
Definition parseTimeRange (r : Request) : M (time.Time * time.Time * option error) :=
  let startStr := queryGet (Query r) "start" in
  let endStr := queryGet (Query r) "end" in
  if String.eqb startStr "" || String.eqb endStr "" then
    (* Default to last 24 hours if not specified *)
    stop ← clock timeNow;
    let start := time.Add stop (- 24 * time.Hour) in
    mret (start, stop, None)
  else
    let '(start, err) := parseRFC3339 startStr in
    match err with
    | Some e => mret (time.zero, time.zero, Some (String.append "invalid start time: " e))
    | None =>
        let '(stop, err) := parseRFC3339 endStr in
        match err with
        | Some e => mret (time.zero, time.zero, Some (String.append "invalid end time: " e))
        | None =>
            if time.Before stop start then
              mret (time.zero, time.zero, Some "start time must be before end time"%string)
            else if 24 * time.Hour <? time.Sub stop start then
              mret (time.zero, time.zero, Some "time range cannot exceed 24 hours"%string)
            else mret (start, stop, None)
        end
    end.

(** Reading a Go map of [float64] or [int]: the zero value for a key
    that is not there. *)
Definition floatAt (m : gmap Z float) (key : Z) : float := default 0%float (m !! key).
Definition countAt (m : gmap Z Z) (key : Z) : Z := default 0 (m !! key).

(** Lines 61-65 of [handleHistorySavings]: the body of the first loop
    over the prices, on [hourlyPrices] and [hourlyPriceCounts]. *)
Definition addPrice (maps : gmap Z float * gmap Z Z) (p : Price.t) : gmap Z float * gmap Z Z :=
  let '(hourlyPrices, hourlyPriceCounts) := maps in
  let tsHour : Z := time.Truncate (Price.TSStart p) time.Hour in
  (<[tsHour := (floatAt hourlyPrices tsHour + Price.DollarsPerKWH p)%float]> hourlyPrices,
   <[tsHour := countAt hourlyPriceCounts tsHour + 1]> hourlyPriceCounts).

(** Lines 58-65: the two maps after that loop. *)
Definition sumHourlyPrices (prices : list Price.t) : gmap Z float * gmap Z Z :=
  List.fold_left addPrice prices (∅, ∅).

(** Lines 67-71: every total becomes the mean of its hour. *)
Definition averageHourlyPrices (hourlyPrices : gmap Z float) (hourlyPriceCounts : gmap Z Z)
  : gmap Z float :=
  map_imap
    (fun ts total =>
       let count := countAt hourlyPriceCounts ts in
       Some (if 0 <? count then (total / float64.ofZ count)%float else total))
    hourlyPrices.

(** Lines 74-107: the body of the loop over the energy stats. *)
Definition addEnergyStats (hourlyPrices : gmap Z float) (totalSavings : SavingsStats)
  (stat : EnergyStats.t) : SavingsStats :=
  let ts := time.Truncate (EnergyStats.TSHourStart stat) time.Hour in
  (* this will be 0 if we don't have price data for this hour *)
  let price := floatAt hourlyPrices ts in
  let gridToBattery :=
    float64.Max 0 (EnergyStats.BatteryChargedKWH stat - EnergyStats.SolarToBatteryKWH stat) in
  {| Timestamp := Timestamp totalSavings;
     Cost := Cost totalSavings + EnergyStats.GridImportKWH stat * price;
     Credit := Credit totalSavings + EnergyStats.GridExportKWH stat * price;
     BatterySavings := BatterySavings totalSavings;
     SolarSavings := SolarSavings totalSavings + EnergyStats.SolarToHomeKWH stat * price;
     AvoidedCost := AvoidedCost totalSavings + EnergyStats.BatteryToHomeKWH stat * price;
     ChargingCost := ChargingCost totalSavings + gridToBattery * price;
     SolarGenerated := SolarGenerated totalSavings + EnergyStats.SolarKWH stat;
     GridImported := GridImported totalSavings + EnergyStats.GridImportKWH stat;
     GridExported := GridExported totalSavings + EnergyStats.GridExportKWH stat;
     HomeUsed := HomeUsed totalSavings + EnergyStats.HomeKWH stat;
     BatteryUsed := BatteryUsed totalSavings + EnergyStats.BatteryUsedKWH stat |}%float.

(** Lines 56-110: the totals for the window that starts at [start].
    The map [priceMap] of lines 51-54 is never read and is left out. *)
Definition totalSavings (start : time.Time) (prices : list Price.t)
  (energyStats : list EnergyStats.t) : SavingsStats :=
  let '(sums, counts) := sumHourlyPrices prices in
  let hourlyPrices := averageHourlyPrices sums counts in
  let zero :=
    mkSavingsStats start 0 0 0 0 0 0 0 0 0 0 0 in
  let totals := List.fold_left (addEnergyStats hourlyPrices) energyStats zero in
  {| Timestamp := Timestamp totals;
     Cost := Cost totals;
     Credit := Credit totals;
     BatterySavings := (AvoidedCost totals - ChargingCost totals)%float;
     SolarSavings := SolarSavings totals;
     AvoidedCost := AvoidedCost totals;
     ChargingCost := ChargingCost totals;
     SolarGenerated := SolarGenerated totals;
     GridImported := GridImported totals;
     GridExported := GridExported totals;
     HomeUsed := HomeUsed totals;
     BatteryUsed := BatteryUsed totals |}.

(** [handleHistorySavings] of [savings.go]. *)
Definition handleHistorySavings (s : Server) (r : Request) : M Response :=
  '(start, stop, err) ← parseTimeRange r;
  match err with
  | Some e => mret (httpError (String.append "invalid time range: " e) StatusBadRequest)
  | None =>
  (* Fetch prices (these are hourly) *)
  '(prices, err) ← call (GetPriceHistory (storage s) start stop)
                     (fun '(prices, err) => EvGetPriceHistory start stop prices err);
  match err with
  | Some _ => mret (httpError "failed to get prices" StatusInternalServerError)
  | None =>
  (* Fetch energy stats (these are hourly) *)
  '(energyStats, err) ← call (GetEnergyHistory (storage s) start stop)
                          (fun '(stats, err) => EvGetEnergyHistory start stop stats err);
  match err with
  | Some _ => mret (httpError "failed to get energy history" StatusInternalServerError)
  | None =>
  let totals := totalSavings start prices energyStats in
  now ← clock timeNow;
  let today := time.Truncate now (24 * time.Hour) in
  let cacheControl :=
    if time.Before stop today then "public, max-age=86400"%string
    else "public, max-age=60"%string in
  mret (mkResponse StatusOK
          [("Content-Type"%string, "application/json"%string);
           ("Cache-Control"%string, cacheControl)]
          (SavingsJSON totals))
  end end end.

End Handlers.

End server.

(** ** The savings roll-up as the specification words it

    The sums of section 4.3, to compare [server.totalSavings] with.  A
    sum adds its terms in the order of the list, from 0, as the loops of
    the handler do. *)

Module SavingsSpec.
#[local] Open Scope float_scope.

(** The stored prices whose [TSStart] truncates to [hour]. *)
Definition pricesOfHour (prices : list Price.t) (hour : time.Time) : list float :=
  List.map Price.DollarsPerKWH
    (List.filter (fun p => (time.Truncate (Price.TSStart p) time.Hour =? hour)%Z) prices).

(** price(hour): the mean of the stored prices of the hour; 0 for an
    hour that has none. *)
Definition hourPrice (prices : list Price.t) (hour : time.Time) : float :=
  match pricesOfHour prices hour with
  | [] => 0
  | stored => List.fold_left add stored 0 / float64.ofZ (Z.of_nat (List.length stored))
  end.

(** The sum over the hours of the energy history of [kwh] times the
    price of the hour. *)
Definition sumTimesPrice (kwh : EnergyStats.t -> float) (prices : list Price.t)
  (energyStats : list EnergyStats.t) : float :=
  List.fold_left
    (fun total stat =>
       total + kwh stat
               * hourPrice prices (time.Truncate (EnergyStats.TSHourStart stat) time.Hour))
    energyStats 0.

(** gridToBattery = max(0, BatteryChargedKWH - SolarToBatteryKWH). *)
Definition gridToBattery (stat : EnergyStats.t) : float :=
  float64.Max 0 (EnergyStats.BatteryChargedKWH stat - EnergyStats.SolarToBatteryKWH stat).

End SavingsSpec.

(** What the first loop of [handleHistorySavings] leaves under one key
    of [hourlyPrices] and of [hourlyPriceCounts], as a fold over that
    key's slot alone. *)
Definition sumStep (hour : Z) (slot : option float) (p : Price.t) : option float :=
  if (time.Truncate (Price.TSStart p) time.Hour =? hour)%Z
  then Some (default 0 slot + Price.DollarsPerKWH p)%float
  else slot.

Definition countStep (hour : Z) (slot : option Z) (p : Price.t) : option Z :=
  if (time.Truncate (Price.TSStart p) time.Hour =? hour)%Z
  then Some (default 0 slot + 1)%Z
  else slot.

(** ** Fixtures for the handlers

    A world with nothing in it but a clock that stands still, and a
    reading of [time.Parse] on the three timestamps the examples use. *)

Module TestServer.

(** 2024-01-01T00:00:00Z, counted from Go's zero time. *)
Definition newYear : time.Time := 63839664000 * time.Second.

Definition timeNow : server.Method unit time.Time :=
  fun w => (time.Add newYear (36 * time.Hour), w).

Definition parseRFC3339 (value : string) : time.Time * option server.error :=
  if String.eqb value "2024-01-01T00:00:00Z" then (newYear, None)
  else if String.eqb value "2024-01-01T12:00:00Z" then (time.Add newYear (12 * time.Hour), None)
  else if String.eqb value "2024-01-03T00:00:00Z" then (time.Add newYear (48 * time.Hour), None)
  else (time.zero, Some "cannot parse"%string).

Definition request (query : list (string * string)) : server.Request :=
  server.mkRequest None "" query.

(** [mockUtility], [mockESS] and [mockStorage] of [server_test.go], the
    storage with the settings, prices and energy history it holds, the
    ESS with the status it reports and the error of its [SetModes]. *)
Definition mockUtility (price : Price.t) : server.UtilityProvider unit :=
  {| server.GetCurrentPrice := fun w => (price, None, w);
     server.LastConfirmedPrice := fun w => (price, None, w);
     server.GetFuturePrices := fun w => ([], None, w) |}.

Definition mockESS (status : SystemStatus.t) (setModesErr : option server.error)
  : server.System unit :=
  {| server.GetStatus := fun w => (status, None, w);
     server.ESSGetEnergyHistory := fun _ _ w => ([], None, w);
     server.ApplySettings := fun _ w => (None, w);
     server.SetModes := fun _ _ w => (setModesErr, w) |}.

Definition mockStorage (settings : Settings.t) (prices : list Price.t)
  (energyStats : list EnergyStats.t) : server.Storage unit :=
  {| server.GetSettings := fun w => (settings, None, w);
     server.UpsertPrice := fun _ w => (None, w);
     server.UpsertEnergyHistory := fun _ w => (None, w);
     server.InsertAction := fun _ w => (None, w);
     server.GetPriceHistory := fun _ _ w => (prices, None, w);
     server.GetEnergyHistory := fun _ _ w => (energyStats, None, w);
     server.GetLatestEnergyHistoryTime := fun w => (time.zero, None, w) |}.

(** The controller of the tests: [Decide] of [pkg/controller] at the
    standing clock. *)
Definition theController : server.Controller unit :=
  {| server.Decide :=
       fun status currentPrice futurePrices history settings w =>
         (controller.Decide TestDecide.policy (time.Add newYear (36 * time.Hour))
            status currentPrice futurePrices history settings, None, w) |}.

(** A server of [TestHandleUpdate], authentication bypassed. *)
Definition testServer (settings : Settings.t) (status : SystemStatus.t)
  (setModesErr : option server.error) (price : Price.t) (prices : list Price.t)
  (energyStats : list EnergyStats.t) : server.Server unit :=
  {| server.utilityProvider := mockUtility price;
     server.essSystem := mockESS status setModesErr;
     server.storage := mockStorage settings prices energyStats;
     server.controller := theController;
     server.tokenValidator := fun _ _ w => (None, Some "no validator"%string, w);
     server.updateSpecificAudience := "";
     server.updateSpecificEmail := "";
     server.adminEmails := [];
     server.bypassAuth := true |}.

(** One hour of stored data: two prices inside the hour that starts at
    [newYear], and the energy of that hour. *)
Definition storedPrices : list Price.t :=
  [ Price.mk 0.04%float newYear (time.Add newYear (30 * time.Minute));
    Price.mk 0.08%float (time.Add newYear (30 * time.Minute)) (time.Add newYear time.Hour) ].

Definition storedEnergy : list EnergyStats.t :=
  [ {| EnergyStats.TSHourStart := newYear;
       EnergyStats.HomeKWH := 3;
       EnergyStats.SolarKWH := 1;
       EnergyStats.GridImportKWH := 2;
       EnergyStats.GridExportKWH := 0;
       EnergyStats.BatteryUsedKWH := 1;
       EnergyStats.BatteryChargedKWH := 1;
       EnergyStats.SolarToHomeKWH := 1;
       EnergyStats.BatteryToHomeKWH := 1;
       EnergyStats.SolarToBatteryKWH := 0 |}%float ].

(** The settings of the case "Paused Updates" of [TestHandleUpdate]. *)
Definition pausedSettings : Settings.t :=
  {| Settings.DryRun := false;
     Settings.Pause := true;
     Settings.AlwaysChargeUnderDollarsPerKWH := 0;
     Settings.AdditionalFeesDollarsPerKWH := 0;
     Settings.MinArbitrageDifferenceDollarsPerKWH := 0;
     Settings.MinBatterySOC := 0;
     Settings.GridChargeBatteries := false;
     Settings.GridExportSolar := false |}%float.

(** The price of the current hour, 0.10 $/kWh. *)
Definition currentPrice : Price.t :=
  Price.mk 0.10%float (time.Add newYear (36 * time.Hour)) (time.Add newYear (37 * time.Hour)).

(** A paused tick. *)
Definition pausedRun : server.Response * unit * list server.Event :=
  server.handleUpdate unit timeNow
    (testServer pausedSettings TestDecide.baseStatus None currentPrice [] [])
    (request []) tt.

(** A paused tick against an ESS that has one hour of energy to report,
    [storedEnergy]. *)
Definition pausedSyncServer : server.Server unit :=
  {| server.utilityProvider := mockUtility currentPrice;
     server.essSystem :=
       {| server.GetStatus := fun w => (TestDecide.baseStatus, None, w);
          server.ESSGetEnergyHistory := fun _ _ w => (storedEnergy, None, w);
          server.ApplySettings := fun _ w => (None, w);
          server.SetModes := fun _ _ w => (None, w) |};
     server.storage := mockStorage pausedSettings [] [];
     server.controller := theController;
     server.tokenValidator := fun _ _ w => (None, Some "no validator"%string, w);
     server.updateSpecificAudience := "";
     server.updateSpecificEmail := "";
     server.adminEmails := [];
     server.bypassAuth := true |}.

Definition pausedSyncRun : server.Response * unit * list server.Event :=
  server.handleUpdate unit timeNow pausedSyncServer (request []) tt.

(** A tick on the base settings and status of [TestDecide], with no
    stored history, against an ESS whose [SetModes] fails. *)
Definition failingServer : server.Server unit :=
  testServer TestDecide.baseSettings TestDecide.baseStatus (Some "ess offline"%string)
    currentPrice [] [].

Definition failingRun : server.Response * unit * list server.Event :=
  server.handleUpdate unit timeNow failingServer (request []) tt.

(** What the controller decides in that tick. *)
Definition failingDecision : Decision.t :=
  controller.Decide TestDecide.policy (time.Add newYear (36 * time.Hour))
    TestDecide.baseStatus currentPrice [] [] TestDecide.baseSettings.

(** A request for the savings of the first 12 hours of 2024, at a
    storage that holds [storedPrices] and [storedEnergy]. *)
Definition savingsRun : server.Response * unit * list server.Event :=
  server.handleHistorySavings unit timeNow parseRFC3339
    (testServer TestDecide.baseSettings TestDecide.baseStatus None
       (Price.mk 0.10%float newYear (time.Add newYear time.Hour)) storedPrices storedEnergy)
    (request [("start"%string, "2024-01-01T00:00:00Z"%string);
              ("end"%string, "2024-01-01T12:00:00Z"%string)])
    tt.

End TestServer.

(** ** More of what a trace of [handleUpdate] holds *)

Module calls.

(** The token validations, with what each returned. *)
Definition tokenValidatorOf (e : server.Event)
  : list (string * string * option string * option server.error) :=
  match e with
  | server.EvTokenValidator idToken audience email err => [(idToken, audience, email, err)]
  | _ => []
  end.

(** The calls of the storage's [GetSettings]. *)
Definition getSettingsOf (e : server.Event) : list (Settings.t * option server.error) :=
  match e with
  | server.EvGetSettings settings err => [(settings, err)]
  | _ => []
  end.

(** The calls of [GetLatestEnergyHistoryTime]. *)
Definition latestHistoryOf (e : server.Event) : list (time.Time * option server.error) :=
  match e with
  | server.EvGetLatestEnergyHistoryTime t err => [(t, err)]
  | _ => []
  end.

(** The calls of the ESS's [GetEnergyHistory], whole. *)
Definition essGetEnergyHistoryOf (e : server.Event)
  : list (time.Time * time.Time * list EnergyStats.t * option server.error) :=
  match e with
  | server.EvESSGetEnergyHistory start stop stats err => [(start, stop, stats, err)]
  | _ => []
  end.

(** The hours handed to [UpsertEnergyHistory]. *)
Definition upsertedOf (e : server.Event) : list EnergyStats.t :=
  match e with
  | server.EvUpsertEnergyHistory stats _ => [stats]
  | _ => []
  end.

(** The calls of [GetCurrentPrice]. *)
Definition currentPriceOf (e : server.Event) : list (Price.t * option server.error) :=
  match e with
  | server.EvGetCurrentPrice price err => [(price, err)]
  | _ => []
  end.

(** The calls of [GetFuturePrices]. *)
Definition futurePricesOf (e : server.Event) : list (list Price.t * option server.error) :=
  match e with
  | server.EvGetFuturePrices prices err => [(prices, err)]
  | _ => []
  end.

(** The calls of the storage's [GetEnergyHistory]. *)
Definition energyHistoryOf (e : server.Event)
  : list (time.Time * time.Time * list EnergyStats.t * option server.error) :=
  match e with
  | server.EvGetEnergyHistory start stop stats err => [(start, stop, stats, err)]
  | _ => []
  end.

(** The calls of the storage's [GetPriceHistory]. *)
Definition priceHistoryOf (e : server.Event)
  : list (time.Time * time.Time * list Price.t * option server.error) :=
  match e with
  | server.EvGetPriceHistory start stop prices err => [(start, stop, prices, err)]
  | _ => []
  end.

(** What [Decide] was called with: the status, the current price, the
    future prices, the energy history and the settings. *)
Definition decideArgsOf (e : server.Event)
  : list (SystemStatus.t * Price.t * list Price.t * list EnergyStats.t * Settings.t) :=
  match e with
  | server.EvDecide status currentPrice futurePrices history settings _ _ =>
      [(status, currentPrice, futurePrices, history, settings)]
  | _ => []
  end.

(** The token validations alone. *)
Definition isTokenValidator (e : server.Event) : bool :=
  match e with
  | server.EvTokenValidator _ _ _ _ => true
  | _ => false
  end.

End calls.

(** ** [pkg/server]: the handlers of the history, the settings and the
       session

    [handleHistoryPrices] and [handleHistoryActions] of [history.go],
    [handleGetSettings] and [handleUpdateSettings], and [authMiddleware],
    [handleLogin], [handleLogout] and [handleAuthStatus].  They read more
    of the request and of the server than the two handlers above, and
    write cookies; the records below hold those too. *)

Module api.

Definition error : Set := server.error.

(** [http.SameSite]. *)
Inductive SameSite : Set :=
| SameSiteDefaultMode
| SameSiteLaxMode
| SameSiteStrictMode
| SameSiteNoneMode.

(** [http.Cookie], with the fields the handlers set. *)
Module Cookie.
Record t : Set := mk {
  Name : string;
  Value : string;
  Expires : time.Time;
  MaxAge : Z;
  HttpOnly : bool;
  Secure : bool;
  Path : string;
  SameSite : SameSite
}.
End Cookie.

(** [time.Unix(sec, 0)]: Go's zero time is 62135596800 seconds before
    the Unix epoch. *)
Definition timeUnix (sec : Z) : time.Time := (sec + 62135596800) * time.Second.

(** [idtoken.Payload], as far as the handlers read it: the claim
    ["email"], none when it is absent or not a string, and [Expires]. *)
Module Payload.
Record t : Set := mk {
  email : option string;
  Expires : Z
}.
End Payload.

(** [types.Settings] as [handleUpdateSettings] reads it: the fields of
    [settings.go], and [IgnoreHourUsageOverMultiple], which the handler
    validates and that file does not have. *)
Module NewSettings.
Record t : Set := mk {
  settings : Settings.t;
  IgnoreHourUsageOverMultiple : float
}.
End NewSettings.

(** The result of [r.Cookie(authTokenCookie)]. *)
Inductive CookieLookup : Set :=
| CookieFound (value : string)
| ErrNoCookie
| CookieErr (err : error).

(** An [*http.Request], with the cookie of the session and the body. *)
Record Request : Set := mkRequest {
  ctxEmail : option string;
  Authorization : string;
  Query : list (string * string);
  authCookie : CookieLookup;
  RequestBody : string
}.

(** What [handleUpdate] and [parseTimeRange] read of it. *)
Definition coreRequest (r : Request) : server.Request :=
  server.mkRequest (ctxEmail r) (Authorization r) (Query r).

(** [r.WithContext(context.WithValue(r.Context(), emailContextKey, email))]. *)
Definition WithEmail (email : string) (r : Request) : Request :=
  {| ctxEmail := Some email;
     Authorization := Authorization r;
     Query := Query r;
     authCookie := authCookie r;
     RequestBody := RequestBody r |}.

(** [authStatusResponse]. *)
Record authStatusResponse : Set := mkAuthStatusResponse {
  LoggedIn : bool;
  IsAdmin : bool;
  Email : string;
  AuthRequired : bool;
  ClientID : string
}.

(** The body a handler writes: one of [handleUpdate] or
    [handleHistorySavings], nothing, or the value handed to the JSON
    encoder. *)
Inductive Body : Set :=
| CoreBody (body : server.Body)
| NoBody
| PricesJSON (prices : list Price.t)
| ActionsJSON (actions : list Action.t)
| SettingsJSON (settings : Settings.t)
| AuthStatusJSON (status : authStatusResponse).

(** The status code, the headers set with [w.Header().Set], the cookies
    set with [http.SetCookie], and the body. *)
Record Response : Set := mkResponse {
  StatusCode : Z;
  Header : list (string * string);
  SetCookie : list Cookie.t;
  ResponseBody : Body
}.

Definition ofCore (response : server.Response) : Response :=
  mkResponse (server.StatusCode response) (server.Header response) []
    (CoreBody (server.ResponseBody response)).

(** [http.Error(w, msg, code)] on a writer that holds [cookies]. *)
Definition httpError (cookies : list Cookie.t) (msg : string) (code : Z) : Response :=
  mkResponse code [] cookies (CoreBody (server.Text msg)).

(** The calls of these handlers: those of the handlers above, the two
    storage methods they do not use, and the token validator with the
    whole payload. *)
Inductive Event : Set :=
| Core (e : server.Event)
| EvTokenValidator (idToken audience : string) (payload : Payload.t) (err : option error)
| EvGetActionHistory (start stop : time.Time) (actions : list Action.t) (err : option error)
| EvSetSettings (settings : NewSettings.t) (err : option error).

(** The settings handed to [SetSettings]. *)
Definition setSettingsOf (e : Event) : list NewSettings.t :=
  match e with
  | EvSetSettings settings _ => [settings]
  | _ => []
  end.

(** The calls of [handleUpdate] and [handleHistorySavings] among them. *)
Definition coreOf (e : Event) : list server.Event :=
  match e with
  | Core e => [e]
  | _ => []
  end.

(** The windows asked of the storage, by any of its history methods. *)
Definition windowOf (e : Event) : list (time.Time * time.Time) :=
  match e with
  | Core (server.EvGetPriceHistory start stop _ _)
  | Core (server.EvGetEnergyHistory start stop _ _)
  | EvGetActionHistory start stop _ _ => [(start, stop)]
  | _ => []
  end.

Section Handlers.

Variable W : Type.

Definition M (A : Type) : Type := W -> A * W * list Event.

#[local] Instance M_ret : MRet M := fun A (a : A) w => (a, w, []).

#[local] Instance M_bind : MBind M :=
  fun A B (k : A -> M B) (m : M A) w =>
    let '(a, w1, t1) := m w in
    let '(b, w2, t2) := k a w1 in
    (b, w2, t1 ++ t2).

Definition call {A : Type} (m : server.Method W A) (ev : A -> Event) : M A :=
  fun w => let '(a, w1) := m w in (a, w1, [ev a]).

Definition clock (now : server.Method W time.Time) : M time.Time :=
  fun w => let '(t, w1) := now w in (t, w1, []).

(** A step of the handlers above, its calls kept. *)
Definition lift {A : Type} (m : server.M W A) : M A :=
  fun w => let '(a, w1, t) := m w in (a, w1, List.map Core t).

(** [storage.Storage], whole: the methods above, [GetActionHistory] and
    [SetSettings]. *)
Record Storage : Type := mkStorage {
  core : server.Storage W;
  GetActionHistory : time.Time -> time.Time -> server.Method W (list Action.t * option error);
  SetSettings : NewSettings.t -> server.Method W (option error)
}.

(** [Server], whole: with [oidcAudience], and a [tokenValidator] that
    returns the payload. *)
Record Server : Type := mkServer {
  utilityProvider : server.UtilityProvider W;
  essSystem : server.System W;
  storage : Storage;
  controller : server.Controller W;
  tokenValidator : string -> string -> server.Method W (Payload.t * option error);
  updateSpecificAudience : string;
  oidcAudience : string;
  updateSpecificEmail : string;
  adminEmails : list string;
  bypassAuth : bool
}.

(** The same server, as [handleUpdate] and [handleHistorySavings] see
    it. *)
Definition coreServer (s : Server) : server.Server W :=
  {| server.utilityProvider := utilityProvider s;
     server.essSystem := essSystem s;
     server.storage := core (storage s);
     server.controller := controller s;
     server.tokenValidator :=
       fun idToken audience w =>
         let '(payload, err, w1) := tokenValidator s idToken audience w in
         (Payload.email payload, err, w1);
     server.updateSpecificAudience := updateSpecificAudience s;
     server.updateSpecificEmail := updateSpecificEmail s;
     server.adminEmails := adminEmails s;
     server.bypassAuth := bypassAuth s |}.

(** [time.Now], [time.Parse(time.RFC3339, _)], and the JSON decoder on
    the body of a settings update and of a login, which yields the
    [Token] of the request. *)
Variable timeNow : server.Method W time.Time.
Variable parseRFC3339 : string -> time.Time * option error.
Variable decodeSettings : string -> NewSettings.t * option error.
Variable decodeLogin : string -> string * option error.

(** The constant [authTokenCookie], declared outside the files at hand. *)
Variable authTokenCookie : string.

(** [handleUpdate] and [handleHistorySavings] behind the same
    interface. *)
Definition handleUpdate (s : Server) (r : Request) : M Response :=
  response ← lift (server.handleUpdate W timeNow (coreServer s) (coreRequest r));
  mret (ofCore response).

Definition handleHistorySavings (s : Server) (r : Request) : M Response :=
  response ← lift (server.handleHistorySavings W timeNow parseRFC3339 (coreServer s)
                     (coreRequest r));
  mret (ofCore response).

(** [handleHistoryPrices] of [history.go]. *)
Definition handleHistoryPrices (s : Server) (r : Request) : M Response :=
  '(start, stop, err) ← lift (server.parseTimeRange W timeNow parseRFC3339 (coreRequest r));
  match err with
  | Some e =>
      mret (httpError [] (String.append "invalid time range: " e) server.StatusBadRequest)
  | None =>
  '(prices, err) ← call (server.GetPriceHistory W (core (storage s)) start stop)
                     (fun '(prices, err) => Core (server.EvGetPriceHistory start stop prices err));
  match err with
  | Some _ => mret (httpError [] "failed to get prices" server.StatusInternalServerError)
  | None =>
  now ← clock timeNow;
  let today := time.Truncate now (24 * time.Hour) in
  let cacheControl :=
    if time.Before stop today then "public, max-age=86400"%string
    else "public, max-age=60"%string in
  mret (mkResponse server.StatusOK
          [("Content-Type"%string, "application/json"%string);
           ("Cache-Control"%string, cacheControl)]
          [] (PricesJSON prices))
  end end.

(** [handleHistoryActions] of [history.go]. *)
Definition handleHistoryActions (s : Server) (r : Request) : M Response :=
  '(start, stop, err) ← lift (server.parseTimeRange W timeNow parseRFC3339 (coreRequest r));
  match err with
  | Some e =>
      mret (httpError [] (String.append "invalid time range: " e) server.StatusBadRequest)
  | None =>
  '(actions, err) ← call (GetActionHistory (storage s) start stop)
                      (fun '(actions, err) => EvGetActionHistory start stop actions err);
  match err with
  | Some _ => mret (httpError [] "failed to get actions" server.StatusInternalServerError)
  | None =>
  now ← clock timeNow;
  let today := time.Truncate now (24 * time.Hour) in
  let cacheControl :=
    if time.Before stop today then "public, max-age=86400"%string
    else "public, max-age=60"%string in
  mret (mkResponse server.StatusOK
          [("Content-Type"%string, "application/json"%string);
           ("Cache-Control"%string, cacheControl)]
          [] (ActionsJSON actions))
  end end.

(** [handleGetSettings]. *)
Definition handleGetSettings (s : Server) (r : Request) : M Response :=
  '(settings, err) ← call (server.GetSettings W (core (storage s)))
                       (fun '(settings, err) => Core (server.EvGetSettings settings err));
  match err with
  | Some _ => mret (httpError [] "failed to get settings" server.StatusInternalServerError)
  | None =>
      mret (mkResponse server.StatusOK [("Content-Type"%string, "application/json"%string)]
              [] (SettingsJSON settings))
  end.

(** The loop over [s.adminEmails] that [handleUpdateSettings] and
    [handleAuthStatus] both run. *)
Definition isAdminEmail (s : Server) (email : string) : bool :=
  List.existsb (String.eqb email) (adminEmails s).

(** The basic validation of [handleUpdateSettings]: true when a value
    is out of range. *)
Definition invalidSettings (newSettings : NewSettings.t) : bool :=
  let settings := NewSettings.settings newSettings in
  (Settings.AlwaysChargeUnderDollarsPerKWH settings <? 0)%float
  || (Settings.AdditionalFeesDollarsPerKWH settings <? 0)%float
  || (Settings.MinArbitrageDifferenceDollarsPerKWH settings <? 0)%float
  || (Settings.MinBatterySOC settings <? 0)%float
  || (100 <? Settings.MinBatterySOC settings)%float
  || (NewSettings.IgnoreHourUsageOverMultiple newSettings <? 1)%float.

(** The authentication of [handleUpdateSettings], from the context: the
    response that ends the request when it is refused. *)
Definition authorizeSettings (s : Server) (r : Request) : option Response :=
  if negb (bypassAuth s) then
    (* don't let a misconfiguration allow updates *)
    if (List.length (adminEmails s) =? 0)%nat then
      Some (httpError [] "settings updates are disabled" server.StatusForbidden)
    else
      match ctxEmail r with
      | None => Some (httpError [] "missing authentication" server.StatusUnauthorized)
      | Some email =>
          if String.eqb email "" then
            Some (httpError [] "missing authentication" server.StatusUnauthorized)
          else if isAdminEmail s email then None
          else Some (httpError [] "unauthorized email" server.StatusForbidden)
      end
  else None.

(** [handleUpdateSettings]. *)
Definition handleUpdateSettings (s : Server) (r : Request) : M Response :=
  match authorizeSettings s r with
  | Some response => mret response
  | None =>
  let '(newSettings, err) := decodeSettings (RequestBody r) in
  match err with
  | Some _ => mret (httpError [] "invalid request body" server.StatusBadRequest)
  | None =>
  if invalidSettings newSettings then
    mret (httpError [] "invalid settings values" server.StatusBadRequest)
  else
  err ← call (SetSettings (storage s) newSettings) (EvSetSettings newSettings);
  match err with
  | Some _ => mret (httpError [] "failed to save settings" server.StatusInternalServerError)
  | None => mret (mkResponse server.StatusOK [] [] NoBody)
  end end end.

(** The cookie [clearCookie] sets. *)
Definition clearCookie : Cookie.t :=
  {| Cookie.Name := authTokenCookie;
     Cookie.Value := "";
     Cookie.Expires := timeUnix 0;
     Cookie.MaxAge := -1;
     Cookie.HttpOnly := true;
     Cookie.Secure := true;
     Cookie.Path := "/";
     Cookie.SameSite := SameSiteStrictMode |}.

(** [authMiddleware(next)]. *)
Definition authMiddleware (s : Server) (next : Request -> M Response) (r : Request)
  : M Response :=
  match authCookie r with
  | ErrNoCookie => next r
  | CookieErr _ => mret (httpError [clearCookie] "invalid cookies" server.StatusBadRequest)
  | CookieFound value =>
      '(payload, err) ← call (tokenValidator s value (oidcAudience s))
                          (fun '(payload, err) =>
                             EvTokenValidator value (oidcAudience s) payload err);
      match err with
      | Some _ => mret (httpError [clearCookie] "invalid cookies" server.StatusBadRequest)
      | None =>
          match Payload.email payload with
          | None =>
              mret (httpError [clearCookie] "invalid oidc claims" server.StatusBadRequest)
          | Some email => next (WithEmail email r)
          end
      end
  end.

(** [handleLogin]. *)
Definition handleLogin (s : Server) (r : Request) : M Response :=
  let '(token, err) := decodeLogin (RequestBody r) in
  match err with
  | Some _ => mret (httpError [] "invalid request" server.StatusBadRequest)
  | None =>
  '(payload, err) ← call (tokenValidator s token (oidcAudience s))
                      (fun '(payload, err) =>
                         EvTokenValidator token (oidcAudience s) payload err);
  match err with
  | Some _ => mret (httpError [] "invalid id token" server.StatusUnauthorized)
  | None =>
  match Payload.email payload with
  | None => mret (httpError [] "invalid oidc claims" server.StatusUnauthorized)
  | Some _ =>
      (* Set the cookie *)
      mret (mkResponse server.StatusOK []
              [ {| Cookie.Name := authTokenCookie;
                   Cookie.Value := token;
                   Cookie.Expires := timeUnix (Payload.Expires payload);
                   Cookie.MaxAge := 0;
                   Cookie.HttpOnly := true;
                   Cookie.Secure := true;
                   Cookie.Path := "/";
                   Cookie.SameSite := SameSiteStrictMode |} ]
              NoBody)
  end end end.

(** [handleLogout]. *)
Definition handleLogout (s : Server) (r : Request) : M Response :=
  mret (mkResponse server.StatusOK [] [clearCookie] NoBody).

(** [handleAuthStatus].  The encoder writes the status 200. *)
Definition handleAuthStatus (s : Server) (r : Request) : M Response :=
  let email := match ctxEmail r with Some email => email | None => EmptyString end in
  let loggedIn := negb (String.eqb email "") in
  let isAdmin := if loggedIn then isAdminEmail s email else false in
  let loggedIn := if bypassAuth s then true else loggedIn in
  let isAdmin := if bypassAuth s then true else isAdmin in
  mret (mkResponse server.StatusOK [] []
          (AuthStatusJSON
             {| LoggedIn := loggedIn;
                IsAdmin := isAdmin;
                Email := email;
                AuthRequired := negb (String.eqb (oidcAudience s) "");
                ClientID := oidcAudience s |})).

End Handlers.

End api.

(** ** Fixtures for the handlers of the history, the settings and the
       session

    A server with one administrator and no bypass, over the mocks above;
    a validator that knows two tokens; and decoders that know one body
    each. *)

Module TestAPI.

(** A status in the emergency mode, otherwise the base status. *)
Definition emergencyStatus : SystemStatus.t :=
  let st := TestDecide.baseStatus in
  SystemStatus.mk (SystemStatus.BatterySOC st) (SystemStatus.BatteryCapacityKWH st)
    (SystemStatus.MaxBatteryChargeKW st) (SystemStatus.BatteryKW st)
    (SystemStatus.SolarKW st) (SystemStatus.HomeKW st) (SystemStatus.GridKW st)
    true (SystemStatus.CanImportBattery st) (SystemStatus.CanExportBattery st)
    (SystemStatus.CanExportSolar st).

(** A tick against an ESS in the emergency mode. *)
Definition emergencyRun : server.Response * unit * list server.Event :=
  server.handleUpdate unit TestServer.timeNow
    (TestServer.testServer TestDecide.baseSettings emergencyStatus None
       TestServer.currentPrice [] [])
    (TestServer.request []) tt.

Definition adminEmail : string := "admin@example.com".
Definition userEmail : string := "user@example.com".
Definition audience : string := "test-audience".
Definition authTokenCookie : string := "auth_token".

(** The token "admin-token" is the administrator's, "user-token" another
    user's; both expire an hour after [TestServer.newYear]. *)
Definition tokenValidator (idToken aud : string)
  : server.Method unit (api.Payload.t * option api.error) :=
  fun w =>
    if negb (String.eqb aud audience) then
      (api.Payload.mk None 0, Some "wrong audience"%string, w)
    else if String.eqb idToken "admin-token" then
      (api.Payload.mk (Some adminEmail) 1704070800, None, w)
    else if String.eqb idToken "user-token" then
      (api.Payload.mk (Some userEmail) 1704070800, None, w)
    else (api.Payload.mk None 0, Some "invalid token"%string, w).

(** The settings of the body "new settings". *)
Definition newSettings : api.NewSettings.t :=
  api.NewSettings.mk TestDecide.baseSettings 3.

Definition decodeSettings (body : string) : api.NewSettings.t * option api.error :=
  if String.eqb body "new settings" then (newSettings, None)
  else (api.NewSettings.mk TestDecide.baseSettings 0, Some "unexpected end of JSON input"%string).

(** The body of a login is taken to decode to itself as the token. *)
Definition decodeLogin (body : string) : string * option api.error := (body, None).

Definition theServer : api.Server unit :=
  {| api.utilityProvider := TestServer.mockUtility TestServer.currentPrice;
     api.essSystem := TestServer.mockESS TestDecide.baseStatus None;
     api.storage :=
       {| api.core := TestServer.mockStorage TestDecide.baseSettings [] [];
          api.GetActionHistory := fun _ _ w => ([], None, w);
          api.SetSettings := fun _ w => (None, w) |};
     api.controller := TestServer.theController;
     api.tokenValidator := tokenValidator;
     api.updateSpecificAudience := "";
     api.oidcAudience := audience;
     api.updateSpecificEmail := "";
     api.adminEmails := [adminEmail];
     api.bypassAuth := false |}.

(** A request with the e-mail [email] in its context and the body
    [body]; one with the session cookie [value]. *)
Definition requestOf (email : string) (body : string) : api.Request :=
  api.mkRequest (Some email) "" [] api.ErrNoCookie body.

Definition requestWithCookie (value : string) : api.Request :=
  api.mkRequest None "" [] (api.CookieFound value) "".


(** The administrator saves the new settings. *)
Definition saveRun : api.Response * unit * list api.Event :=
  api.handleUpdateSettings unit decodeSettings theServer (requestOf adminEmail "new settings") tt.

(** The administrator logs in. *)
Definition loginRun : api.Response * unit * list api.Event :=
  api.handleLogin unit decodeLogin authTokenCookie theServer (requestOf "" "admin-token") tt.

(** The cookie of that login. *)
Definition loginCookie : api.Cookie.t :=
  api.Cookie.mk authTokenCookie "admin-token" (api.timeUnix 1704070800) 0 true true "/"
    api.SameSiteStrictMode.

(** Another user asks for a tick, with a session cookie. *)
Definition userTick : api.Response * unit * list api.Event :=
  api.authMiddleware unit authTokenCookie theServer
    (api.handleUpdate unit TestServer.timeNow theServer)
    (requestWithCookie "user-token") tt.

End TestAPI.

(** * Properties *)

(** ** Facts of IEEE comparison *)

Lemma float_pos_not_leb_zero (x : float) : (0 <? x)%float = true -> (x <=? 0)%float = false.
Proof.
  rewrite ltb_spec, leb_spec.
  change (Prim2SF 0) with (S754_zero false).
  destruct (Prim2SF x) as [s | s | | s m e]; cbn; try discriminate;
    destruct s; cbn; congruence.
Qed.

Lemma float_pos_not_ltb_zero (x : float) : (0 <? x)%float = true -> (x <? 0)%float = false.
Proof.
  rewrite !ltb_spec.
  change (Prim2SF 0) with (S754_zero false).
  destruct (Prim2SF x) as [s | s | | s m e]; cbn; try discriminate;
    destruct s; cbn; congruence.
Qed.

Lemma float_neg_not_pos (x : float) : (x <? 0)%float = true -> (0 <? x)%float = false.
Proof.
  intros H. destruct (0 <? x)%float eqn:E; [ | reflexivity ].
  apply float_pos_not_ltb_zero in E. congruence.
Qed.

(** ** The decision controller *)

(** Case analysis on the conditions of a chain of [if]s, outermost
    first. *)
Ltac split_ifs :=
  repeat match goal with
         | |- context [if ?c then _ else _] =>
             lazymatch c with
             | context [if _ then _ else _] => fail
             | _ => destruct c eqn:?
             end
         end.

(** Cases of [TestDecide] on the rules: a negative price charges and
    stops the export; a spike two hours ahead charges; the same spike
    under a margin of 0.40 leaves the discharging battery alone; a
    battery that charges from the grid against the decision is sent to
    [Load]. *)
Example TestDecide_negative_price :
  let decision :=
    controller.Decide TestDecide.policy TestDecide.now TestDecide.baseStatus
      (TestDecide.priceNow (-0.01)) [] TestDecide.history TestDecide.baseSettings in
  Action.BatteryMode (Decision.Action decision) = BatteryModeChargeAny
  /\ Action.SolarMode (Decision.Action decision) = SolarModeNoExport.
Proof. vm_compute. split; reflexivity. Qed.

Example TestDecide_arbitrage_opportunity :
  Action.BatteryMode
    (Decision.Action
       (controller.Decide TestDecide.policy TestDecide.now TestDecide.baseStatus
          (TestDecide.priceNow 0.10) [TestDecide.priceIn 2 0.50] TestDecide.history
          TestDecide.baseSettings))
  = BatteryModeChargeAny.
Proof. vm_compute. reflexivity. Qed.

Example TestDecide_arbitrage_constraint :
  Action.BatteryMode
    (Decision.Action
       (controller.Decide TestDecide.policy TestDecide.now
          (TestDecide.withBatteryKW 1 TestDecide.baseStatus)
          (TestDecide.priceNow 0.10) [TestDecide.priceIn 2 0.50] TestDecide.noLoadHistory
          (Settings.mk false false 0.05 0.02 0.40 20 true true)))
  = BatteryModeNoChange.
Proof. vm_compute. reflexivity. Qed.

Example TestDecide_charging_from_grid :
  Action.BatteryMode
    (Decision.Action
       (controller.Decide TestDecide.policy TestDecide.now
          (SystemStatus.mk 50 10 0 (-3) 1 1 3 false true true true)
          (TestDecide.priceNow 0.20) [] []
          (Settings.mk false false 0 0 0 20 false false)))
  = BatteryModeLoad.
Proof. vm_compute. reflexivity. Qed.

(** The finalization never turns another mode into [ChargeAny]. *)
Lemma finalizeAction_ChargeAny (status : SystemStatus.t) (desired : BatteryMode) :
  controller.finalizeAction status desired = BatteryModeChargeAny ->
  desired = BatteryModeChargeAny.
Proof.
  unfold controller.finalizeAction.
  destruct desired; cbn [BatteryMode_eqb andb orb];
    rewrite ?andb_false_r, ?andb_true_r; split_ifs; congruence.
Qed.

(** Without grid charging and at a price above 0 no rule wants
    [ChargeAny]. *)
Lemma decideRules_no_grid_charge pol now status currentPrice futurePrices history settings :
  Settings.GridChargeBatteries settings = false ->
  (0 <? Price.DollarsPerKWH currentPrice)%float = true ->
  fst (controller.decideRules pol now status currentPrice futurePrices history settings)
  <> BatteryModeChargeAny.
Proof.
  intros Hgrid Hpos. unfold controller.decideRules.
  rewrite Hgrid, (float_pos_not_leb_zero _ Hpos).
  cbn [andb orb]. rewrite !andb_false_r. cbn [orb].
  split_ifs; cbn [fst]; congruence.
Qed.

(** C1. With [GridChargeBatteries] off and a current price above 0,
    [Decide] never returns the battery mode [ChargeAny]. *)
Theorem Decide_no_ChargeAny_without_grid_charging
  pol now status currentPrice futurePrices history settings :
  Settings.GridChargeBatteries settings = false ->
  (0 <? Price.DollarsPerKWH currentPrice)%float = true ->
  Action.BatteryMode
    (Decision.Action
       (controller.Decide pol now status currentPrice futurePrices history settings))
  <> BatteryModeChargeAny.
Proof.
  intros Hgrid Hpos.
  pose proof (decideRules_no_grid_charge pol now status currentPrice futurePrices
                history settings Hgrid Hpos) as Hraw.
  unfold controller.Decide.
  destruct (controller.decideRules pol now status currentPrice futurePrices history settings)
    as [desired description].
  cbn [fst] in Hraw. cbn [Decision.Action Action.BatteryMode].
  destruct (SystemStatus.BatteryCapacityKWH status =? 0)%float; [ exact Hraw | ].
  intros Hfinal. apply finalizeAction_ChargeAny in Hfinal. contradiction.
Qed.

(** The arbitrage case of [TestDecide] with grid charging off: the
    hypotheses of C1 hold and the mode is not [ChargeAny]. *)
Lemma Decide_no_ChargeAny_without_grid_charging_witness :
  Action.BatteryMode
    (Decision.Action
       (controller.Decide TestDecide.policy TestDecide.now TestDecide.baseStatus
          (TestDecide.priceNow 0.10) [TestDecide.priceIn 2 0.50] TestDecide.history
          (TestDecide.withGridCharge false TestDecide.baseSettings)))
  <> BatteryModeChargeAny.
Proof.
  apply Decide_no_ChargeAny_without_grid_charging; reflexivity.
Defined.

(** With a capacity of 0 the first rule decides. *)
Lemma decideRules_zero_capacity pol now status currentPrice futurePrices history settings :
  (SystemStatus.BatteryCapacityKWH status =? 0)%float = true ->
  controller.decideRules pol now status currentPrice futurePrices history settings
  = (BatteryModeStandby, "Capacity 0"%string).
Proof. intros Hcap. unfold controller.decideRules. rewrite Hcap. reflexivity. Qed.





(** C3. With a battery capacity of 0, whatever the battery does,
    [Decide] returns [Standby] with a description that contains
    "Capacity 0". *)
Theorem Decide_zero_capacity_Standby
  pol now status currentPrice futurePrices history settings :
  (SystemStatus.BatteryCapacityKWH status =? 0)%float = true ->
  Action.BatteryMode
    (Decision.Action
       (controller.Decide pol now status currentPrice futurePrices history settings))
  = BatteryModeStandby
  /\ stringsContains
       (Action.Description
          (Decision.Action
             (controller.Decide pol now status currentPrice futurePrices history settings)))
       "Capacity 0" = true.
Proof.
  intros Hcap. unfold controller.Decide.
  rewrite (decideRules_zero_capacity _ _ _ _ _ _ _ Hcap).
  cbn [Decision.Action Action.BatteryMode Action.Description]. rewrite Hcap.
  split; reflexivity.
Qed.

(** The case "Zero Capacity" of [TestDecide]: capacity 0 while the
    battery discharges at 1 kW. *)
Lemma Decide_zero_capacity_Standby_witness :
  (0 <? SystemStatus.BatteryKW
          (TestDecide.withBatteryKW 1 (TestDecide.withCapacity 0 TestDecide.baseStatus)))%float
  = true
  /\ Action.BatteryMode
       (Decision.Action
          (controller.Decide TestDecide.policy TestDecide.now
             (TestDecide.withBatteryKW 1 (TestDecide.withCapacity 0 TestDecide.baseStatus))
             (TestDecide.priceNow 0.10) [] TestDecide.noLoadHistory TestDecide.baseSettings))
     = BatteryModeStandby
  /\ stringsContains
       (Action.Description
          (Decision.Action
             (controller.Decide TestDecide.policy TestDecide.now
                (TestDecide.withBatteryKW 1 (TestDecide.withCapacity 0 TestDecide.baseStatus))
                (TestDecide.priceNow 0.10) [] TestDecide.noLoadHistory
                TestDecide.baseSettings)))
       "Capacity 0" = true.
Proof.
  split; [ reflexivity | ].
  apply Decide_zero_capacity_Standby. reflexivity.
Defined.

(** C4. When the battery discharges and the raw decision is [Load], or
    the battery charges and the raw decision is [ChargeAny], the mode
    [Decide] returns is [NoChange]. *)
Theorem Decide_NoChange_when_already_doing
  pol now status currentPrice futurePrices history settings :
  ((0 <? SystemStatus.BatteryKW status)%float = true
   /\ controller.desiredBatteryMode pol now status currentPrice futurePrices history settings
      = BatteryModeLoad)
  \/ ((SystemStatus.BatteryKW status <? 0)%float = true
      /\ controller.desiredBatteryMode pol now status currentPrice futurePrices history
           settings
         = BatteryModeChargeAny) ->
  Action.BatteryMode
    (Decision.Action
       (controller.Decide pol now status currentPrice futurePrices history settings))
  = BatteryModeNoChange.
Proof.
  unfold controller.desiredBatteryMode, controller.Decide. intros H.
  destruct (SystemStatus.BatteryCapacityKWH status =? 0)%float eqn:Hcap.
  - rewrite (decideRules_zero_capacity _ _ _ _ _ _ _ Hcap) in H.
    cbn [fst] in H. destruct H as [[_ H] | [_ H]]; discriminate.
  - destruct (controller.decideRules pol now status currentPrice futurePrices history
                settings) as [desired description].
    cbn [fst] in H. cbn [Decision.Action Action.BatteryMode].
    unfold controller.finalizeAction.
    destruct H as [[Hkw Hraw] | [Hkw Hraw]]; subst desired.
    + rewrite Hkw, (float_pos_not_ltb_zero _ Hkw). reflexivity.
    + rewrite Hkw. reflexivity.
Qed.

(** The cases "Default to Standby" and "Already Charging" of
    [TestDecide]: a battery that discharges at 1 kW with [Load] wanted,
    and one that charges at 5 kW with [ChargeAny] wanted. *)
Lemma Decide_NoChange_when_already_doing_witness :
  Action.BatteryMode
    (Decision.Action
       (controller.Decide TestDecide.policy TestDecide.now
          (TestDecide.withBatteryKW 1 TestDecide.baseStatus)
          (TestDecide.priceNow 0.10) [] TestDecide.noLoadHistory TestDecide.baseSettings))
  = BatteryModeNoChange
  /\ Action.BatteryMode
       (Decision.Action
          (controller.Decide TestDecide.policy TestDecide.now
             (TestDecide.withBatteryKW (-5) TestDecide.baseStatus)
             (TestDecide.priceNow (-0.05)) [] []
             (TestDecide.withGridCharge false TestDecide.baseSettings)))
     = BatteryModeNoChange.
Proof.
  split.
  - apply Decide_NoChange_when_already_doing. left. split; vm_compute; reflexivity.
  - apply Decide_NoChange_when_already_doing. right. split; vm_compute; reflexivity.
Defined.

(** C5. When the current price is 0 or less, or [GridExportSolar] is
    off, the solar mode [Decide] returns is [NoExport]. *)
Theorem Decide_solar_NoExport
  pol now status currentPrice futurePrices history settings :
  (Price.DollarsPerKWH currentPrice <=? 0)%float = true
  \/ Settings.GridExportSolar settings = false ->
  Action.SolarMode
    (Decision.Action
       (controller.Decide pol now status currentPrice futurePrices history settings))
  = SolarModeNoExport.
Proof.
  intros H. unfold controller.Decide.
  destruct (controller.decideRules pol now status currentPrice futurePrices history settings)
    as [desired description].
  cbn [Decision.Action Action.SolarMode]. unfold controller.selectSolarMode.
  destruct H as [H | H]; rewrite H; cbn [negb orb]; rewrite ?orb_true_r; reflexivity.
Qed.

(** The cases "Negative Price" and "Solar No Export" of [TestDecide]. *)
Lemma Decide_solar_NoExport_witness :
  Action.SolarMode
    (Decision.Action
       (controller.Decide TestDecide.policy TestDecide.now TestDecide.baseStatus
          (TestDecide.priceNow (-0.01)) [] TestDecide.history TestDecide.baseSettings))
  = SolarModeNoExport
  /\ Action.SolarMode
       (Decision.Action
          (controller.Decide TestDecide.policy TestDecide.now TestDecide.baseStatus
             (TestDecide.priceNow 0.20) [] []
             (TestDecide.withGridExportSolar false TestDecide.baseSettings)))
     = SolarModeNoExport.
Proof.
  split.
  - apply Decide_solar_NoExport. left. reflexivity.
  - apply Decide_solar_NoExport. right. reflexivity.
Defined.


(** ** [parseTimeRange] *)

Section ParseTimeRange.

Variable W : Type.
Variable timeNow : server.Method W time.Time.
Variable parseRFC3339 : string -> time.Time * option server.error.

(** A query parameter that is absent reads as the empty string. *)
Lemma queryGet_absent (query : list (string * string)) (key : string) :
  (forall value, ~ In (key, value) query) -> server.queryGet query key = EmptyString.
Proof.
  induction query as [ | [k v] rest IH]; intros Habsent; [ reflexivity | ].
  cbn [server.queryGet]. destruct (String.eqb k key) eqn:Hk.
  - apply String.eqb_eq in Hk. subst k. exfalso. apply (Habsent v). left. reflexivity.
  - apply IH. intros value Hin. apply (Habsent value). right. exact Hin.
Qed.

(** C9. [parseTimeRange] gives the window of the last 24 hours, and no
    error, when [start] or [end] is absent from the query.  When both
    are there and parse, it returns an error if the end is before the
    start, an error if the range is longer than 24 hours, and the two
    parsed times otherwise. *)
Theorem parseTimeRange_cases (r : server.Request) (w : W) :
  let startStr := server.queryGet (server.Query r) "start" in
  let endStr := server.queryGet (server.Query r) "end" in
  let result := fst (fst (server.parseTimeRange W timeNow parseRFC3339 r w)) in
  ((forall value, ~ In ("start"%string, value) (server.Query r))
   \/ (forall value, ~ In ("end"%string, value) (server.Query r)) ->
   result = (time.Add (fst (timeNow w)) (- 24 * time.Hour), fst (timeNow w), None))
  /\ (forall start stop : time.Time,
        startStr <> EmptyString -> endStr <> EmptyString ->
        parseRFC3339 startStr = (start, None) ->
        parseRFC3339 endStr = (stop, None) ->
        (stop < start -> exists e, result = (time.zero, time.zero, Some e))
        /\ (stop - start > 24 * time.Hour -> exists e, result = (time.zero, time.zero, Some e))
        /\ (start <= stop <= start + 24 * time.Hour -> result = (start, stop, None))).
Proof.
  cbv zeta. unfold server.parseTimeRange. split.
  - intros Habsent.
    assert (Hempty :
      String.eqb (server.queryGet (server.Query r) "start") ""
      || String.eqb (server.queryGet (server.Query r) "end") "" = true).
    { destruct Habsent as [H | H]; rewrite (queryGet_absent _ _ H);
        cbn [String.eqb orb]; rewrite ?orb_true_r; reflexivity. }
    rewrite Hempty. unfold server.clock, mbind, server.M_bind, mret, server.M_ret.
    destruct (timeNow w) as [now w1]. reflexivity.
  - intros start stop Hstart Hstop Hparse1 Hparse2.
    apply String.eqb_neq in Hstart, Hstop. rewrite Hstart, Hstop. cbn [orb].
    rewrite Hparse1, Hparse2. unfold time.Before, time.Sub, mret, server.M_ret.
    change time.minDuration with (- 9223372036854775808).
    change time.maxDuration with 9223372036854775807.
    change (24 * time.Hour) with 86400000000000.
    repeat split.
    + intros Hlt. apply Z.ltb_lt in Hlt. rewrite Hlt. eexists. reflexivity.
    + intros Hlong.
      destruct (stop <? start) eqn:Hbefore; [ eexists; reflexivity | ].
      destruct (stop - start <? - 9223372036854775808) eqn:Hmin;
        [ apply Z.ltb_lt in Hmin; lia | ].
      destruct (9223372036854775807 <? stop - start) eqn:Hmax;
        [ eexists; reflexivity | ].
      destruct (86400000000000 <? stop - start) eqn:Hcmp;
        [ eexists; reflexivity | apply Z.ltb_ge in Hcmp; lia ].
    + intros [Hle Hshort].
      destruct (stop <? start) eqn:Hbefore; [ apply Z.ltb_lt in Hbefore; lia | ].
      destruct (stop - start <? - 9223372036854775808) eqn:Hmin;
        [ apply Z.ltb_lt in Hmin; lia | ].
      destruct (9223372036854775807 <? stop - start) eqn:Hmax;
        [ apply Z.ltb_lt in Hmax; lia | ].
      destruct (86400000000000 <? stop - start) eqn:Hcmp;
        [ apply Z.ltb_lt in Hcmp; lia | reflexivity ].
Qed.

End ParseTimeRange.

(** Four requests at the fixtures: no parameters; an end before its
    start; a range of 48 hours; a range of 12 hours. *)
Lemma parseTimeRange_cases_witness :
  fst (fst (server.parseTimeRange unit TestServer.timeNow TestServer.parseRFC3339
              (TestServer.request []) tt))
  = (time.Add TestServer.newYear (12 * time.Hour),
     time.Add TestServer.newYear (36 * time.Hour), None)
  /\ (exists e,
        fst (fst (server.parseTimeRange unit TestServer.timeNow TestServer.parseRFC3339
                    (TestServer.request
                       [("start"%string, "2024-01-01T12:00:00Z"%string);
                        ("end"%string, "2024-01-01T00:00:00Z"%string)]) tt))
        = (time.zero, time.zero, Some e))
  /\ (exists e,
        fst (fst (server.parseTimeRange unit TestServer.timeNow TestServer.parseRFC3339
                    (TestServer.request
                       [("start"%string, "2024-01-01T00:00:00Z"%string);
                        ("end"%string, "2024-01-03T00:00:00Z"%string)]) tt))
        = (time.zero, time.zero, Some e))
  /\ fst (fst (server.parseTimeRange unit TestServer.timeNow TestServer.parseRFC3339
                 (TestServer.request
                    [("start"%string, "2024-01-01T00:00:00Z"%string);
                     ("end"%string, "2024-01-01T12:00:00Z"%string)]) tt))
     = (TestServer.newYear, time.Add TestServer.newYear (12 * time.Hour), None).
Proof.
  split; [ | split; [ | split ] ].
  - pose proof (parseTimeRange_cases unit TestServer.timeNow TestServer.parseRFC3339
                  (TestServer.request []) tt) as H.
    cbv zeta in H. destruct H as [Hdefault _].
    apply Hdefault. left. intros value Hin. exact Hin.
  - pose proof (parseTimeRange_cases unit TestServer.timeNow TestServer.parseRFC3339
                  (TestServer.request
                     [("start"%string, "2024-01-01T12:00:00Z"%string);
                      ("end"%string, "2024-01-01T00:00:00Z"%string)]) tt) as H.
    cbv zeta in H. destruct H as [_ Hparsed].
    destruct (Hparsed (time.Add TestServer.newYear (12 * time.Hour)) TestServer.newYear
                ltac:(discriminate) ltac:(discriminate) eq_refl eq_refl)
      as [Hbefore _].
    apply Hbefore. reflexivity.
  - pose proof (parseTimeRange_cases unit TestServer.timeNow TestServer.parseRFC3339
                  (TestServer.request
                     [("start"%string, "2024-01-01T00:00:00Z"%string);
                      ("end"%string, "2024-01-03T00:00:00Z"%string)]) tt) as H.
    cbv zeta in H. destruct H as [_ Hparsed].
    destruct (Hparsed TestServer.newYear (time.Add TestServer.newYear (48 * time.Hour))
                ltac:(discriminate) ltac:(discriminate) eq_refl eq_refl)
      as [_ [Hlong _]].
    apply Hlong. reflexivity.
  - pose proof (parseTimeRange_cases unit TestServer.timeNow TestServer.parseRFC3339
                  (TestServer.request
                     [("start"%string, "2024-01-01T00:00:00Z"%string);
                      ("end"%string, "2024-01-01T12:00:00Z"%string)]) tt) as H.
    cbv zeta in H. destruct H as [_ Hparsed].
    destruct (Hparsed TestServer.newYear (time.Add TestServer.newYear (12 * time.Hour))
                ltac:(discriminate) ltac:(discriminate) eq_refl eq_refl)
      as [_ [_ Hfine]].
    apply Hfine. split; discriminate.
Defined.


(** ** [handleHistorySavings] *)

Lemma sumHourlyPrices_lookup (prices : list Price.t) (hour : Z) :
  forall maps : gmap Z float * gmap Z Z,
    fst (List.fold_left server.addPrice prices maps) !! hour
    = List.fold_left (sumStep hour) prices (fst maps !! hour)
    /\ snd (List.fold_left server.addPrice prices maps) !! hour
       = List.fold_left (countStep hour) prices (snd maps !! hour).
Proof.
  induction prices as [ | p rest IH]; intros [sums counts]; [ split; reflexivity | ].
  cbn [List.fold_left]. destruct (IH (server.addPrice (sums, counts) p)) as [IHs IHc].
  rewrite IHs, IHc. cbn [server.addPrice fst snd].
  split; f_equal; unfold sumStep, countStep, server.floatAt, server.countAt;
    destruct (Z.eqb_spec (time.Truncate (Price.TSStart p) time.Hour) hour) as [Heq | Hne];
    [ rewrite Heq, lookup_insert_eq | rewrite lookup_insert_ne by exact Hne
    | rewrite Heq, lookup_insert_eq | rewrite lookup_insert_ne by exact Hne ];
    reflexivity.
Qed.

(** The slot of an hour after the first loop, from the stored prices of
    that hour. *)
Lemma sumStep_fold (prices : list Price.t) (hour : Z) :
  forall slot : option float,
    List.fold_left (sumStep hour) prices slot
    = match SavingsSpec.pricesOfHour prices hour with
      | [] => slot
      | stored => Some (List.fold_left add stored (default 0%float slot))
      end.
Proof.
  unfold SavingsSpec.pricesOfHour.
  induction prices as [ | p rest IH]; intros slot; [ reflexivity | ].
  cbn [List.fold_left List.filter List.map]. rewrite IH. unfold sumStep.
  destruct (time.Truncate (Price.TSStart p) time.Hour =? hour)%Z.
  - cbn [List.map List.fold_left default].
    destruct (List.map Price.DollarsPerKWH _); reflexivity.
  - reflexivity.
Qed.

Lemma countStep_fold (prices : list Price.t) (hour : Z) :
  forall slot : option Z,
    List.fold_left (countStep hour) prices slot
    = match SavingsSpec.pricesOfHour prices hour with
      | [] => slot
      | stored => Some (default 0 slot + Z.of_nat (List.length stored))%Z
      end.
Proof.
  unfold SavingsSpec.pricesOfHour.
  induction prices as [ | p rest IH]; intros slot; [ reflexivity | ].
  cbn [List.fold_left List.filter List.map]. rewrite IH. unfold countStep.
  destruct (time.Truncate (Price.TSStart p) time.Hour =? hour)%Z.
  - cbn [List.map default].
    destruct (List.map Price.DollarsPerKWH _) as [ | x xs];
      cbn [default List.length]; f_equal; unfold id; lia.
  - reflexivity.
Qed.

(** The price the second loop reads for an hour is price(hour). *)
Lemma averageHourlyPrices_hourPrice (prices : list Price.t) (hour : Z) :
  server.floatAt
    (server.averageHourlyPrices (fst (server.sumHourlyPrices prices))
       (snd (server.sumHourlyPrices prices)))
    hour
  = SavingsSpec.hourPrice prices hour.
Proof.
  unfold server.floatAt at 1, server.averageHourlyPrices, server.countAt.
  rewrite map_lookup_imap.
  destruct (sumHourlyPrices_lookup prices hour (∅, ∅)) as [Hs Hc].
  unfold server.sumHourlyPrices.
  rewrite Hs, Hc. cbn [fst snd]. rewrite !lookup_empty, sumStep_fold, countStep_fold.
  unfold SavingsSpec.hourPrice.
  destruct (SavingsSpec.pricesOfHour prices hour) as [ | x xs]; [ reflexivity | ].
  cbn [default option_bind mbind].
  replace (0 <? 0 + Z.of_nat (List.length (x :: xs)))%Z with true
    by (symmetry; apply Z.ltb_lt; cbn [List.length]; lia).
  rewrite Z.add_0_l. reflexivity.
Qed.

Lemma fold_left_pointwise {A B : Type} (f g : A -> B -> A) (l : list B) :
  (forall a b, f a b = g a b) -> forall a, List.fold_left f l a = List.fold_left g l a.
Proof.
  intros Hfg. induction l as [ | b rest IH]; intros a; [ reflexivity | ].
  cbn [List.fold_left]. rewrite Hfg. apply IH.
Qed.

(** The second loop, one total at a time. *)
Lemma addEnergyStats_fold (hourlyPrices : gmap Z float) (energyStats : list EnergyStats.t) :
  forall zero : server.SavingsStats,
    let totals := List.fold_left (server.addEnergyStats hourlyPrices) energyStats zero in
    let priceOf stat :=
      server.floatAt hourlyPrices (time.Truncate (EnergyStats.TSHourStart stat) time.Hour) in
    let sumFrom kwh start :=
      List.fold_left (fun total stat => (total + kwh stat * priceOf stat)%float)
        energyStats start in
    server.Timestamp totals = server.Timestamp zero
    /\ server.Cost totals = sumFrom EnergyStats.GridImportKWH (server.Cost zero)
    /\ server.Credit totals = sumFrom EnergyStats.GridExportKWH (server.Credit zero)
    /\ server.AvoidedCost totals
       = sumFrom EnergyStats.BatteryToHomeKWH (server.AvoidedCost zero)
    /\ server.ChargingCost totals
       = sumFrom SavingsSpec.gridToBattery (server.ChargingCost zero)
    /\ server.SolarSavings totals
       = sumFrom EnergyStats.SolarToHomeKWH (server.SolarSavings zero).
Proof.
  induction energyStats as [ | stat rest IH]; intros zero.
  - cbv zeta. repeat split; reflexivity.
  - cbv zeta in IH |- *. cbn [List.fold_left].
    destruct (IH (server.addEnergyStats hourlyPrices zero stat))
      as (Hts & Hcost & Hcredit & Havoided & Hcharging & Hsolar).
    rewrite Hts, Hcost, Hcredit, Havoided, Hcharging, Hsolar.
    repeat split; reflexivity.
Qed.

(** [parseTimeRange] calls no collaborator. *)
Lemma parseTimeRange_no_calls
  (W : Type) (timeNow : server.Method W time.Time)
  (parseRFC3339 : string -> time.Time * option server.error)
  (r : server.Request) (w : W) :
  snd (server.parseTimeRange W timeNow parseRFC3339 r w) = [].
Proof.
  unfold server.parseTimeRange.
  destruct (String.eqb _ _ || String.eqb _ _).
  - unfold mbind, server.M_bind, server.clock, mret, server.M_ret.
    destruct (timeNow w). reflexivity.
  - destruct (parseRFC3339 _) as [start [e | ]]; [ reflexivity | ].
    destruct (parseRFC3339 _) as [stop [e | ]]; [ reflexivity | ].
    destruct (time.Before stop start); [ reflexivity | ].
    destruct (_ <? _)%Z; reflexivity.
Qed.

(** C8. When [handleHistorySavings] answers with totals, they are the
    roll-up of the prices and the energy history the storage returned
    for the parsed window: each total is the sum over the hours of the
    energy history of the hour's kWh times price(hour), the mean of the
    stored prices of that hour, and the battery savings are the avoided
    cost less the charging cost. *)
Theorem handleHistorySavings_totals
  (W : Type) (timeNow : server.Method W time.Time)
  (parseRFC3339 : string -> time.Time * option server.error)
  (s : server.Server W) (r : server.Request) (w : W) (totals : server.SavingsStats) :
  server.ResponseBody
    (fst (fst (server.handleHistorySavings W timeNow parseRFC3339 s r w)))
  = server.SavingsJSON totals ->
  exists (start stop : time.Time) (prices : list Price.t) (energyStats : list EnergyStats.t),
    fst (fst (server.parseTimeRange W timeNow parseRFC3339 r w)) = (start, stop, None)
    /\ In (server.EvGetPriceHistory start stop prices None)
         (snd (server.handleHistorySavings W timeNow parseRFC3339 s r w))
    /\ In (server.EvGetEnergyHistory start stop energyStats None)
         (snd (server.handleHistorySavings W timeNow parseRFC3339 s r w))
    /\ server.Timestamp totals = start
    /\ server.Cost totals
       = SavingsSpec.sumTimesPrice EnergyStats.GridImportKWH prices energyStats
    /\ server.Credit totals
       = SavingsSpec.sumTimesPrice EnergyStats.GridExportKWH prices energyStats
    /\ server.AvoidedCost totals
       = SavingsSpec.sumTimesPrice EnergyStats.BatteryToHomeKWH prices energyStats
    /\ server.ChargingCost totals
       = SavingsSpec.sumTimesPrice SavingsSpec.gridToBattery prices energyStats
    /\ server.SolarSavings totals
       = SavingsSpec.sumTimesPrice EnergyStats.SolarToHomeKWH prices energyStats
    /\ server.BatterySavings totals
       = (server.AvoidedCost totals - server.ChargingCost totals)%float.
Proof.
  intros Hbody.
  destruct (server.handleHistorySavings W timeNow parseRFC3339 s r w)
    as [[response w'] trace] eqn:Hrun.
  cbn [fst snd] in Hbody |- *.
  unfold server.handleHistorySavings, mbind, server.M_bind in Hrun.
  destruct (server.parseTimeRange W timeNow parseRFC3339 r w)
    as [[[[start stop] err] w1] t1] eqn:Hrange.
  assert (Ht1 : t1 = []).
  { pose proof (parseTimeRange_no_calls W timeNow parseRFC3339 r w) as Hcalls.
    rewrite Hrange in Hcalls. exact Hcalls. }
  subst t1.
  destruct err as [e | ].
  { injection Hrun as <- <- <-. discriminate. }
  unfold server.call at 1 in Hrun.
  destruct (server.GetPriceHistory W (server.storage W s) start stop w1)
    as [[prices err] w2].
  destruct err as [e | ].
  { injection Hrun as <- <- <-. discriminate. }
  unfold server.call at 1 in Hrun.
  destruct (server.GetEnergyHistory W (server.storage W s) start stop w2)
    as [[energyStats err] w3].
  destruct err as [e | ].
  { injection Hrun as <- <- <-. discriminate. }
  unfold server.clock in Hrun. destruct (timeNow w3) as [now w4].
  cbn [mret server.M_ret app] in Hrun. injection Hrun as <- <- <-.
  cbn [server.ResponseBody] in Hbody. injection Hbody as <-.
  exists start, stop, prices, energyStats.
  split; [ reflexivity | ].
  split; [ left; reflexivity | ].
  split; [ right; left; reflexivity | ].
  unfold server.totalSavings.
  pose proof (averageHourlyPrices_hourPrice prices) as Hprice.
  destruct (server.sumHourlyPrices prices) as [sums counts]. cbn [fst snd] in Hprice.
  destruct (addEnergyStats_fold (server.averageHourlyPrices sums counts) energyStats
              (server.mkSavingsStats start 0 0 0 0 0 0 0 0 0 0 0))
    as (Hts & Hcost & Hcredit & Havoided & Hcharging & Hsolar).
  cbn [server.Timestamp server.Cost server.Credit server.AvoidedCost server.ChargingCost
       server.SolarSavings server.BatterySavings] in *.
  unfold SavingsSpec.sumTimesPrice.
  rewrite Hts, Hcost, Hcredit, Havoided, Hcharging, Hsolar.
  repeat split;
    apply fold_left_pointwise; intros total stat; rewrite Hprice; reflexivity.
Qed.

(** The savings of one stored hour with two prices, 0.04 and 0.08: the
    hour costs its 2 kWh of import at their mean. *)
Lemma handleHistorySavings_totals_witness :
  let totals := server.totalSavings TestServer.newYear TestServer.storedPrices
                  TestServer.storedEnergy in
  server.ResponseBody (fst (fst TestServer.savingsRun)) = server.SavingsJSON totals
  /\ server.Cost totals = (0 + 2 * ((0 + 0.04 + 0.08) / 2))%float
  /\ exists (start stop : time.Time) (prices : list Price.t)
        (energyStats : list EnergyStats.t),
       fst (fst (server.parseTimeRange unit TestServer.timeNow TestServer.parseRFC3339
                   (TestServer.request
                      [("start"%string, "2024-01-01T00:00:00Z"%string);
                       ("end"%string, "2024-01-01T12:00:00Z"%string)]) tt))
       = (start, stop, None)
       /\ In (server.EvGetPriceHistory start stop prices None) (snd TestServer.savingsRun)
       /\ In (server.EvGetEnergyHistory start stop energyStats None)
            (snd TestServer.savingsRun)
       /\ server.Timestamp totals = start
       /\ server.Cost totals
          = SavingsSpec.sumTimesPrice EnergyStats.GridImportKWH prices energyStats
       /\ server.Credit totals
          = SavingsSpec.sumTimesPrice EnergyStats.GridExportKWH prices energyStats
       /\ server.AvoidedCost totals
          = SavingsSpec.sumTimesPrice EnergyStats.BatteryToHomeKWH prices energyStats
       /\ server.ChargingCost totals
          = SavingsSpec.sumTimesPrice SavingsSpec.gridToBattery prices energyStats
       /\ server.SolarSavings totals
          = SavingsSpec.sumTimesPrice EnergyStats.SolarToHomeKWH prices energyStats
       /\ server.BatterySavings totals
          = (server.AvoidedCost totals - server.ChargingCost totals)%float.
Proof.
  cbv zeta. split; [ vm_compute; reflexivity | ].
  split; [ vm_compute; reflexivity | ].
  apply (handleHistorySavings_totals unit TestServer.timeNow TestServer.parseRFC3339).
  vm_compute. reflexivity.
Defined.

(** ** [handleUpdate] *)

(** Running a handler symbolically: [run_step] reduces the binds and
    takes the result of the next call apart, whatever it is. *)
Ltac run_reduce :=
  unfold mbind, mret, server.M_bind, server.M_ret, server.call, server.clock;
  cbn beta iota zeta; cbn [fst snd app].

Ltac run_step :=
  run_reduce;
  match goal with
  | |- context [match ?x with _ => _ end] =>
      lazymatch x with
      | context [match _ with _ => _ end] => fail
      | _ => first [ is_var x; destruct x | destruct x eqn:? ]
      end
  end.

Ltac preamble :=
  repeat (apply List.Forall_cons; [ reflexivity | ]);
  first [ apply List.Forall_nil | assumption ].

Section HandleUpdate.

Variable W : Type.
Variable timeNow : server.Method W time.Time.

(** A part of the trace made of preamble calls has none of the calls
    [f] collects, when [f] collects no preamble call. *)
Lemma flat_map_preamble {X : Type} (f : server.Event -> list X) (t : list server.Event) :
  (forall e, server.isPreamble e = true -> f e = []) ->
  server.Preamble t -> flat_map f t = [].
Proof.
  intros Hf Ht. induction Ht as [ | e rest He _ IH]; [ reflexivity | ].
  cbn [flat_map]. rewrite (Hf e He), IH. reflexivity.
Qed.

Lemma authorizeUpdate_preamble (s : server.Server W) (r : server.Request) (w : W) :
  server.Preamble (snd (server.authorizeUpdate W s r w)).
Proof.
  unfold server.authorizeUpdate, server.Preamble.
  repeat run_step; run_reduce; preamble.
Qed.

Lemma upsertEnergyHistory_preamble (s : server.Server W) (h : EnergyStats.t) (w : W) :
  server.Preamble (snd (server.upsertEnergyHistory W s h w)).
Proof.
  unfold server.upsertEnergyHistory, server.Preamble.
  repeat run_step; run_reduce; preamble.
Qed.

Lemma upserts_preamble (s : server.Server W) (newHistory : list EnergyStats.t) :
  forall w,
    server.Preamble (snd (server.forEach W newHistory (server.upsertEnergyHistory W s) w)).
Proof.
  unfold server.Preamble.
  induction newHistory as [ | h rest IH]; intros w; [ apply List.Forall_nil | ].
  cbn [server.forEach]. unfold mbind, server.M_bind.
  pose proof (upsertEnergyHistory_preamble s h w) as Hfirst.
  destruct (server.upsertEnergyHistory W s h w) as [[u w1] t1].
  specialize (IH w1).
  destruct (server.forEach W rest (server.upsertEnergyHistory W s) w1) as [[u2 w2] t2].
  cbn [snd] in Hfirst, IH |- *. apply Forall_app. split; assumption.
Qed.

(** The price sync asks for the last confirmed price and calls nothing
    outside the preamble. *)
Lemma syncLastConfirmedPrice_trace (s : server.Server W) (w : W) :
  server.Preamble (snd (server.syncLastConfirmedPrice W s w))
  /\ flat_map server.lastConfirmedOf (snd (server.syncLastConfirmedPrice W s w)) <> [].
Proof.
  unfold server.syncLastConfirmedPrice, server.Preamble.
  repeat run_step; run_reduce; (split; [ preamble | discriminate ]).
Qed.

(** The history sync asks the ESS for its energy history and calls
    nothing outside the preamble. *)
Lemma syncEnergyHistory_trace (s : server.Server W) (w : W) :
  server.Preamble (snd (server.syncEnergyHistory W timeNow s w))
  /\ flat_map server.essHistoryOf (snd (server.syncEnergyHistory W timeNow s w)) <> [].
Proof.
  unfold server.syncEnergyHistory, server.Preamble.
  repeat match goal with
         | |- context [server.forEach W ?l ?f ?w1] =>
             pose proof (upserts_preamble s l w1);
             destruct (server.forEach W l f w1) as [[? ?] ?]
         | _ => run_step
         end;
    run_reduce; cbn [flat_map server.essHistoryOf app] in *;
    (split; [ preamble | discriminate ]).
Qed.

Lemma app_not_nil_l {A : Type} (l1 l2 : list A) : l1 <> [] -> l1 ++ l2 <> [].
Proof. destruct l1; [ congruence | discriminate ]. Qed.

Lemma app_not_nil_r {A : Type} (l1 l2 : list A) : l2 <> [] -> l1 ++ l2 <> [].
Proof. destruct l1; [ trivial | discriminate ]. Qed.

(** One step of a run of [handleUpdate]: the authentication and the two
    syncs are taken whole, with what the lemmas above say of their
    traces; any other call is taken apart by [run_step]. *)
Ltac tick_step :=
  run_reduce;
  match goal with
  | |- context [server.authorizeUpdate W ?s ?r ?w] =>
      pose proof (authorizeUpdate_preamble s r w);
      destruct (server.authorizeUpdate W s r w) as [[? ?] ?]
  | |- context [server.syncLastConfirmedPrice W ?s ?w] =>
      destruct (syncLastConfirmedPrice_trace s w);
      destruct (server.syncLastConfirmedPrice W s w) as [[? ?] ?]
  | |- context [server.syncEnergyHistory W timeNow ?s ?w] =>
      destruct (syncEnergyHistory_trace s w);
      destruct (server.syncEnergyHistory W timeNow s w) as [[? ?] ?]
  | _ => run_step
  end;
  cbn [fst snd] in *.

(** What a projection collects of a trace built by the steps above. *)
Ltac collect :=
  repeat (rewrite ?flat_map_app;
          cbn [flat_map app server.appliedOf server.decidedOf server.setModesOf
               server.getStatusOf server.insertedOf server.lastConfirmedOf
               server.essHistoryOf]);
  repeat match goal with
         | H : server.Preamble ?l |- context [flat_map ?f ?l] =>
             rewrite (flat_map_preamble f l
                        ltac:(intros [] Hp; first [ reflexivity | discriminate Hp ]) H)
         end;
  cbn [app].

(** What the price sync calls: [LastConfirmedPrice], and [UpsertPrice]
    with the price it returned unless it failed. *)
Lemma syncLastConfirmedPrice_calls (s : server.Server W) (w : W) :
  let confirmed := server.LastConfirmedPrice W (server.utilityProvider W s) w in
  exists upserts : list server.Event,
    snd (server.syncLastConfirmedPrice W s w)
    = server.EvLastConfirmedPrice (fst (fst confirmed)) (snd (fst confirmed)) :: upserts
    /\ match snd (fst confirmed) with
       | Some _ => upserts = []
       | None =>
           exists err, upserts = [server.EvUpsertPrice (fst (fst confirmed)) err]
       end.
Proof.
  cbv zeta. unfold server.syncLastConfirmedPrice. run_reduce.
  destruct (server.LastConfirmedPrice W (server.utilityProvider W s) w)
    as [[price [e | ]] w1]; run_reduce.
  - exists []. split; reflexivity.
  - destruct (server.UpsertPrice W (server.storage W s) price w1) as [err w2].
    exists [server.EvUpsertPrice price err]. split; [ reflexivity | ].
    exists err. reflexivity.
Qed.

(** What the loop over the history of the ESS calls: [UpsertEnergyHistory]
    with each hour, in order. *)
Lemma upserts_calls (s : server.Server W) (newHistory : list EnergyStats.t) :
  forall w,
    Forall2 (fun h e => exists err, e = server.EvUpsertEnergyHistory h err) newHistory
      (snd (server.forEach W newHistory (server.upsertEnergyHistory W s) w)).
Proof.
  induction newHistory as [ | h rest IH]; intros w; [ constructor | ].
  cbn [server.forEach]. unfold mbind, server.M_bind.
  assert (Hfirst : exists err,
             snd (server.upsertEnergyHistory W s h w) = [server.EvUpsertEnergyHistory h err]).
  { unfold server.upsertEnergyHistory. run_reduce.
    destruct (server.UpsertEnergyHistory W (server.storage W s) h w) as [err w1].
    exists err. reflexivity. }
  destruct (server.upsertEnergyHistory W s h w) as [[u w1] t1].
  specialize (IH w1).
  destruct (server.forEach W rest (server.upsertEnergyHistory W s) w1) as [[u2 w2] t2].
  cbn [snd] in Hfirst, IH |- *. destruct Hfirst as [err ->]. cbn [app].
  constructor; [ exists err; reflexivity | exact IH ].
Qed.

(** What the history sync calls: [GetLatestEnergyHistoryTime], the
    [GetEnergyHistory] of the ESS, and unless that failed
    [UpsertEnergyHistory] with each hour it returned. *)
Lemma syncEnergyHistory_calls (s : server.Server W) (w : W) :
  exists (latest : time.Time) (latestErr : option server.error) (start stop : time.Time)
    (stats : list EnergyStats.t) (statsErr : option server.error)
    (upserts : list server.Event),
    snd (server.syncEnergyHistory W timeNow s w)
    = server.EvGetLatestEnergyHistoryTime latest latestErr
      :: server.EvESSGetEnergyHistory start stop stats statsErr :: upserts
    /\ match statsErr with
       | Some _ => upserts = []
       | None =>
           Forall2 (fun h e => exists err, e = server.EvUpsertEnergyHistory h err)
             stats upserts
       end.
Proof.
  unfold server.syncEnergyHistory. run_reduce.
  destruct (server.GetLatestEnergyHistoryTime W (server.storage W s) w)
    as [[latest latestErr] w1]; run_reduce.
  destruct (timeNow w1) as [now w2]; run_reduce.
  destruct (timeNow w2) as [stop w3]; run_reduce.
  match goal with
  | |- context [server.ESSGetEnergyHistory W ?ess ?start stop w3] =>
      exists latest, latestErr, start, stop;
      destruct (server.ESSGetEnergyHistory W ess start stop w3) as [[stats [e | ]] w4]
  end; run_reduce.
  - exists stats, (Some e), []. split; reflexivity.
  - pose proof (upserts_calls s stats w4) as Hupserts.
    destruct (server.forEach W stats (server.upsertEnergyHistory W s) w4) as [[u w5] t5].
    exists stats, None, t5. split; [ reflexivity | exact Hupserts ].
Qed.

(** C6. A tick that is let in, reads its settings and applies them to
    the ESS without an error, when those settings say [Pause]: it answers
    200 with the status "paused" and calls neither [GetStatus] nor
    [SetModes].  After the authentication its calls are, in this order
    and no other: [GetSettings]; [ApplySettings] with the settings read;
    [LastConfirmedPrice], and [UpsertPrice] with the price it returned
    unless it failed; [GetLatestEnergyHistoryTime]; the [GetEnergyHistory]
    of the ESS, and unless that failed [UpsertEnergyHistory] with each
    hour it returned, in order. *)
Theorem handleUpdate_paused
  (s : server.Server W) (r : server.Request) (w : W) (settings : Settings.t) :
  let auth := server.authorizeUpdate W s r w in
  let loaded := server.GetSettings W (server.storage W s) (snd (fst auth)) in
  let applied := server.ApplySettings W (server.essSystem W s) settings (snd loaded) in
  let confirmed := server.LastConfirmedPrice W (server.utilityProvider W s) (snd applied) in
  let response := fst (fst (server.handleUpdate W timeNow s r w)) in
  let trace := snd (server.handleUpdate W timeNow s r w) in
  fst (fst auth) = None ->
  fst loaded = (settings, None) ->
  fst applied = None ->
  Settings.Pause settings = true ->
  response = server.mkResponse server.StatusOK [] (server.StatusJSON "paused" None None)
  /\ flat_map server.getStatusOf trace = []
  /\ flat_map server.setModesOf trace = []
  /\ exists (priceUpserts : list server.Event)
       (latest : time.Time) (latestErr : option server.error) (start stop : time.Time)
       (stats : list EnergyStats.t) (statsErr : option server.error)
       (statsUpserts : list server.Event),
       trace
       = snd auth
         ++ [server.EvGetSettings settings None; server.EvApplySettings settings None]
         ++ server.EvLastConfirmedPrice (fst (fst confirmed)) (snd (fst confirmed))
            :: priceUpserts
         ++ server.EvGetLatestEnergyHistoryTime latest latestErr
            :: server.EvESSGetEnergyHistory start stop stats statsErr :: statsUpserts
       /\ match snd (fst confirmed) with
          | Some _ => priceUpserts = []
          | None =>
              exists err, priceUpserts = [server.EvUpsertPrice (fst (fst confirmed)) err]
          end
       /\ match statsErr with
          | Some _ => statsUpserts = []
          | None =>
              Forall2 (fun h e => exists err, e = server.EvUpsertEnergyHistory h err)
                stats statsUpserts
          end.
Proof.
  cbv zeta. intros Hauth Hloaded Happlied Hpause.
  unfold server.handleUpdate. run_reduce.
  pose proof (authorizeUpdate_preamble s r w) as Hpre.
  destruct (server.authorizeUpdate W s r w) as [[refused w1] t1].
  cbn [fst snd] in Hauth, Hloaded, Happlied, Hpre |- *. subst refused. run_reduce.
  destruct (server.GetSettings W (server.storage W s) w1) as [[loaded err] w2].
  cbn [fst snd] in Hloaded, Happlied |- *. injection Hloaded as -> ->. run_reduce.
  destruct (server.ApplySettings W (server.essSystem W s) settings w2) as [err w3].
  cbn [fst snd] in Happlied |- *. subst err. run_reduce.
  destruct (syncLastConfirmedPrice_calls s w3) as (priceUpserts & Hprice & HpriceUpserts).
  destruct (syncLastConfirmedPrice_trace s w3) as [Hpre4 _].
  destruct (server.syncLastConfirmedPrice W s w3) as [[u4 w4] t4].
  destruct (syncEnergyHistory_calls s w4)
    as (latest & latestErr & start & stop & stats & statsErr & statsUpserts
        & Hstats & HstatsUpserts).
  destruct (syncEnergyHistory_trace s w4) as [Hpre5 _].
  destruct (server.syncEnergyHistory W timeNow s w4) as [[u5 w5] t5].
  cbn [fst snd] in Hprice, Hstats, Hpre4, Hpre5 |- *. rewrite Hpause. run_reduce.
  split; [ reflexivity | ].
  split; [ collect; reflexivity | ].
  split; [ collect; reflexivity | ].
  exists priceUpserts, latest, latestErr, start, stop, stats, statsErr, statsUpserts.
  split; [ | split; assumption ].
  rewrite Hprice, Hstats, app_nil_r. cbn [app]. reflexivity.
Qed.

(** C7. In a tick that reaches a decision: for [ChargeAny], [Load] and
    [Standby] the tick calls [SetModes] once, with that battery mode and
    the solar mode [Any]; for another mode it does not call it.  When
    the call fails, " (FAILED: " followed by the error and ")" is
    appended to the description of the action.  Either way the action is
    handed to [InsertAction] and the answer is 200. *)
Theorem handleUpdate_execute
  (s : server.Server W) (r : server.Request) (w : W) (decision : Decision.t) :
  let response := fst (fst (server.handleUpdate W timeNow s r w)) in
  let trace := snd (server.handleUpdate W timeNow s r w) in
  let action := Decision.Action decision in
  flat_map server.decidedOf trace = [(decision, None)] ->
  server.StatusCode response = server.StatusOK
  /\ match Action.BatteryMode action with
     | BatteryModeChargeAny | BatteryModeLoad | BatteryModeStandby =>
         exists (err : option server.error) (logged : Action.t),
           flat_map server.setModesOf trace
           = [(Action.BatteryMode action, SolarModeAny, err)]
           /\ flat_map server.insertedOf trace = [logged]
           /\ match err with
              | Some e =>
                  Action.Description logged
                  = String.append (Action.Description action)
                      (String.append " (FAILED: " (String.append e ")"))
              | None => Action.Description logged = Action.Description action
              end
     | _ =>
         flat_map server.setModesOf trace = []
         /\ exists logged : Action.t,
              flat_map server.insertedOf trace = [logged]
              /\ Action.Description logged = Action.Description action
     end.
Proof.
  cbv zeta.
  destruct (server.handleUpdate W timeNow s r w) as [[response w'] trace] eqn:Hrun.
  cbn [fst snd]. revert Hrun. unfold server.handleUpdate, server.executeAction.
  repeat tick_step; run_reduce; intros [= <- <- <-]; collect.
  all: intros Hdecided; try discriminate Hdecided.
  all: injection Hdecided as <-.
  all: cbn [Action.BatteryMode Action.setTimestamp] in *; try congruence.
  all: split; [ reflexivity | ].
  all: first [ split; [ reflexivity | eexists; split; reflexivity ]
             | eexists; eexists; split; [ reflexivity | split; reflexivity ] ].
Qed.

(** The tick with [DryRun] overwritten authenticates and syncs as the
    tick itself. *)
Lemma authorizeUpdate_withDryRun (b : bool) (s : server.Server W) (r : server.Request) :
  server.authorizeUpdate W (server.withDryRun W b s) r = server.authorizeUpdate W s r.
Proof. reflexivity. Qed.

Lemma syncLastConfirmedPrice_withDryRun (b : bool) (s : server.Server W) :
  server.syncLastConfirmedPrice W (server.withDryRun W b s)
  = server.syncLastConfirmedPrice W s.
Proof. reflexivity. Qed.

Lemma syncEnergyHistory_withDryRun (b : bool) (s : server.Server W) :
  server.syncEnergyHistory W timeNow (server.withDryRun W b s)
  = server.syncEnergyHistory W timeNow s.
Proof. reflexivity. Qed.

Lemma Pause_setDryRun (b : bool) (settings : Settings.t) :
  Settings.Pause (Settings.setDryRun b settings) = Settings.Pause settings.
Proof. reflexivity. Qed.

Lemma DryRun_setDryRun (b : bool) (settings : Settings.t) :
  Settings.DryRun (Settings.setDryRun b settings) = b.
Proof. reflexivity. Qed.

(** C10. Two ticks that differ in the [DryRun] flag of the settings
    alone, the ESS and the controller taking no notice of the flag,
    send the same [SetModes] commands and log the same action up to its
    [DryRun] field; with the flag on, the logged action has [DryRun]
    set. *)
Theorem handleUpdate_DryRun_same_commands
  (s : server.Server W) (r : server.Request) (w : W) (b1 b2 : bool) :
  (forall settings b w0,
      server.ApplySettings W (server.essSystem W s) (Settings.setDryRun b settings) w0
      = server.ApplySettings W (server.essSystem W s) settings w0) ->
  (forall status currentPrice futurePrices history settings b w0,
      server.Decide W (server.controller W s) status currentPrice futurePrices history
        (Settings.setDryRun b settings) w0
      = server.Decide W (server.controller W s) status currentPrice futurePrices history
          settings w0) ->
  let trace1 := snd (server.handleUpdate W timeNow (server.withDryRun W b1 s) r w) in
  let trace2 := snd (server.handleUpdate W timeNow (server.withDryRun W b2 s) r w) in
  flat_map server.setModesOf trace1 = flat_map server.setModesOf trace2
  /\ List.map (Action.setDryRun false) (flat_map server.insertedOf trace1)
     = List.map (Action.setDryRun false) (flat_map server.insertedOf trace2)
  /\ (b1 = true ->
      Forall (fun logged => Action.DryRun logged = true)
        (flat_map server.insertedOf trace1)).
Proof.
  intros Happly Hdecide. cbv zeta.
  unfold server.handleUpdate, server.executeAction.
  rewrite !authorizeUpdate_withDryRun, !syncLastConfirmedPrice_withDryRun,
    !syncEnergyHistory_withDryRun.
  unfold server.withDryRun.
  cbn [server.storage server.essSystem server.controller server.utilityProvider
       server.GetSettings server.InsertAction server.GetEnergyHistory].
  repeat (rewrite ?Happly, ?Hdecide, ?Pause_setDryRun, ?DryRun_setDryRun; tick_step).
  all: run_reduce; collect.
  all: cbn [List.map Action.setDryRun Action.DryRun].
  all: repeat split; try reflexivity; try discriminate.
  all: intros _; repeat constructor.
Qed.

End HandleUpdate.

(** A paused tick as in [TestHandleUpdate], against an ESS that has one
    hour of energy to report: the settings are applied, the last
    confirmed price and that hour are stored, and the tick stops there. *)
Lemma handleUpdate_paused_witness :
  snd TestServer.pausedSyncRun
  = [ server.EvGetSettings TestServer.pausedSettings None;
      server.EvApplySettings TestServer.pausedSettings None;
      server.EvLastConfirmedPrice TestServer.currentPrice None;
      server.EvUpsertPrice TestServer.currentPrice None;
      server.EvGetLatestEnergyHistoryTime time.zero None;
      server.EvESSGetEnergyHistory
        (time.Add TestServer.newYear (- 36 * time.Hour))
        (time.Add TestServer.newYear (36 * time.Hour)) TestServer.storedEnergy None ]
    ++ List.map (fun h => server.EvUpsertEnergyHistory h None) TestServer.storedEnergy
  /\ fst (fst TestServer.pausedSyncRun)
     = server.mkResponse server.StatusOK [] (server.StatusJSON "paused" None None)
  /\ flat_map server.getStatusOf (snd TestServer.pausedSyncRun) = []
  /\ flat_map server.setModesOf (snd TestServer.pausedSyncRun) = [].
Proof.
  split; [ vm_compute; reflexivity | ].
  destruct (handleUpdate_paused unit TestServer.timeNow TestServer.pausedSyncServer
              (TestServer.request []) tt TestServer.pausedSettings
              eq_refl eq_refl eq_refl eq_refl)
    as (Hresponse & Hstatus & Hmodes & _).
  repeat split; assumption.
Defined.

(** A tick whose decision is [Load] and whose [SetModes] fails with "ess
    offline": the command is sent with the solar mode [Any], the failure
    is in the description of the logged action, and the answer is 200. *)
Lemma handleUpdate_execute_witness :
  Action.BatteryMode (Decision.Action TestServer.failingDecision) = BatteryModeLoad
  /\ flat_map server.setModesOf (snd TestServer.failingRun)
     = [(BatteryModeLoad, SolarModeAny, Some "ess offline"%string)]
  /\ List.map Action.Description (flat_map server.insertedOf (snd TestServer.failingRun))
     = ["Sufficient Battery (FAILED: ess offline)"%string]
  /\ server.StatusCode (fst (fst TestServer.failingRun)) = server.StatusOK
  /\ match Action.BatteryMode (Decision.Action TestServer.failingDecision) with
     | BatteryModeChargeAny | BatteryModeLoad | BatteryModeStandby =>
         exists (err : option server.error) (logged : Action.t),
           flat_map server.setModesOf (snd TestServer.failingRun)
           = [(Action.BatteryMode (Decision.Action TestServer.failingDecision),
               SolarModeAny, err)]
           /\ flat_map server.insertedOf (snd TestServer.failingRun) = [logged]
           /\ match err with
              | Some e =>
                  Action.Description logged
                  = String.append
                      (Action.Description (Decision.Action TestServer.failingDecision))
                      (String.append " (FAILED: " (String.append e ")"))
              | None =>
                  Action.Description logged
                  = Action.Description (Decision.Action TestServer.failingDecision)
              end
     | _ =>
         flat_map server.setModesOf (snd TestServer.failingRun) = []
         /\ exists logged : Action.t,
              flat_map server.insertedOf (snd TestServer.failingRun) = [logged]
              /\ Action.Description logged
                 = Action.Description (Decision.Action TestServer.failingDecision)
     end.
Proof.
  split; [ vm_compute; reflexivity | ].
  split; [ vm_compute; reflexivity | ].
  split; [ vm_compute; reflexivity | ].
  apply (handleUpdate_execute unit TestServer.timeNow TestServer.failingServer
           (TestServer.request []) tt TestServer.failingDecision).
  vm_compute. reflexivity.
Defined.

(** [Decide] of [pkg/controller] does not read the [DryRun] flag. *)
Lemma Decide_ignores_DryRun pol now status currentPrice futurePrices history settings b :
  controller.Decide pol now status currentPrice futurePrices history
    (Settings.setDryRun b settings)
  = controller.Decide pol now status currentPrice futurePrices history settings.
Proof. reflexivity. Qed.

(** The failing tick once with [DryRun] on and once with it off. *)
Lemma handleUpdate_DryRun_same_commands_witness :
  flat_map server.setModesOf
    (snd (server.handleUpdate unit TestServer.timeNow
            (server.withDryRun unit true TestServer.failingServer)
            (TestServer.request []) tt))
  = flat_map server.setModesOf
      (snd (server.handleUpdate unit TestServer.timeNow
              (server.withDryRun unit false TestServer.failingServer)
              (TestServer.request []) tt))
  /\ List.map (Action.setDryRun false)
       (flat_map server.insertedOf
          (snd (server.handleUpdate unit TestServer.timeNow
                  (server.withDryRun unit true TestServer.failingServer)
                  (TestServer.request []) tt)))
     = List.map (Action.setDryRun false)
         (flat_map server.insertedOf
            (snd (server.handleUpdate unit TestServer.timeNow
                    (server.withDryRun unit false TestServer.failingServer)
                    (TestServer.request []) tt)))
  /\ (true = true ->
      Forall (fun logged => Action.DryRun logged = true)
        (flat_map server.insertedOf
           (snd (server.handleUpdate unit TestServer.timeNow
                   (server.withDryRun unit true TestServer.failingServer)
                   (TestServer.request []) tt)))).
Proof.
  apply (handleUpdate_DryRun_same_commands unit TestServer.timeNow
           TestServer.failingServer (TestServer.request []) tt true false).
  - intros settings b w0. reflexivity.
  - intros status currentPrice futurePrices history settings b w0.
    cbn [server.Decide server.controller TestServer.failingServer TestServer.testServer
         TestServer.theController].
    rewrite Decide_ignores_DryRun. reflexivity.
Defined.

(** * More of the update tick *)

Section Tick.

Variable W : Type.
Variable timeNow : server.Method W time.Time.


(** A refusal is the 401 or the 403 of [http.Error]. *)
Ltac auth_refused :=
  do 2 eexists;
  split; [ reflexivity | first [ left; reflexivity | right; reflexivity ] ].

(** What the authentication of [handleUpdate] calls and answers: at most
    one token validation and nothing else; a refusal is the 401 or the 403
    of [http.Error];
    and a request is let through on an allowed e-mail, from the context
    or from a token validated for [updateSpecificAudience], unless
    [bypassAuth] is set, the context has no e-mail and no bearer
    authentication is configured. *)
Lemma authorizeUpdate_calls (s : server.Server W) (r : server.Request) (w : W) :
  let refused := fst (fst (server.authorizeUpdate W s r w)) in
  let t := snd (server.authorizeUpdate W s r w) in
  Forall (fun e => calls.isTokenValidator e = true) t
  /\ (List.length t <= 1)%nat
  /\ match refused with
     | Some response =>
         exists msg code,
           response = server.httpError msg code
           /\ (code = server.StatusUnauthorized \/ code = server.StatusForbidden)
     | None =>
         (exists email,
            server.emailAllowed W s email = true
            /\ (server.ctxEmail r = Some email
                \/ exists token,
                     In (token, server.updateSpecificAudience W s, Some email, None)
                       (flat_map calls.tokenValidatorOf t)))
         \/ (server.bypassAuth W s = true
             /\ (server.ctxEmail r = None \/ server.ctxEmail r = Some ""%string)
             /\ (server.updateSpecificAudience W s = ""%string
                 \/ (server.updateSpecificEmail W s = ""%string
                     /\ server.adminEmails W s = [])))
     end.
Proof.
  cbv zeta. unfold server.authorizeUpdate.
  assert (Hconfigured :
            (negb (String.eqb (server.updateSpecificEmail W s) "")
             || (0 <? List.length (server.adminEmails W s))%nat) = false ->
            server.updateSpecificEmail W s = ""%string /\ server.adminEmails W s = []).
  { intros Hconf. apply orb_false_elim in Hconf. destruct Hconf as [Hemail Hadmins].
    apply negb_false_iff, String.eqb_eq in Hemail.
    destruct (server.adminEmails W s); [ auto | discriminate Hadmins ]. }
  destruct (server.ctxEmail r) as [cookieEmail | ] eqn:Hctx;
    [ destruct (String.eqb cookieEmail "") eqn:Hcookie;
      [ apply String.eqb_eq in Hcookie; subst cookieEmail | ] | ];
    cbn [negb String.eqb].
  2: { destruct (server.emailAllowed W s cookieEmail) eqn:Hallowed;
         run_reduce; cbn [fst snd length];
         (split; [ apply List.Forall_nil | split; [ lia | ] ]);
         [ left; exists cookieEmail; auto | auth_refused ]. }
  all: destruct (String.eqb (server.updateSpecificAudience W s) "") eqn:Haud;
    cbn [negb andb];
    [ apply String.eqb_eq in Haud
    | destruct (negb (String.eqb (server.updateSpecificEmail W s) "")
                || (0 <? List.length (server.adminEmails W s))%nat) eqn:Hconf;
      [ | destruct (Hconfigured eq_refl) ] ].
  all: repeat run_step; run_reduce;
    cbn [fst snd length flat_map calls.tokenValidatorOf app negb];
    (split; [ repeat (apply List.Forall_cons; [ reflexivity | ]); apply List.Forall_nil
            | split; [ lia | ] ]).
  all: first [ auth_refused
             | left; eexists; split; [ eassumption | ]; right; eexists; left; reflexivity
             | right; split; [ apply negb_false_iff; assumption | split; auto ] ].
Qed.

(** One step of a run of [handleUpdate], the authentication and the two
    syncs taken whole. *)
Ltac tick :=
  run_reduce;
  match goal with
  | |- context [server.authorizeUpdate W ?s ?r ?w] =>
      pose proof (authorizeUpdate_preamble W s r w);
      let Hc := fresh "Hauth" in
      pose proof (authorizeUpdate_calls s r w) as Hc; cbv zeta in Hc;
      destruct Hc as (? & ? & ?);
      destruct (server.authorizeUpdate W s r w) as [[? ?] ?]
  | |- context [server.syncLastConfirmedPrice W ?s ?w] =>
      destruct (syncLastConfirmedPrice_trace W s w);
      destruct (server.syncLastConfirmedPrice W s w) as [[? ?] ?]
  | |- context [server.syncEnergyHistory W timeNow ?s ?w] =>
      destruct (syncEnergyHistory_trace W timeNow s w);
      destruct (server.syncEnergyHistory W timeNow s w) as [[? ?] ?]
  | _ => run_step
  end;
  cbn [fst snd] in *.

(** A refusal of the authentication, taken apart. *)
Ltac refusal :=
  match goal with
  | H : exists msg code, _ = server.httpError msg code /\ _ |- _ =>
      destruct H as (? & ? & -> & ?)
  end.

Ltac gather :=
  repeat (rewrite ?flat_map_app;
          cbn [flat_map app server.appliedOf server.decidedOf server.setModesOf
               server.getStatusOf server.insertedOf server.lastConfirmedOf
               server.essHistoryOf calls.getSettingsOf calls.currentPriceOf
               calls.futurePricesOf calls.energyHistoryOf calls.decideArgsOf]);
  repeat match goal with
         | H : server.Preamble ?l |- context [flat_map ?f ?l] =>
             rewrite (flat_map_preamble f l
                        ltac:(intros [] Hp; first [ reflexivity | discriminate Hp ]) H)
         end;
  cbn [app].

(** X1. When the ESS reports its emergency mode, the tick answers 200
    with the status "emergency mode" and goes no further: it asks for no
    price, takes no decision, sends no command and logs no action. *)
Theorem handleUpdate_emergency
  (s : server.Server W) (r : server.Request) (w : W) (status : SystemStatus.t) :
  let response := fst (fst (server.handleUpdate W timeNow s r w)) in
  let trace := snd (server.handleUpdate W timeNow s r w) in
  flat_map server.getStatusOf trace = [(status, None)] ->
  SystemStatus.EmergencyMode status = true ->
  response
  = server.mkResponse server.StatusOK [] (server.StatusJSON "emergency mode" None None)
  /\ flat_map calls.currentPriceOf trace = []
  /\ flat_map server.decidedOf trace = []
  /\ flat_map server.setModesOf trace = []
  /\ flat_map server.insertedOf trace = [].
Proof.
  cbv zeta.
  destruct (server.handleUpdate W timeNow s r w) as [[response w'] trace] eqn:Hrun.
  cbn [fst snd]. revert Hrun. unfold server.handleUpdate, server.executeAction.
  repeat tick; run_reduce; intros [= <- <- <-]; gather.
  all: intros Hstatus Hemergency; try discriminate Hstatus.
  all: injection Hstatus as <-; try congruence.
  repeat split.
Qed.

(** X2. A tick answers 200, 401, 403 or 500.  When the answer is not
    200, no command has been sent to the ESS and no action logged; when
    it is 401 or 403, nothing has been called but the token validator,
    once at most. *)
Theorem handleUpdate_status_codes (s : server.Server W) (r : server.Request) (w : W) :
  let response := fst (fst (server.handleUpdate W timeNow s r w)) in
  let trace := snd (server.handleUpdate W timeNow s r w) in
  (server.StatusCode response = server.StatusOK
   \/ server.StatusCode response = server.StatusUnauthorized
   \/ server.StatusCode response = server.StatusForbidden
   \/ server.StatusCode response = server.StatusInternalServerError)
  /\ (server.StatusCode response <> server.StatusOK ->
      flat_map server.setModesOf trace = [] /\ flat_map server.insertedOf trace = [])
  /\ (server.StatusCode response = server.StatusUnauthorized
      \/ server.StatusCode response = server.StatusForbidden ->
      Forall (fun e => calls.isTokenValidator e = true) trace
      /\ (List.length trace <= 1)%nat).
Proof.
  cbv zeta.
  destruct (server.handleUpdate W timeNow s r w) as [[response w'] trace] eqn:Hrun.
  cbn [fst snd]. revert Hrun. unfold server.handleUpdate, server.executeAction.
  repeat tick; run_reduce; intros [= <- <- <-].
  all: try refusal.
  all: unfold server.httpError; cbn [server.StatusCode].
  all: split; [ | split ].
  all: try (intros Hcode; gather;
            first [ split; reflexivity | exfalso; apply Hcode; reflexivity ]).
  all: try (intros [Hcode | Hcode];
            first [ discriminate Hcode | rewrite app_nil_r; split; assumption ]).
  all: first [ left; reflexivity | right; right; right; reflexivity | tauto ].
Qed.

(** X3. Every command a tick sends to the ESS is the only one of the
    tick, has the solar mode [Any] and one of the battery modes
    [ChargeAny], [Load] and [Standby], and comes after the settings were
    applied and do not say [Pause], after the ESS reported a status that
    is not the emergency mode, and after the controller decided, without
    error, on that battery mode. *)
Theorem handleUpdate_commands
  (s : server.Server W) (r : server.Request) (w : W)
  (bat : BatteryMode) (sol : SolarMode) (err : option server.error) :
  let trace := snd (server.handleUpdate W timeNow s r w) in
  In (bat, sol, err) (flat_map server.setModesOf trace) ->
  flat_map server.setModesOf trace = [(bat, sol, err)]
  /\ sol = SolarModeAny
  /\ (bat = BatteryModeChargeAny \/ bat = BatteryModeLoad \/ bat = BatteryModeStandby)
  /\ (exists settings,
        flat_map server.appliedOf trace = [(settings, None)]
        /\ Settings.Pause settings = false)
  /\ (exists status,
        flat_map server.getStatusOf trace = [(status, None)]
        /\ SystemStatus.EmergencyMode status = false)
  /\ (exists decision,
        flat_map server.decidedOf trace = [(decision, None)]
        /\ Action.BatteryMode (Decision.Action decision) = bat).
Proof.
  cbv zeta.
  destruct (server.handleUpdate W timeNow s r w) as [[response w'] trace] eqn:Hrun.
  cbn [fst snd]. revert Hrun. unfold server.handleUpdate, server.executeAction.
  repeat tick; run_reduce; intros [= <- <- <-]; gather.
  all: intros Hin; cbn [In] in Hin; try contradiction.
  all: destruct Hin as [[= <- <- <-] | []].
  all: cbn [Action.BatteryMode Action.setTimestamp Decision.Action] in *.
  all: repeat split; auto; eexists; (split; [ reflexivity | ]); auto.
Qed.

(** X4. The action a tick answers with is the one it handed to
    [InsertAction], and the price it answers with is the one
    [GetCurrentPrice] returned.  That action has the battery mode, the
    solar mode and the price of the controller's decision, also when the
    command actually sent carries another solar mode, and the timestamp
    of the decision unless that one is zero. *)
Theorem handleUpdate_answers_logged_action
  (s : server.Server W) (r : server.Request) (w : W)
  (status : string) (action : Action.t) (price : option Price.t) :
  let response := fst (fst (server.handleUpdate W timeNow s r w)) in
  let trace := snd (server.handleUpdate W timeNow s r w) in
  server.ResponseBody response = server.StatusJSON status (Some action) price ->
  status = "success"%string
  /\ flat_map server.insertedOf trace = [action]
  /\ (exists p, price = Some p /\ flat_map calls.currentPriceOf trace = [(p, None)])
  /\ (exists decision,
        flat_map server.decidedOf trace = [(decision, None)]
        /\ Action.BatteryMode action = Action.BatteryMode (Decision.Action decision)
        /\ Action.SolarMode action = Action.SolarMode (Decision.Action decision)
        /\ Action.CurrentPrice action = Action.CurrentPrice (Decision.Action decision)
        /\ (Action.Timestamp (Decision.Action decision) <> time.zero ->
            Action.Timestamp action = Action.Timestamp (Decision.Action decision))).
Proof.
  cbv zeta.
  destruct (server.handleUpdate W timeNow s r w) as [[response w'] trace] eqn:Hrun.
  cbn [fst snd]. revert Hrun. unfold server.handleUpdate, server.executeAction.
  repeat tick; run_reduce; intros [= <- <- <-]; gather.
  all: try refusal.
  all: unfold server.httpError; cbn [server.ResponseBody].
  all: intros Hbody; try discriminate Hbody.
  all: injection Hbody as <- <- <-.
  all: split; [ reflexivity | split; [ reflexivity | ] ].
  all: split; [ eexists; split; reflexivity | ].
  all: eexists; split; [ reflexivity | ].
  all: cbn [Decision.Action Action.BatteryMode Action.SolarMode Action.CurrentPrice
            Action.Timestamp Action.setTimestamp Action.setDescription Action.setDryRun] in *.
  all: repeat split; try reflexivity.
  all: intros Hts; try reflexivity.
  all: exfalso; apply Hts.
  all: match goal with H : time.IsZero _ = true |- _ => apply Z.eqb_eq in H; exact H end.
Qed.

(** X5. The controller is called with the settings the storage
    returned and the ESS accepted, the status and the current price as
    fetched without error, and the future prices and the stored energy
    history as they came back, whether or not fetching them failed. *)
Theorem handleUpdate_Decide_inputs
  (s : server.Server W) (r : server.Request) (w : W)
  (status : SystemStatus.t) (currentPrice : Price.t) (futurePrices : list Price.t)
  (history : list EnergyStats.t) (settings : Settings.t) :
  let trace := snd (server.handleUpdate W timeNow s r w) in
  In (status, currentPrice, futurePrices, history, settings)
    (flat_map calls.decideArgsOf trace) ->
  flat_map calls.getSettingsOf trace = [(settings, None)]
  /\ flat_map server.appliedOf trace = [(settings, None)]
  /\ flat_map server.getStatusOf trace = [(status, None)]
  /\ flat_map calls.currentPriceOf trace = [(currentPrice, None)]
  /\ (exists err, flat_map calls.futurePricesOf trace = [(futurePrices, err)])
  /\ (exists start stop err,
        flat_map calls.energyHistoryOf trace = [(start, stop, history, err)]).
Proof.
  cbv zeta.
  destruct (server.handleUpdate W timeNow s r w) as [[response w'] trace] eqn:Hrun.
  cbn [fst snd]. revert Hrun. unfold server.handleUpdate, server.executeAction.
  repeat tick; run_reduce; intros [= <- <- <-]; gather.
  all: intros Hin; cbn [In] in Hin; try contradiction.
  all: destruct Hin as [[= <- <- <- <- <-] | []].
  all: repeat split; try reflexivity.
  all: repeat eexists.
Qed.


(** With an e-mail in the context, the authentication of [handleUpdate]
    looks at nothing else and calls nothing. *)
Lemma authorizeUpdate_context
  (s : server.Server W) (r : server.Request) (w : W) (email : string) :
  server.ctxEmail r = Some email -> email <> ""%string ->
  server.authorizeUpdate W s r w
  = (if server.emailAllowed W s email then None
     else Some (server.httpError "unauthorized email" server.StatusForbidden),
     w, []).
Proof.
  intros Hctx Hnonempty. unfold server.authorizeUpdate. rewrite Hctx.
  apply String.eqb_neq in Hnonempty. rewrite Hnonempty. cbn [negb].
  destruct (server.emailAllowed W s email); reflexivity.
Qed.

(** A tick that is let through reads the settings; one that is refused
    answers with the refusal and calls nothing more. *)
Lemma handleUpdate_after_authorization (s : server.Server W) (r : server.Request) (w : W) :
  let authorization := server.authorizeUpdate W s r w in
  let run := server.handleUpdate W timeNow s r w in
  match fst (fst authorization) with
  | Some response => run = (response, snd (fst authorization), snd authorization)
  | None => flat_map calls.getSettingsOf (snd run) <> []
  end.
Proof.
  cbv zeta.
  destruct (server.handleUpdate W timeNow s r w) as [[response w'] trace] eqn:Hrun.
  cbn [fst snd]. revert Hrun. unfold server.handleUpdate, server.executeAction.
  repeat tick; run_reduce; intros [= <- <- <-]; gather.
  all: first [ rewrite app_nil_r; reflexivity | discriminate ].
Qed.

(** The loop of the history sync hands every hour to the storage, in
    order, whether or not an upsert fails. *)
Lemma upsertEnergyHistory_one (s : server.Server W) (h : EnergyStats.t) (w : W) :
  flat_map calls.upsertedOf (snd (server.upsertEnergyHistory W s h w)) = [h].
Proof.
  unfold server.upsertEnergyHistory. run_reduce.
  destruct (server.UpsertEnergyHistory W (server.storage W s) h w) as [err w1].
  reflexivity.
Qed.

Lemma upserts_all (s : server.Server W) (newHistory : list EnergyStats.t) :
  forall w,
    flat_map calls.upsertedOf
      (snd (server.forEach W newHistory (server.upsertEnergyHistory W s) w))
    = newHistory.
Proof.
  induction newHistory as [ | h rest IH]; intros w; [ reflexivity | ].
  cbn [server.forEach]. unfold mbind, server.M_bind.
  pose proof (upsertEnergyHistory_one s h w) as Hfirst.
  destruct (server.upsertEnergyHistory W s h w) as [[u w1] t1].
  specialize (IH w1).
  destruct (server.forEach W rest (server.upsertEnergyHistory W s) w1) as [[u2 w2] t2].
  cbn [snd] in Hfirst, IH |- *. rewrite flat_map_app, Hfirst, IH. reflexivity.
Qed.

(** It calls nothing but [UpsertEnergyHistory]. *)
Lemma upserts_only {X : Type} (f : server.Event -> list X)
  (s : server.Server W) (newHistory : list EnergyStats.t) :
  (forall h err, f (server.EvUpsertEnergyHistory h err) = []) ->
  forall w,
    flat_map f (snd (server.forEach W newHistory (server.upsertEnergyHistory W s) w)) = [].
Proof.
  intros Hf. induction newHistory as [ | h rest IH]; intros w; [ reflexivity | ].
  cbn [server.forEach]. unfold mbind, server.M_bind.
  assert (Hfirst : flat_map f (snd (server.upsertEnergyHistory W s h w)) = []).
  { unfold server.upsertEnergyHistory. run_reduce.
    destruct (server.UpsertEnergyHistory W (server.storage W s) h w) as [err w1].
    cbn [snd flat_map app]. rewrite Hf. reflexivity. }
  destruct (server.upsertEnergyHistory W s h w) as [[u w1] t1].
  specialize (IH w1).
  destruct (server.forEach W rest (server.upsertEnergyHistory W s) w1) as [[u2 w2] t2].
  cbn [snd] in Hfirst, IH |- *. rewrite flat_map_app, Hfirst, IH. reflexivity.
Qed.

(** X7. The history sync asks the ESS once, for a window that starts
    less than 73 hours before the clock.  With nothing stored, or
    nothing newer than 72 hours, it starts 72 hours back; otherwise it
    starts on the hour of the last stored record, which it covers again.
    Every hour the ESS returns is handed to [UpsertEnergyHistory], in
    order, and none when the ESS fails. *)
Theorem syncEnergyHistory_window (s : server.Server W) (w : W) :
  let latest := server.GetLatestEnergyHistoryTime W (server.storage W s) w in
  let lastHistoryTime := fst (fst latest) in
  let now := fst (timeNow (snd latest)) in
  let trace := snd (server.syncEnergyHistory W timeNow s w) in
  exists start stop stats err,
    flat_map calls.essGetEnergyHistoryOf trace = [(start, stop, stats, err)]
    /\ now - 73 * time.Hour < start
    /\ (lastHistoryTime = time.zero \/ lastHistoryTime <= now - 72 * time.Hour ->
        start = now - 72 * time.Hour)
    /\ (lastHistoryTime <> time.zero /\ now - 72 * time.Hour < lastHistoryTime ->
        start mod time.Hour = 0 /\ start <= lastHistoryTime < start + time.Hour)
    /\ flat_map calls.upsertedOf trace
       = match err with Some _ => [] | None => stats end.
Proof.
  cbv zeta. unfold server.syncEnergyHistory. run_reduce.
  destruct (server.GetLatestEnergyHistoryTime W (server.storage W s) w)
    as [[lastHistoryTime err0] w1].
  cbn [fst snd]. destruct (timeNow w1) as [now w2]. cbn [fst snd].
  destruct (timeNow w2) as [stop w3]. cbn [fst snd].
  unfold time.IsZero, time.After, time.Add, time.Truncate, time.zero.
  assert (Hhour : 0 < time.Hour) by reflexivity.
  replace (time.Hour <=? 0) with false by reflexivity.
  pose proof (Z.mod_pos_bound lastHistoryTime time.Hour Hhour) as Hmod.
  assert (Haligned : (lastHistoryTime - lastHistoryTime mod time.Hour) mod time.Hour = 0).
  { rewrite Zminus_mod_idemp_r, Z.sub_diag. reflexivity. }
  match goal with
  | |- context [server.ESSGetEnergyHistory W _ ?a stop w3] => set (start := a) in *
  end.
  assert (Hstart :
            now - 73 * time.Hour < start
            /\ (lastHistoryTime = 0 \/ lastHistoryTime <= now - 72 * time.Hour ->
                start = now - 72 * time.Hour)
            /\ (lastHistoryTime <> 0 /\ now - 72 * time.Hour < lastHistoryTime ->
                start mod time.Hour = 0
                /\ start <= lastHistoryTime < start + time.Hour)).
  { subst start.
    destruct (Z.eqb_spec lastHistoryTime 0) as [Hzero | Hzero];
      destruct (Z.ltb_spec (now + - 72 * time.Hour) lastHistoryTime) as [Hnew | Hold];
      cbn [negb andb]; repeat split; intros; try lia; try exact Haligned. }
  clearbody start.
  destruct (server.ESSGetEnergyHistory W (server.essSystem W s) start stop w3)
    as [[stats err] w4].
  exists start, stop, stats, err.
  destruct Hstart as (Ha & Hb & Hc).
  destruct err as [e | ]; run_reduce.
  - cbn [flat_map calls.essGetEnergyHistoryOf calls.upsertedOf app]. auto.
  - pose proof (upserts_all s stats w4) as Hall.
    pose proof (upserts_only calls.essGetEnergyHistoryOf s stats
                  ltac:(reflexivity) w4) as Honly.
    destruct (server.forEach W stats (server.upsertEnergyHistory W s) w4) as [[u w5] t].
    cbn [fst snd] in *.
    cbn [flat_map calls.essGetEnergyHistoryOf calls.upsertedOf app].
    rewrite Honly.
    auto.
Qed.

End Tick.

(** * More of the history endpoints *)

Section History.

Variable W : Type.
Variable timeNow : server.Method W time.Time.
Variable parseRFC3339 : string -> time.Time * option server.error.

(** A window [parseTimeRange] accepts does not end before it starts and
    spans 24 hours at most. *)
Lemma parseTimeRange_bounds (r : server.Request) (w : W) (start stop : time.Time) :
  fst (fst (server.parseTimeRange W timeNow parseRFC3339 r w)) = (start, stop, None) ->
  0 <= stop - start <= 24 * time.Hour.
Proof.
  assert (Hhour : 0 < time.Hour) by reflexivity.
  unfold server.parseTimeRange.
  destruct (String.eqb _ _ || String.eqb _ _).
  - run_reduce. destruct (timeNow w) as [now w1]. cbn [fst].
    intros [= <- <-]. unfold time.Add. lia.
  - destruct (parseRFC3339 _) as [t1 [e | ]]; [ discriminate | ].
    destruct (parseRFC3339 _) as [t2 [e | ]]; [ discriminate | ].
    unfold time.Before, time.Sub.
    destruct (Z.ltb_spec t2 t1) as [Hbefore | Hbefore]; [ discriminate | ].
    destruct (Z.ltb_spec (t2 - t1) time.minDuration) as [Hmin | Hmin];
      [ unfold time.minDuration in Hmin; lia | ].
    destruct (Z.ltb_spec time.maxDuration (t2 - t1)) as [Hmax | Hmax].
    + replace (24 * time.Hour <? time.maxDuration) with true by reflexivity. discriminate.
    + destruct (Z.ltb_spec (24 * time.Hour) (t2 - t1)) as [Hlong | Hlong]; [ discriminate | ].
      run_reduce. cbn [fst]. intros [= <- <-]. lia.
Qed.

(** The energy totals of the second loop, one at a time. *)
Lemma addEnergyStats_energy (hourlyPrices : gmap Z float) (energyStats : list EnergyStats.t) :
  forall zero : server.SavingsStats,
    let totals := List.fold_left (server.addEnergyStats hourlyPrices) energyStats zero in
    let sumFrom kwh start :=
      List.fold_left (fun total stat => (total + kwh stat)%float) energyStats start in
    server.SolarGenerated totals = sumFrom EnergyStats.SolarKWH (server.SolarGenerated zero)
    /\ server.GridImported totals
       = sumFrom EnergyStats.GridImportKWH (server.GridImported zero)
    /\ server.GridExported totals
       = sumFrom EnergyStats.GridExportKWH (server.GridExported zero)
    /\ server.HomeUsed totals = sumFrom EnergyStats.HomeKWH (server.HomeUsed zero)
    /\ server.BatteryUsed totals
       = sumFrom EnergyStats.BatteryUsedKWH (server.BatteryUsed zero).
Proof.
  induction energyStats as [ | stat rest IH]; intros zero.
  - cbv zeta. repeat split; reflexivity.
  - cbv zeta in IH |- *. cbn [List.fold_left].
    destruct (IH (server.addEnergyStats hourlyPrices zero stat))
      as (Hsolar & Himported & Hexported & Hhome & Hbattery).
    rewrite Hsolar, Himported, Hexported, Hhome, Hbattery.
    repeat split; reflexivity.
Qed.

(** X8. The energy totals of the savings are the plain sums of the
    stored hours, added in their order from 0, whatever prices are
    stored: solar generated, grid imported, grid exported, home used and
    battery used.  With no stored hour every total is 0. *)
Theorem totalSavings_energy
  (start : time.Time) (prices : list Price.t) (energyStats : list EnergyStats.t) :
  let totals := server.totalSavings start prices energyStats in
  let sum kwh :=
    List.fold_left (fun total stat => (total + kwh stat)%float) energyStats 0%float in
  server.SolarGenerated totals = sum EnergyStats.SolarKWH
  /\ server.GridImported totals = sum EnergyStats.GridImportKWH
  /\ server.GridExported totals = sum EnergyStats.GridExportKWH
  /\ server.HomeUsed totals = sum EnergyStats.HomeKWH
  /\ server.BatteryUsed totals = sum EnergyStats.BatteryUsedKWH
  /\ server.totalSavings start prices []
     = server.mkSavingsStats start 0 0 0 0 0 0 0 0 0 0 0.
Proof.
  cbv zeta. unfold server.totalSavings.
  destruct (server.sumHourlyPrices prices) as [sums counts].
  cbn [server.SolarGenerated server.GridImported server.GridExported server.HomeUsed
       server.BatteryUsed].
  destruct (addEnergyStats_energy (server.averageHourlyPrices sums counts) energyStats
              (server.mkSavingsStats start 0 0 0 0 0 0 0 0 0 0 0))
    as (Hsolar & Himported & Hexported & Hhome & Hbattery).
  repeat split; assumption.
Qed.

(** X9. What [handleHistorySavings] calls, in all: nothing, and the
    answer is 400; or the price history, which fails, and the answer is
    500; or the price history and then the energy history, over the same
    window, and the answer is 500 when the second fails and 200
    otherwise.  A window it asks the storage for does not end before it
    starts and spans 24 hours at most. *)
Theorem handleHistorySavings_calls (s : server.Server W) (r : server.Request) (w : W) :
  let response := fst (fst (server.handleHistorySavings W timeNow parseRFC3339 s r w)) in
  let trace := snd (server.handleHistorySavings W timeNow parseRFC3339 s r w) in
  (trace = [] /\ server.StatusCode response = server.StatusBadRequest)
  \/ exists (start stop : time.Time) (prices : list Price.t),
       0 <= stop - start <= 24 * time.Hour
       /\ ((exists e,
              trace = [server.EvGetPriceHistory start stop prices (Some e)]
              /\ server.StatusCode response = server.StatusInternalServerError)
           \/ exists (energyStats : list EnergyStats.t) (err : option server.error),
                trace = [server.EvGetPriceHistory start stop prices None;
                         server.EvGetEnergyHistory start stop energyStats err]
                /\ server.StatusCode response
                   = match err with
                     | Some _ => server.StatusInternalServerError
                     | None => server.StatusOK
                     end).
Proof.
  cbv zeta.
  destruct (server.handleHistorySavings W timeNow parseRFC3339 s r w)
    as [[response w'] trace] eqn:Hrun.
  cbn [fst snd]. revert Hrun.
  unfold server.handleHistorySavings. unfold mbind at 1, server.M_bind at 1.
  pose proof (parseTimeRange_no_calls W timeNow parseRFC3339 r w) as Hcalls.
  pose proof (parseTimeRange_bounds r w) as Hbounds.
  destruct (server.parseTimeRange W timeNow parseRFC3339 r w)
    as [[[[start stop] err] w1] t1].
  cbn [fst snd] in Hcalls, Hbounds. subst t1.
  destruct err as [e | ];
    [ run_reduce; intros [= <- <- <-]; left; split; reflexivity | ].
  specialize (Hbounds start stop eq_refl).
  repeat run_step; run_reduce; intros [= <- <- <-].
  all: right; exists start, stop; eexists; (split; [ exact Hbounds | ]).
  all: first [ left; eexists; split; reflexivity
             | right; do 2 eexists; split; reflexivity ].
Qed.

End History.

(** * The handlers of the history, the settings and the session *)

Ltac api_reduce :=
  unfold mbind, mret, api.M_bind, api.M_ret, api.call, api.clock, api.lift;
  cbn beta iota zeta; cbn [fst snd app List.map].

Ltac api_step :=
  api_reduce;
  match goal with
  | |- context [match ?x with _ => _ end] =>
      lazymatch x with
      | context [match _ with _ => _ end] => fail
      | _ => first [ is_var x; destruct x | destruct x eqn:? ]
      end
  end.

Section API.

Variable W : Type.
Variable timeNow : server.Method W time.Time.
Variable parseRFC3339 : string -> time.Time * option server.error.
Variable decodeSettings : string -> api.NewSettings.t * option api.error.
Variable decodeLogin : string -> string * option api.error.
Variable authTokenCookie : string.

(** X10. What [handleHistoryPrices] calls, in all: nothing, and the
    answer is 400; or the price history of the storage, once, over a
    window that does not end before it starts and spans 24 hours at
    most.  The answer is then 500 when the storage fails, and otherwise
    200 with the prices as the storage returned them. *)
Theorem handleHistoryPrices_calls (s : api.Server W) (r : api.Request) (w : W) :
  let response := fst (fst (api.handleHistoryPrices W timeNow parseRFC3339 s r w)) in
  let trace := snd (api.handleHistoryPrices W timeNow parseRFC3339 s r w) in
  (trace = [] /\ api.StatusCode response = server.StatusBadRequest)
  \/ exists (start stop : time.Time) (prices : list Price.t) (err : option api.error),
       0 <= stop - start <= 24 * time.Hour
       /\ trace = [api.Core (server.EvGetPriceHistory start stop prices err)]
       /\ match err with
          | Some _ => api.StatusCode response = server.StatusInternalServerError
          | None =>
              api.StatusCode response = server.StatusOK
              /\ api.ResponseBody response = api.PricesJSON prices
          end.
Proof.
  cbv zeta.
  destruct (api.handleHistoryPrices W timeNow parseRFC3339 s r w)
    as [[response w'] trace] eqn:Hrun.
  cbn [fst snd]. revert Hrun.
  unfold api.handleHistoryPrices. unfold mbind at 1, api.M_bind at 1, api.lift.
  pose proof (parseTimeRange_no_calls W timeNow parseRFC3339 (api.coreRequest r) w) as Hcalls.
  pose proof (parseTimeRange_bounds W timeNow parseRFC3339 (api.coreRequest r) w) as Hbounds.
  destruct (server.parseTimeRange W timeNow parseRFC3339 (api.coreRequest r) w)
    as [[[[start stop] err] w1] t1].
  cbn [fst snd] in Hcalls, Hbounds. subst t1.
  destruct err as [e | ];
    [ api_reduce; intros [= <- <- <-]; left; split; reflexivity | ].
  specialize (Hbounds start stop eq_refl).
  repeat api_step; api_reduce; intros [= <- <- <-].
  all: right; exists start, stop; do 2 eexists; (split; [ exact Hbounds | ]).
  all: split; [ reflexivity | ]; cbn beta iota; try split; reflexivity.
Qed.

(** X11. What [handleHistoryActions] calls, in all: nothing, and the
    answer is 400; or the action history of the storage, once, over a
    window that does not end before it starts and spans 24 hours at
    most.  The answer is then 500 when the storage fails, and otherwise
    200 with the actions as the storage returned them. *)
Theorem handleHistoryActions_calls (s : api.Server W) (r : api.Request) (w : W) :
  let response := fst (fst (api.handleHistoryActions W timeNow parseRFC3339 s r w)) in
  let trace := snd (api.handleHistoryActions W timeNow parseRFC3339 s r w) in
  (trace = [] /\ api.StatusCode response = server.StatusBadRequest)
  \/ exists (start stop : time.Time) (actions : list Action.t) (err : option api.error),
       0 <= stop - start <= 24 * time.Hour
       /\ trace = [api.EvGetActionHistory start stop actions err]
       /\ match err with
          | Some _ => api.StatusCode response = server.StatusInternalServerError
          | None =>
              api.StatusCode response = server.StatusOK
              /\ api.ResponseBody response = api.ActionsJSON actions
          end.
Proof.
  cbv zeta.
  destruct (api.handleHistoryActions W timeNow parseRFC3339 s r w)
    as [[response w'] trace] eqn:Hrun.
  cbn [fst snd]. revert Hrun.
  unfold api.handleHistoryActions. unfold mbind at 1, api.M_bind at 1, api.lift.
  pose proof (parseTimeRange_no_calls W timeNow parseRFC3339 (api.coreRequest r) w) as Hcalls.
  pose proof (parseTimeRange_bounds W timeNow parseRFC3339 (api.coreRequest r) w) as Hbounds.
  destruct (server.parseTimeRange W timeNow parseRFC3339 (api.coreRequest r) w)
    as [[[[start stop] err] w1] t1].
  cbn [fst snd] in Hcalls, Hbounds. subst t1.
  destruct err as [e | ];
    [ api_reduce; intros [= <- <- <-]; left; split; reflexivity | ].
  specialize (Hbounds start stop eq_refl).
  repeat api_step; api_reduce; intros [= <- <- <-].
  all: right; exists start, stop; do 2 eexists; (split; [ exact Hbounds | ]).
  all: split; [ reflexivity | ]; cbn beta iota; try split; reflexivity.
Qed.

(** The authentication of [handleUpdateSettings] lets a request through
    for an administrator, or for anyone when [bypassAuth] is set. *)
Lemma authorizeSettings_cases (s : api.Server W) (r : api.Request) :
  match api.authorizeSettings W s r with
  | None =>
      api.bypassAuth W s = true
      \/ exists email,
           api.ctxEmail r = Some email /\ email <> ""%string
           /\ api.isAdminEmail W s email = true
  | Some response =>
      api.bypassAuth W s = false
      /\ (exists msg code,
            response = api.httpError [] msg code
            /\ (code = server.StatusUnauthorized \/ code = server.StatusForbidden))
      /\ match api.ctxEmail r with
         | Some email => email = ""%string \/ api.isAdminEmail W s email = false
         | None => True
         end
  end.
Proof.
  unfold api.authorizeSettings, api.isAdminEmail.
  destruct (api.bypassAuth W s); cbn [negb]; [ left; reflexivity | ].
  destruct (api.adminEmails W s) as [ | admin admins] eqn:Hadmins; cbn [length Nat.eqb].
  - split; [ reflexivity | ].
    split; [ do 2 eexists; split; [ reflexivity | right; reflexivity ] | ].
    destruct (api.ctxEmail r); [ right; reflexivity | exact I ].
  - destruct (api.ctxEmail r) as [email | ].
    + destruct (String.eqb email "") eqn:Hempty.
      * apply String.eqb_eq in Hempty.
        split; [ reflexivity | ].
        split; [ do 2 eexists; split; [ reflexivity | left; reflexivity ] | ].
        left; exact Hempty.
      * apply String.eqb_neq in Hempty.
        destruct (existsb (String.eqb email) (admin :: admins)) eqn:Hadmin.
        -- right. exists email. auto.
        -- split; [ reflexivity | ].
           split; [ do 2 eexists; split; [ reflexivity | right; reflexivity ] | ].
           right; reflexivity.
    + split; [ reflexivity | ].
      split; [ do 2 eexists; split; [ reflexivity | left; reflexivity ] | exact I ].
Qed.

(** X12. Settings reach the storage from [handleUpdateSettings] only
    when [bypassAuth] is set or the e-mail of the context is one of
    [adminEmails], and only as the body of the request decodes, with
    every price threshold at least 0 or not a number, the minimum
    battery level between 0 and 100 or not a number, and the usage
    multiple at least 1 or not a number.  They reach it once, and the
    answer is 200 when the storage accepts them and 500 otherwise. *)
Theorem handleUpdateSettings_guarded
  (s : api.Server W) (r : api.Request) (w : W) (newSettings : api.NewSettings.t) :
  let response := fst (fst (api.handleUpdateSettings W decodeSettings s r w)) in
  let trace := snd (api.handleUpdateSettings W decodeSettings s r w) in
  let settings := api.NewSettings.settings newSettings in
  In newSettings (flat_map api.setSettingsOf trace) ->
  (exists err,
     trace = [api.EvSetSettings newSettings err]
     /\ api.StatusCode response
        = match err with
          | Some _ => server.StatusInternalServerError
          | None => server.StatusOK
          end)
  /\ decodeSettings (api.RequestBody r) = (newSettings, None)
  /\ (Settings.AlwaysChargeUnderDollarsPerKWH settings <? 0)%float = false
  /\ (Settings.AdditionalFeesDollarsPerKWH settings <? 0)%float = false
  /\ (Settings.MinArbitrageDifferenceDollarsPerKWH settings <? 0)%float = false
  /\ (Settings.MinBatterySOC settings <? 0)%float = false
  /\ (100 <? Settings.MinBatterySOC settings)%float = false
  /\ (api.NewSettings.IgnoreHourUsageOverMultiple newSettings <? 1)%float = false
  /\ (api.bypassAuth W s = true
      \/ exists email,
           api.ctxEmail r = Some email /\ email <> ""%string
           /\ In email (api.adminEmails W s)).
Proof.
  cbv zeta. unfold api.handleUpdateSettings.
  pose proof (authorizeSettings_cases s r) as Hauth.
  destruct (api.authorizeSettings W s r) as [refused | ];
    [ api_reduce; intros [] | ].
  destruct (decodeSettings (api.RequestBody r)) as [decoded err] eqn:Hdecode.
  destruct err as [e | ]; [ api_reduce; intros [] | ].
  destruct (api.invalidSettings decoded) eqn:Hvalid; [ api_reduce; intros [] | ].
  api_reduce.
  destruct (api.SetSettings W (api.storage W s) decoded w) as [err w1].
  assert (Hadmin :
            api.bypassAuth W s = true
            \/ exists email,
                 api.ctxEmail r = Some email /\ email <> ""%string
                 /\ In email (api.adminEmails W s)).
  { destruct Hauth as [Hbypass | (email & Hctx & Hnonempty & Hadmin)];
      [ left; exact Hbypass | right ].
    exists email. split; [ exact Hctx | split; [ exact Hnonempty | ] ].
    unfold api.isAdminEmail in Hadmin. apply existsb_exists in Hadmin.
    destruct Hadmin as (admin & Hin & Heq). apply String.eqb_eq in Heq.
    subst admin. exact Hin. }
  unfold api.invalidSettings in Hvalid.
  repeat (apply orb_false_elim in Hvalid; destruct Hvalid as [Hvalid ?]).
  destruct err as [e | ]; cbn [fst snd app flat_map api.setSettingsOf In];
    intros [<- | []];
    (split; [ eexists; split; reflexivity | ]); auto 10.
Qed.

(** X13. [handleUpdateSettings] refuses a request, with 401 or 403,
    exactly when [handleAuthStatus] reports for it that the user is not
    an administrator; it has then called nothing.  A user reported as an
    administrator is reported as logged in. *)
Theorem handleUpdateSettings_admin_only (s : api.Server W) (r : api.Request) (w : W) :
  let response := fst (fst (api.handleUpdateSettings W decodeSettings s r w)) in
  let trace := snd (api.handleUpdateSettings W decodeSettings s r w) in
  exists status : api.authStatusResponse,
    api.ResponseBody (fst (fst (api.handleAuthStatus W s r w))) = api.AuthStatusJSON status
    /\ (api.IsAdmin status = true -> api.LoggedIn status = true)
    /\ (api.IsAdmin status = false <->
        (api.StatusCode response = server.StatusUnauthorized
         \/ api.StatusCode response = server.StatusForbidden))
    /\ (api.IsAdmin status = false -> trace = []).
Proof.
  cbv zeta. unfold api.handleAuthStatus, api.handleUpdateSettings.
  pose proof (authorizeSettings_cases s r) as Hauth.
  eexists. split; [ api_reduce; reflexivity | ].
  cbn [api.IsAdmin api.LoggedIn].
  destruct (api.authorizeSettings W s r) as [refused | ].
  - destruct Hauth as (-> & (msg & code & -> & Hcode) & Hctx).
    api_reduce. cbn [api.StatusCode api.httpError].
    assert (Hnot :
              (if negb
                    (String.eqb
                       match api.ctxEmail r with
                       | Some email => email
                       | None => ""%string
                       end "")
               then api.isAdminEmail W s
                      match api.ctxEmail r with
                      | Some email => email
                      | None => ""%string
                      end
               else false) = false).
    { destruct (api.ctxEmail r) as [email | ]; [ | reflexivity ].
      destruct Hctx as [-> | ->]; [ reflexivity | ].
      destruct (negb _); reflexivity. }
    rewrite Hnot.
    split; [ discriminate | ]. split; [ tauto | reflexivity ].
  - assert (Hadmin :
              (if api.bypassAuth W s then true
               else if negb
                         (String.eqb
                            match api.ctxEmail r with
                            | Some email => email
                            | None => ""%string
                            end "")
                    then api.isAdminEmail W s
                           match api.ctxEmail r with
                           | Some email => email
                           | None => ""%string
                           end
                    else false) = true
              /\ (if api.bypassAuth W s then true
                  else negb
                         (String.eqb
                            match api.ctxEmail r with
                            | Some email => email
                            | None => ""%string
                            end "")) = true).
    { destruct Hauth as [-> | (email & -> & Hnonempty & Hadmin)];
        [ split; reflexivity | ].
      apply String.eqb_neq in Hnonempty. rewrite Hnonempty. cbn [negb].
      rewrite Hadmin. destruct (api.bypassAuth W s); split; reflexivity. }
    destruct Hadmin as [-> ->].
    split; [ reflexivity | ].
    split; [ | discriminate ].
    split; [ discriminate | ].
    destruct (decodeSettings (api.RequestBody r)) as [decoded [e | ]];
      [ api_reduce; cbn [api.StatusCode api.httpError]; intros [H | H]; discriminate H | ].
    destruct (api.invalidSettings decoded);
      [ api_reduce; cbn [api.StatusCode api.httpError]; intros [H | H]; discriminate H | ].
    api_reduce.
    destruct (api.SetSettings W (api.storage W s) decoded w) as [[e | ] w1];
      cbn [fst snd api.StatusCode api.httpError]; intros [H | H]; discriminate H.
Qed.


(** X15. [handleLogin] sets a cookie only for a token that the
    validator accepts for [oidcAudience] and that carries an e-mail
    claim.  The cookie is then the only one set, the answer is 200, and
    the cookie has the name of the session cookie, the token as its
    value, the expiry of the token, the path "/" and the attributes
    HttpOnly, Secure and SameSite=Strict. *)
Theorem handleLogin_cookie
  (s : api.Server W) (r : api.Request) (w : W) (cookie : api.Cookie.t) :
  let response := fst (fst (api.handleLogin W decodeLogin authTokenCookie s r w)) in
  In cookie (api.SetCookie response) ->
  api.SetCookie response = [cookie]
  /\ api.StatusCode response = server.StatusOK
  /\ exists payload email w1,
       decodeLogin (api.RequestBody r) = (api.Cookie.Value cookie, None)
       /\ api.tokenValidator W s (api.Cookie.Value cookie) (api.oidcAudience W s) w
          = (payload, None, w1)
       /\ api.Payload.email payload = Some email
       /\ cookie
          = api.Cookie.mk authTokenCookie (api.Cookie.Value cookie)
              (api.timeUnix (api.Payload.Expires payload)) 0 true true "/"
              api.SameSiteStrictMode.
Proof.
  cbv zeta. unfold api.handleLogin.
  destruct (decodeLogin (api.RequestBody r)) as [token err] eqn:Hdecode.
  destruct err as [e | ]; [ api_reduce; intros [] | ].
  api_reduce.
  destruct (api.tokenValidator W s token (api.oidcAudience W s) w)
    as [[payload err] w1] eqn:Hvalidate.
  destruct err as [e | ]; [ intros [] | ].
  destruct (api.Payload.email payload) as [email | ] eqn:Hemail; [ | intros [] ].
  cbn [fst snd api.SetCookie api.StatusCode In]. intros [<- | []].
  cbn [api.Cookie.Value].
  split; [ reflexivity | split; [ reflexivity | ] ].
  exists payload, email, w1. auto.
Qed.

(** The calls of [handleUpdate] behind the interface of these handlers
    are its own. *)
Lemma coreOf_Core (t : list server.Event) : flat_map api.coreOf (List.map api.Core t) = t.
Proof.
  induction t as [ | e rest IH]; [ reflexivity | ].
  cbn [List.map flat_map api.coreOf app]. rewrite IH. reflexivity.
Qed.

(** X16. Behind [authMiddleware], a request for a tick whose session
    cookie the validator accepts, with an e-mail that is not empty, is
    judged on that e-mail alone, whatever its [Authorization] header
    and whether or not [bypassAuth] is set: with an allowed e-mail the
    tick goes on to read the settings; with another one the answer is
    403 and nothing is called besides the validation of the cookie. *)
Theorem authMiddleware_handleUpdate
  (s : api.Server W) (r : api.Request) (w w1 : W)
  (value : string) (payload : api.Payload.t) (email : string) :
  api.authCookie r = api.CookieFound value ->
  api.tokenValidator W s value (api.oidcAudience W s) w = (payload, None, w1) ->
  api.Payload.email payload = Some email ->
  email <> ""%string ->
  let run := api.authMiddleware W authTokenCookie s (api.handleUpdate W timeNow s) r w in
  if server.emailAllowed W (api.coreServer W s) email
  then flat_map calls.getSettingsOf (flat_map api.coreOf (snd run)) <> []
  else fst (fst run) = api.httpError [] "unauthorized email" server.StatusForbidden
       /\ snd run = [api.EvTokenValidator value (api.oidcAudience W s) payload None].
Proof.
  intros Hcookie Hvalidate Hemail Hnonempty. cbv zeta.
  unfold api.authMiddleware. rewrite Hcookie. api_reduce.
  rewrite Hvalidate, Hemail. unfold api.handleUpdate. api_reduce.
  pose proof (handleUpdate_after_authorization W timeNow (api.coreServer W s)
                (api.coreRequest (api.WithEmail email r)) w1) as Hafter.
  cbv zeta in Hafter.
  rewrite (authorizeUpdate_context W (api.coreServer W s)
             (api.coreRequest (api.WithEmail email r)) w1 email eq_refl Hnonempty)
    in Hafter.
  cbn [fst snd] in Hafter.
  destruct (server.emailAllowed W (api.coreServer W s) email).
  - destruct (server.handleUpdate W timeNow (api.coreServer W s)
                (api.coreRequest (api.WithEmail email r)) w1) as [[response w2] t].
    cbn [fst snd app flat_map api.coreOf] in *.
    rewrite app_nil_r, coreOf_Core. exact Hafter.
  - rewrite Hafter. split; reflexivity.
Qed.

(** X17. The cookie [handleLogin] sets is one [authMiddleware] accepts:
    a later request that carries its value, at a time when the validator
    still answers for it as it did at the login, is handed on with the
    e-mail of the token in its context. *)
Theorem handleLogin_then_authMiddleware
  (s : api.Server W) (next : api.Request -> api.M W api.Response)
  (login later : api.Request) (w w' : W) (cookie : api.Cookie.t) :
  let response := fst (fst (api.handleLogin W decodeLogin authTokenCookie s login w)) in
  let validate world :=
    api.tokenValidator W s (api.Cookie.Value cookie) (api.oidcAudience W s) world in
  In cookie (api.SetCookie response) ->
  api.authCookie later = api.CookieFound (api.Cookie.Value cookie) ->
  fst (validate w') = fst (validate w) ->
  exists payload email,
    fst (validate w') = (payload, None)
    /\ api.Payload.email payload = Some email
    /\ api.authMiddleware W authTokenCookie s next later w'
       = (let '(answer, w2, t) := next (api.WithEmail email later) (snd (validate w')) in
          (answer, w2,
           api.EvTokenValidator (api.Cookie.Value cookie) (api.oidcAudience W s) payload None
             :: t)).
Proof.
  cbv zeta. unfold api.handleLogin.
  destruct (decodeLogin (api.RequestBody login)) as [token err].
  destruct err as [e | ]; [ api_reduce; intros [] | ].
  api_reduce.
  destruct (api.tokenValidator W s token (api.oidcAudience W s) w)
    as [[payload err] w1] eqn:Hvalidate.
  destruct err as [e | ]; [ intros [] | ].
  destruct (api.Payload.email payload) as [email | ] eqn:Hemail; [ | intros [] ].
  cbn [fst snd api.SetCookie In]. intros [<- | []].
  cbn [api.Cookie.Value]. intros Hcookie Hsame.
  rewrite Hvalidate in Hsame. cbn [fst] in Hsame.
  exists payload, email. split; [ exact Hsame | split; [ exact Hemail | ] ].
  unfold api.authMiddleware. rewrite Hcookie. api_reduce.
  destruct (api.tokenValidator W s token (api.oidcAudience W s) w') as [[payload' err'] w2].
  cbn [fst snd] in Hsame |- *. injection Hsame as -> ->. rewrite Hemail. reflexivity.
Qed.

End API.

(** * The extra properties on the fixtures *)

(** A tick against an ESS in the emergency mode. *)
Lemma handleUpdate_emergency_witness :
  fst (fst TestAPI.emergencyRun)
  = server.mkResponse server.StatusOK [] (server.StatusJSON "emergency mode" None None)
  /\ flat_map calls.currentPriceOf (snd TestAPI.emergencyRun) = []
  /\ flat_map server.decidedOf (snd TestAPI.emergencyRun) = []
  /\ flat_map server.setModesOf (snd TestAPI.emergencyRun) = []
  /\ flat_map server.insertedOf (snd TestAPI.emergencyRun) = [].
Proof.
  apply (handleUpdate_emergency unit TestServer.timeNow _ _ _ TestAPI.emergencyStatus);
    reflexivity.
Defined.

(** The command of the tick whose [SetModes] fails: it follows a
    decision for [Load]. *)
Lemma handleUpdate_commands_witness :
  In (BatteryModeLoad, SolarModeAny, Some "ess offline"%string)
    (flat_map server.setModesOf (snd TestServer.failingRun))
  /\ exists decision,
       flat_map server.decidedOf (snd TestServer.failingRun) = [(decision, None)]
       /\ Action.BatteryMode (Decision.Action decision) = BatteryModeLoad.
Proof.
  assert (Hin : In (BatteryModeLoad, SolarModeAny, Some "ess offline"%string)
                  (flat_map server.setModesOf (snd TestServer.failingRun)))
    by (vm_compute; left; reflexivity).
  split; [ exact Hin | ].
  exact (proj2 (proj2 (proj2 (proj2 (proj2
           (handleUpdate_commands unit TestServer.timeNow TestServer.failingServer
              (TestServer.request []) tt _ _ _ Hin)))))).
Defined.

(** The action that tick answers with is the one it logged, with the
    mode of the decision. *)
Lemma handleUpdate_answers_logged_action_witness :
  exists action : Action.t,
    server.ResponseBody (fst (fst TestServer.failingRun))
    = server.StatusJSON "success" (Some action) (Some TestServer.currentPrice)
    /\ flat_map server.insertedOf (snd TestServer.failingRun) = [action]
    /\ Action.BatteryMode action = BatteryModeLoad.
Proof.
  pose (action :=
          Action.setDescription "Sufficient Battery (FAILED: ess offline)"
            (Decision.Action TestServer.failingDecision)).
  assert (Hbody :
            server.ResponseBody (fst (fst TestServer.failingRun))
            = server.StatusJSON "success" (Some action) (Some TestServer.currentPrice))
    by (vm_compute; reflexivity).
  destruct (handleUpdate_answers_logged_action unit TestServer.timeNow
              TestServer.failingServer (TestServer.request []) tt
              "success" action (Some TestServer.currentPrice) Hbody)
    as (_ & Hlogged & _).
  exists action. split; [ exact Hbody | ]. split; [ exact Hlogged | ].
  vm_compute. reflexivity.
Defined.

(** What the controller was called with in that tick. *)
Lemma handleUpdate_Decide_inputs_witness :
  flat_map calls.getSettingsOf (snd TestServer.failingRun)
  = [(TestDecide.baseSettings, None)]
  /\ flat_map server.appliedOf (snd TestServer.failingRun)
     = [(TestDecide.baseSettings, None)]
  /\ flat_map server.getStatusOf (snd TestServer.failingRun)
     = [(TestDecide.baseStatus, None)]
  /\ flat_map calls.currentPriceOf (snd TestServer.failingRun)
     = [(TestServer.currentPrice, None)]
  /\ (exists err,
        flat_map calls.futurePricesOf (snd TestServer.failingRun) = [([], err)])
  /\ (exists start stop err,
        flat_map calls.energyHistoryOf (snd TestServer.failingRun)
        = [(start, stop, [], err)]).
Proof.
  apply (handleUpdate_Decide_inputs unit TestServer.timeNow TestServer.failingServer
           (TestServer.request []) tt).
  vm_compute. left. reflexivity.
Defined.


(** The administrator saves valid settings. *)
Lemma handleUpdateSettings_guarded_witness :
  In TestAPI.newSettings (flat_map api.setSettingsOf (snd TestAPI.saveRun))
  /\ snd TestAPI.saveRun = [api.EvSetSettings TestAPI.newSettings None]
  /\ api.StatusCode (fst (fst TestAPI.saveRun)) = server.StatusOK.
Proof.
  assert (Hin : In TestAPI.newSettings (flat_map api.setSettingsOf (snd TestAPI.saveRun)))
    by (vm_compute; left; reflexivity).
  split; [ exact Hin | ].
  destruct (handleUpdateSettings_guarded unit TestAPI.decodeSettings TestAPI.theServer
              (TestAPI.requestOf TestAPI.adminEmail "new settings") tt
              TestAPI.newSettings Hin) as ((err & Htrace & Hcode) & _).
  split; vm_compute; reflexivity.
Defined.

(** The administrator's login sets the session cookie. *)
Lemma handleLogin_cookie_witness :
  api.SetCookie (fst (fst TestAPI.loginRun)) = [TestAPI.loginCookie]
  /\ api.StatusCode (fst (fst TestAPI.loginRun)) = server.StatusOK.
Proof.
  destruct (handleLogin_cookie unit TestAPI.decodeLogin TestAPI.authTokenCookie
              TestAPI.theServer (TestAPI.requestOf "" "admin-token") tt
              TestAPI.loginCookie ltac:(vm_compute; left; reflexivity))
    as (Hcookies & Hcode & _).
  split; [ exact Hcookies | exact Hcode ].
Defined.

(** Another user's tick is refused on the e-mail of the session. *)
Lemma authMiddleware_handleUpdate_witness :
  fst (fst TestAPI.userTick)
  = api.httpError [] "unauthorized email" server.StatusForbidden
  /\ snd TestAPI.userTick
     = [api.EvTokenValidator "user-token" TestAPI.audience
          (api.Payload.mk (Some TestAPI.userEmail) 1704070800) None].
Proof.
  exact (authMiddleware_handleUpdate unit TestServer.timeNow TestAPI.authTokenCookie
           TestAPI.theServer (TestAPI.requestWithCookie "user-token") tt tt
           "user-token" (api.Payload.mk (Some TestAPI.userEmail) 1704070800)
           TestAPI.userEmail eq_refl eq_refl eq_refl ltac:(discriminate)).
Defined.

(** After the login, the session cookie opens the status of the
    administrator. *)
Lemma handleLogin_then_authMiddleware_witness :
  exists payload email,
    api.Payload.email payload = Some email
    /\ api.authMiddleware unit TestAPI.authTokenCookie TestAPI.theServer
         (api.handleAuthStatus unit TestAPI.theServer)
         (TestAPI.requestWithCookie "admin-token") tt
       = (let '(answer, w2, t) :=
            api.handleAuthStatus unit TestAPI.theServer
              (api.WithEmail email (TestAPI.requestWithCookie "admin-token")) tt in
          (answer, w2,
           api.EvTokenValidator "admin-token" TestAPI.audience payload None :: t)).
Proof.
  destruct (handleLogin_then_authMiddleware unit TestAPI.decodeLogin TestAPI.authTokenCookie
              TestAPI.theServer (api.handleAuthStatus unit TestAPI.theServer)
              (TestAPI.requestOf "" "admin-token")
              (TestAPI.requestWithCookie "admin-token") tt tt TestAPI.loginCookie
              ltac:(vm_compute; left; reflexivity) eq_refl eq_refl)
    as (payload & email & _ & Hemail & Hrun).
  exists payload, email. split; [ exact Hemail | exact Hrun ].
Defined.
